(** * Dual-Path-Monitoring: a shallow embedding of the monitoring core

    The development embeds the parts of the Python sources that the
    specification talks about:

    - [cid.py]         the Contact-ID decoder ([DecodeCID.getDescription]);
    - [telnetEVL4.py]  the socket-protocol decoders and rolling histories;
    - [scanEVL4log.py] the log scanner window and its reported flags;
    - [mymodem.py]     the SMS send path, duplicate suppression and pruning;
    - [DPM.py]         the budget gate, the correlator, the classifier and
                       the inbound requests;
    - [config.py]      the validation of the phone rosters;
    - [pingone.py]     the round-robin of the connectivity probe;
    - [stupefy.py]     the protection of the passwords.

    Python [int] is [Z]; [str] is [string] over 8-bit characters; a [dict]
    keyed by timestamps is a [gmap Z _]; a Python [float] is an IEEE-754
    binary64 value of the Standard Library's [SpecFloat]; an exception is
    the [Raise] constructor of [result]. *)

From Stdlib Require Import ZArith List Bool Ascii String Lia.
From Stdlib Require Import Floats.SpecFloat DecimalString.
From stdpp Require Import base option list gmap strings sorting fin_maps.

Local Open Scope Z_scope.

(** ** Exceptions and results *)

Inductive exn : Type :=
| KeyError | IndexError | ValueError | AttributeError | NameError | IOError
| OverflowError | ZeroDivisionError | MemoryError.

Inductive result (A : Type) : Type :=
| Ok (a : A)
| Raise (e : exn).
Arguments Ok {A} a.
Arguments Raise {A} e.

Definition bind {A B} (r : result A) (k : A -> result B) : result B :=
  match r with
  | Ok a => k a
  | Raise e => Raise e
  end.

Notation "x <- r ;;; k" := (bind r (fun x => k))
  (at level 100, r at next level, right associativity).

Definition is_Ok {A} (r : result A) : bool :=
  match r with Ok _ => true | Raise _ => false end.

(** ** Python strings *)

Module Py.

(** [c in chars], for a character [c]. *)
Fixpoint mem_char (c : ascii) (chars : string) : bool :=
  match chars with
  | EmptyString => false
  | String d chars' => Ascii.eqb c d || mem_char c chars'
  end.

(** [s.lstrip(chars)], [s.rstrip(chars)], [s.strip(chars)]. *)
Fixpoint lstrip (chars s : string) : string :=
  match s with
  | EmptyString => EmptyString
  | String c s' => if mem_char c chars then lstrip chars s' else s
  end.

Fixpoint rstrip (chars s : string) : string :=
  match s with
  | EmptyString => EmptyString
  | String c s' =>
      match rstrip chars s' with
      | EmptyString => if mem_char c chars then EmptyString else String c EmptyString
      | r => String c r
      end
  end.

Definition strip (chars s : string) : string := rstrip chars (lstrip chars s).

(** The characters [str.strip()] removes when no argument is given:
    the 8-bit characters for which [str.isspace] holds, which are the
    codes 9 to 13, 28 to 32, 133 (next line) and 160 (no-break space). *)
Definition whitespace : string :=
  String (ascii_of_nat 9) (String (ascii_of_nat 10) (String (ascii_of_nat 11)
 (String (ascii_of_nat 12) (String (ascii_of_nat 13) (String (ascii_of_nat 28)
 (String (ascii_of_nat 29) (String (ascii_of_nat 30) (String (ascii_of_nat 31)
 (String (ascii_of_nat 32) (String (ascii_of_nat 133) (String (ascii_of_nat 160)
  EmptyString))))))))))).

Definition strip_ws (s : string) : string := strip whitespace s.

(** [s.split(sep)] for a one-character separator. *)
Fixpoint split (sep : ascii) (s : string) : list string :=
  match s with
  | EmptyString => [EmptyString]
  | String c s' =>
      if Ascii.eqb c sep then EmptyString :: split sep s'
      else match split sep s' with
           | h :: t => String c h :: t
           | [] => [String c EmptyString]
           end
  end.

(** [s.startswith(p)]. *)
Definition startswith (s p : string) : bool := String.prefix p s.

(** [sub in s]. *)
Fixpoint contains (sub s : string) : bool :=
  String.prefix sub s ||
  match s with
  | EmptyString => false
  | String _ s' => contains sub s'
  end.

(** [s.count(sub)]: the number of non-overlapping occurrences, scanning
    from the left; [skip] characters of a match are still to be passed. *)
Fixpoint count_go (sub : string) (skip : nat) (s : string) : Z :=
  match s with
  | EmptyString => 0
  | String _ s' =>
      match skip with
      | S k => count_go sub k s'
      | O => if String.prefix sub s
             then 1 + count_go sub (Nat.pred (String.length sub)) s'
             else count_go sub 0 s'
      end
  end.

Definition count (sub s : string) : Z :=
  match sub with
  | EmptyString => Z.of_nat (String.length s) + 1
  | _ => count_go sub 0 s
  end.

(** [s.replace(old, new)]. *)
Fixpoint replace_go (old new : string) (skip : nat) (s : string) : string :=
  match s with
  | EmptyString => EmptyString
  | String c s' =>
      match skip with
      | S k => replace_go old new k s'
      | O => if String.prefix old s
             then new +:+ replace_go old new (Nat.pred (String.length old)) s'
             else String c (replace_go old new 0 s')
      end
  end.

Fixpoint intersperse (new s : string) : string :=
  match s with
  | EmptyString => new
  | String c s' => new +:+ String c (intersperse new s')
  end.

Definition replace (old new s : string) : string :=
  match old with
  | EmptyString => intersperse new s
  | _ => replace_go old new 0 s
  end.

(** [s.upper()] and [s.lower()] on 8-bit characters: the ASCII letters
    and the accented letters, whose capitals are the codes 192 to 222
    but 215 (the multiplication sign) and whose small forms are the codes
    224 to 254 but 247 (the division sign). The capital of the sharp s
    (223) is the two letters SS. The capitals of the micro sign (181) and
    of the y with diaeresis (255) are not 8-bit characters: these two
    are left as they are (the sources compare and search upper-cased
    text for words of ASCII letters and digits only, which neither these
    two characters nor their capitals are part of). *)
Definition upper_char (c : ascii) : ascii :=
  let n := nat_of_ascii c in
  if (97 <=? n)%nat && (n <=? 122)%nat then ascii_of_nat (n - 32)
  else if (224 <=? n)%nat && (n <=? 254)%nat && negb (n =? 247)%nat
       then ascii_of_nat (n - 32)
       else c.

Definition lower_char (c : ascii) : ascii :=
  let n := nat_of_ascii c in
  if (65 <=? n)%nat && (n <=? 90)%nat then ascii_of_nat (n + 32)
  else if (192 <=? n)%nat && (n <=? 222)%nat && negb (n =? 215)%nat
       then ascii_of_nat (n + 32)
       else c.

Fixpoint map_string (f : ascii -> ascii) (s : string) : string :=
  match s with
  | EmptyString => EmptyString
  | String c s' => String (f c) (map_string f s')
  end.

Fixpoint upper (s : string) : string :=
  match s with
  | EmptyString => EmptyString
  | String c s' =>
      if (nat_of_ascii c =? 223)%nat then String "S" (String "S" (upper s'))
      else String (upper_char c) (upper s')
  end.

Definition lower : string -> string := map_string lower_char.

(** [s[i]]: [IndexError] past the end. *)
Definition index (s : string) (i : nat) : result string :=
  match String.get i s with
  | Some c => Ok (String c EmptyString)
  | None => Raise IndexError
  end.

(** [s[a:b]] for [0 <= a <= b]; slices never raise. *)
Definition slice (s : string) (a b : nat) : string := String.substring a (b - a) s.

(** [l[i]] on a list. *)
Definition nth_item {A} (l : list A) (i : nat) : result A :=
  match l !! i with
  | Some x => Ok x
  | None => Raise IndexError
  end.

(** [str(n)] for an [int]. *)
Definition str (n : Z) : string := NilZero.string_of_int (Z.to_int n).

Fixpoint zeros (n : nat) : string :=
  match n with
  | O => EmptyString
  | S k => String "0" (zeros k)
  end.

(** [s.zfill(width)]: zeros go after a leading sign. *)
Definition zfill (width : nat) (s : string) : string :=
  let pad := zeros (width - String.length s) in
  match s with
  | String c s' =>
      if Ascii.eqb c "-" || Ascii.eqb c "+" then String c (pad +:+ s') else pad +:+ s
  | EmptyString => pad
  end.

(** ['%03d' % n]. *)
Definition fmt03d (n : Z) : string := zfill 3 (str n).

(** [int(s, 16)]: surrounding whitespace, an optional sign, an optional
    [0x] prefix, then hexadecimal digits, single underscores allowed
    between digits (and after the prefix). *)
Definition hex_digit (c : ascii) : option Z :=
  let n := nat_of_ascii c in
  if (48 <=? n)%nat && (n <=? 57)%nat then Some (Z.of_nat (n - 48))
  else if (65 <=? n)%nat && (n <=? 70)%nat then Some (Z.of_nat (n - 55))
  else if (97 <=? n)%nat && (n <=? 102)%nat then Some (Z.of_nat (n - 87))
  else None.

(** [after_digit] tells whether the previous character was a digit, so
    that an underscore may follow. *)
Fixpoint hex_digits (acc : Z) (after_digit : bool) (s : string) : option Z :=
  match s with
  | EmptyString => if after_digit then Some acc else None
  | String c s' =>
      if Ascii.eqb c "_" then
        if after_digit then hex_digits acc false s' else None
      else match hex_digit c with
           | Some d => hex_digits (16 * acc + d) true s'
           | None => None
           end
  end.

Definition hex_body (s : string) : option Z :=
  match s with
  | String "0" (String x s') =>
      if Ascii.eqb x "x" || Ascii.eqb x "X" then
        match s' with
        | String "_" s'' => hex_digits 0 false s''
        | _ => hex_digits 0 false s'
        end
      else hex_digits 0 false s
  | _ => hex_digits 0 false s
  end.

Definition int16 (s : string) : result Z :=
  let t := strip_ws s in
  let signed :=
    match t with
    | String "-" t' => option_map Z.opp (hex_body t')
    | String "+" t' => hex_body t'
    | _ => hex_body t
    end in
  match signed with
  | Some n => Ok n
  | None => Raise ValueError
  end.

End Py.


(** ** Python floats: IEEE-754 binary64, round to nearest even *)

Module PyFloat.

Definition prec : Z := 53.
Definition emax : Z := 1024.

Definition finite_or_overflow (f : spec_float) : result spec_float :=
  match f with
  | S754_infinity _ => Raise OverflowError
  | _ => Ok f
  end.

(** [float(z)] for an [int]. *)
Definition of_int (z : Z) : result spec_float :=
  finite_or_overflow (binary_normalize prec emax z 0 false).

(** [a / b] on two [int]s: the correctly rounded quotient. *)
Definition truediv_int (a b : Z) : result spec_float :=
  match a, b with
  | _, Z0 => Raise ZeroDivisionError
  | Z0, _ => Ok (S754_zero (b <? 0))
  | _, _ =>
      finite_or_overflow
        (SFdiv prec emax (S754_finite (a <? 0) (Z.to_pos (Z.abs a)) 0)
                         (S754_finite (b <? 0) (Z.to_pos (Z.abs b)) 0))
  end.

Definition is_zero (f : spec_float) : bool :=
  match f with S754_zero _ => true | _ => false end.

(** [x * y], [x + y] and [x / y] on floats. *)
Definition mul (x y : spec_float) : spec_float := SFmul prec emax x y.
Definition add (x y : spec_float) : spec_float := SFadd prec emax x y.
Definition div (x y : spec_float) : result spec_float :=
  if is_zero y then Raise ZeroDivisionError else Ok (SFdiv prec emax x y).

(** Mixed arithmetic converts the [int] operand first. *)
Definition mul_int (x : spec_float) (n : Z) : result spec_float :=
  y <- of_int n ;;; Ok (mul x y).
Definition div_int (x : spec_float) (n : Z) : result spec_float :=
  y <- of_int n ;;; div x y.
Definition int_add (n : Z) (x : spec_float) : result spec_float :=
  y <- of_int n ;;; Ok (add y x).

(** Python compares a float with an [int] exactly. *)
Definition cmp_int (f : spec_float) (z : Z) : option comparison :=
  match f with
  | S754_zero _ => Some (0 ?= z)
  | S754_finite s m e =>
      let v := if s then Z.neg m else Z.pos m in
      if 0 <=? e then Some (v * 2 ^ e ?= z) else Some (v ?= z * 2 ^ (- e))
  | S754_infinity s => Some (if s then Lt else Gt)
  | S754_nan => None
  end.

Definition eq_int (f : spec_float) (z : Z) : bool :=
  match cmp_int f z with Some Eq => true | _ => false end.

Definition le_int (f : spec_float) (z : Z) : bool :=
  match cmp_int f z with Some Lt | Some Eq => true | _ => false end.

(** [round(f)]: to the nearest integer, ties to even. *)
Definition round (f : spec_float) : result Z :=
  match f with
  | S754_zero _ => Ok 0
  | S754_finite s m e =>
      let sgn := if s then -1 else 1 in
      if 0 <=? e then Ok (sgn * (Z.pos m * 2 ^ e))
      else
        let d := 2 ^ (- e) in
        let q := Z.pos m / d in
        let r := Z.pos m mod d in
        let n := if 2 * r <? d then q
                 else if d <? 2 * r then q + 1
                 else if Z.even q then q else q + 1 in
        Ok (sgn * n)
  | S754_infinity _ => Raise OverflowError
  | S754_nan => Raise ValueError
  end.

(** [int(f)]: truncation towards zero. *)
Definition to_int (f : spec_float) : result Z :=
  match f with
  | S754_zero _ => Ok 0
  | S754_finite s m e =>
      let sgn := if s then -1 else 1 in
      if 0 <=? e then Ok (sgn * (Z.pos m * 2 ^ e))
      else Ok (sgn * (Z.pos m / 2 ^ (- e)))
  | S754_infinity _ => Raise OverflowError
  | S754_nan => Raise ValueError
  end.

End PyFloat.

(** ** Dictionaries *)

(** [d[k]]: [KeyError] when the key is missing. *)
Definition getitem `{Countable K} {V} (d : gmap K V) (k : K) : result V :=
  match d !! k with
  | Some v => Ok v
  | None => Raise KeyError
  end.

(** [sorted(d.keys())] and [sorted(d.keys(), reverse=True)]. *)
Definition sorted_keys {V} (d : gmap Z V) : list Z :=
  merge_sort Z.le (map_to_list d).*1.

Definition sorted_keys_desc {V} (d : gmap Z V) : list Z := reverse (sorted_keys d).

(** [try: body except KeyError: handler]. *)
Definition except_KeyError {A} (body handler : result A) : result A :=
  match body with
  | Raise KeyError => handler
  | _ => body
  end.

(** [try: body except Exception: handler]. *)
Definition except_Exception {A} (body handler : result A) : result A :=
  match body with
  | Raise _ => handler
  | _ => body
  end.

Local Open Scope string_scope.
Local Open Scope Z_scope.

(** ** cid.py: the Contact-ID decoder *)

Module Cid.

(** Default zone and user descriptions (class variables). *)
Definition default_zones : gmap string string := list_to_map [
    ("001", "zone-1"); ("002", "zone-2"); ("003", "zone-3"); ("004", "zone-4");
    ("005", "zone-5"); ("006", "zone-6"); ("007", "zone-7"); ("008", "zone-8");
    ("009", "zone-9"); ("010", "zone-10"); ("011", "zone-11"); ("012", "zone-12");
    ("013", "zone-13"); ("014", "zone-14"); ("015", "zone-15"); ("016", "zone-16")
  ].

Definition default_users : gmap string string := list_to_map [
    ("001", "Installer"); ("002", "Master"); ("003", "user-3"); ("004", "user-4");
    ("005", "user-5"); ("006", "user-6"); ("007", "user-7"); ("008", "user-8");
    ("009", "user-9"); ("010", "user-10"); ("011", "user-11"); ("012", "user-12")
  ].

Definition CID_EventCategory : gmap string string := list_to_map [
    ("A", "Medical Alarms"); ("B", "Fire Alarms"); ("C", "Panic Alarms");
    ("D", "Burglar Alarms"); ("E", "General Alarm"); ("F", "24 Hour Non-Burglary");
    ("G", "Fire Supervisory"); ("H", "System Troubles");
    ("I", "Sounder/Relay Trouble"); ("J", "System Peripheral Trouble");
    ("K", "Communication Troubles"); ("L", "Protection Loop");
    ("M", "Sensor Trouble"); ("N", "Open/Close"); ("O", "Remote Access");
    ("P", "Access Control"); ("Q", "System Disables");
    ("R", "Sounder/Relay Disables"); ("S", "System Peripheral Disables");
    ("T", "Communication Disables"); ("U", "Bypasses"); ("V", "Test/Miscellaneous");
    ("W", "Event Log"); ("X", "Scheduling"); ("Y", "Personnel Monitoring");
    ("Z", "Miscellaneous"); ("*", "Customized")
  ].

Definition CID_EventQualifiers : gmap string (gmap string string) := list_to_map [
    ("a", list_to_map [("1", "New event"); ("3", "Restore event"); ("6", "Duplicate message")]);
    ("b", list_to_map [("1", "Open event"); ("3", "Close event"); ("6", "Duplicate message")]);
    ("c", list_to_map [("1", "Start event"); ("3", "End event"); ("6", "Duplicate message")]);
    ("d", list_to_map [("1", "Activation event"); ("3", "Deactivation event");
                       ("6", "Duplicate message")])
  ].

(** Event code |-> (category code, description, agent kind, qualifier selector). *)
Definition CID_EventCodes_list : list (string * (string * string * string * string)) := [
  ("100", ("A", "Medical Emergency", "Z", "a"));
  ("101", ("A", "Pendant Transmitter", "Z", "a"));
  ("102", ("A", "Failed to report in", "Z", "a"));
  ("110", ("B", "Fire", "Z", "a"));
  ("111", ("B", "Smoke", "Z", "a"));
  ("112", ("B", "Combustion", "Z", "a"));
  ("113", ("B", "Water flow", "Z", "a"));
  ("114", ("B", "Heat", "Z", "a"));
  ("115", ("B", "Pull Station", "Z", "a"));
  ("116", ("B", "Duct", "Z", "a"));
  ("117", ("B", "Flame", "Z", "a"));
  ("118", ("B", "Near Alarm", "Z", "a"));
  ("120", ("C", "Panic", "Z", "a"));
  ("121", ("C", "Duress", "U", "a"));
  ("122", ("C", "Silent", "Z", "a"));
  ("123", ("C", "Audible", "Z", "a"));
  ("124", ("C", "Duress-Access granted", "Z", "a"));
  ("125", ("C", "Duress-Egress granted", "Z", "a"));
  ("126", ("C", "Hold-up suspicion print", "U", "a"));
  ("130", ("D", "Burglary", "Z", "a"));
  ("131", ("D", "Perimeter", "Z", "a"));
  ("132", ("D", "Interior", "Z", "a"));
  ("133", ("D", "24 Hour burglary", "Z", "a"));
  ("134", ("D", "Entry/Exit", "Z", "a"));
  ("135", ("D", "Day/Night", "Z", "a"));
  ("136", ("D", "Outdoor", "Z", "a"));
  ("137", ("D", "Tamper", "Z", "a"));
  ("138", ("D", "Near alarm", "Z", "a"));
  ("139", ("D", "Intrusion Verifier", "Z", "a"));
  ("140", ("E", "General Alarm", "Z", "a"));
  ("141", ("E", "Polling loop open", "Z", "a"));
  ("142", ("E", "Polling loop short", "Z", "a"));
  ("143", ("E", "Expansion module failure", "Z", "a"));
  ("144", ("E", "Sensor tamper", "Z", "a"));
  ("145", ("E", "Expansion module tamper", "Z", "a"));
  ("146", ("E", "Silent Burglary", "Z", "a"));
  ("147", ("E", "Sensor Supervision Failure", "Z", "a"));
  ("150", ("F", "24 Hour Non-Burglary", "Z", "a"));
  ("151", ("F", "Gas detected", "Z", "a"));
  ("152", ("F", "Refrigeration", "Z", "a"));
  ("153", ("F", "Loss of heat", "Z", "a"));
  ("154", ("F", "Water Leakage", "Z", "a"));
  ("155", ("F", "Foil Break", "Z", "a"));
  ("156", ("F", "Day Trouble", "Z", "a"));
  ("157", ("F", "Low bottled gas level", "Z", "a"));
  ("158", ("F", "High temp", "Z", "a"));
  ("159", ("F", "Low temp", "Z", "a"));
  ("161", ("F", "Loss of air flow", "Z", "a"));
  ("162", ("F", "Carbon Monoxide detected", "Z", "a"));
  ("163", ("F", "Tank level", "Z", "a"));
  ("168", ("F", "High Humidity", "Z", "a"));
  ("169", ("F", "Low Humidity", "Z", "a"));
  ("200", ("G", "Fire Supervisory", "Z", "a"));
  ("201", ("G", "Low water pressure", "Z", "a"));
  ("202", ("G", "Low CO2", "Z", "a"));
  ("203", ("G", "Gate valve sensor", "Z", "a"));
  ("204", ("G", "Low water level", "Z", "a"));
  ("205", ("G", "Pump activated", "Z", "a"));
  ("206", ("G", "Pump failure", "Z", "a"));
  ("300", ("H", "System Trouble", "Z", "a"));
  ("301", ("H", "AC Loss", "Z", "a"));
  ("302", ("H", "Low system battery", "Z", "a"));
  ("303", ("H", "RAM Checksum bad", "Z", "a"));
  ("304", ("H", "ROM checksum bad", "Z", "a"));
  ("305", ("H", "System reset", "Z", "a"));
  ("306", ("H", "Panel programming changed", "Z", "a"));
  ("307", ("H", "Self-test failure", "Z", "a"));
  ("308", ("H", "System shutdown", "Z", "a"));
  ("309", ("H", "Battery test failure", "Z", "a"));
  ("310", ("H", "Ground fault", "Z", "a"));
  ("311", ("H", "Battery Missing/Dead", "Z", "a"));
  ("312", ("H", "Power Supply Overcurrent", "Z", "a"));
  ("313", ("H", "Engineer Reset", "U", "a"));
  ("314", ("H", "Primary Power Supply Failure", "Z", "a"));
  ("316", ("H", "System Tamper", "X", "a"));
  ("320", ("I", "Sounder/Relay", "Z", "a"));
  ("321", ("I", "Bell 1", "Z", "a"));
  ("322", ("I", "Bell 2", "Z", "a"));
  ("323", ("I", "Alarm relay", "Z", "a"));
  ("324", ("I", "Trouble relay", "Z", "a"));
  ("325", ("I", "Reversing relay", "Z", "a"));
  ("326", ("I", "Notification Appliance Ckt. #3", "Z", "a"));
  ("327", ("I", "Notification Appliance Ckt. #4", "Z", "a"));
  ("330", ("J", "System Peripheral trouble", "Z", "a"));
  ("331", ("J", "Polling loop open", "Z", "a"));
  ("332", ("J", "Polling loop short", "Z", "a"));
  ("333", ("J", "Expansion module failure", "Z", "a"));
  ("334", ("J", "Repeater failure", "Z", "a"));
  ("335", ("J", "Local printer out of paper", "Z", "a"));
  ("336", ("J", "Local printer failure", "Z", "a"));
  ("337", ("J", "Exp. Module DC Loss", "Z", "a"));
  ("338", ("J", "Exp. Module Low Battery", "Z", "a"));
  ("339", ("J", "Exp. Module Reset", "Z", "a"));
  ("341", ("J", "Exp. Module Tamper", "Z", "a"));
  ("342", ("J", "Exp. Module AC Loss", "Z", "a"));
  ("343", ("J", "Exp. Module self-test fail", "Z", "a"));
  ("344", ("J", "RF Receiver Jam Detect", "Z", "a"));
  ("345", ("J", "AES Encryption disabled/enabled", "Z", "a"));
  ("350", ("K", "Communication trouble", "Z", "a"));
  ("351", ("K", "Telco 1 fault", "Z", "a"));
  ("352", ("K", "Telco 2 fault", "Z", "a"));
  ("353", ("K", "Long Range Radio xmitter fault", "Z", "a"));
  ("354", ("K", "Failure to communicate event", "Z", "a"));
  ("355", ("K", "Loss of Radio supervision", "Z", "a"));
  ("356", ("K", "Loss of central polling", "Z", "a"));
  ("357", ("K", "Long Range Radio Transmitter VSWR", "Z", "a"));
  ("370", ("L", "Protection loop", "Z", "a"));
  ("371", ("L", "Protection loop open", "Z", "a"));
  ("372", ("L", "Protection loop short", "Z", "a"));
  ("373", ("L", "Fire trouble", "Z", "a"));
  ("374", ("L", "Exit error by User", "Z", "a"));
  ("375", ("L", "Panic zone trouble", "Z", "a"));
  ("376", ("L", "Hold-up zone trouble", "Z", "a"));
  ("377", ("L", "Swinger Trouble", "Z", "a"));
  ("378", ("L", "Cross-zone Trouble", "Z", "a"));
  ("380", ("M", "Sensor trouble global", "Z", "a"));
  ("381", ("M", "Loss of supervision - RF", "Z", "a"));
  ("382", ("M", "Loss of supervision - RPM", "Z", "a"));
  ("383", ("M", "Sensor tamper", "Z", "a"));
  ("384", ("M", "RF low battery", "Z", "a"));
  ("385", ("M", "Smoke detector Hi sensitivity", "Z", "a"));
  ("386", ("M", "Smoke detector Low sensitivity", "Z", "a"));
  ("387", ("M", "Intrusion detector Hi sensitivity", "Z", "a"));
  ("388", ("M", "Intrusion detector Low sensitivity", "Z", "a"));
  ("389", ("M", "Sensor self-test failure", "Z", "a"));
  ("391", ("M", "Sensor Watch failure", "Z", "a"));
  ("392", ("M", "Drift Compensation Error", "Z", "a"));
  ("393", ("M", "Maintenance Alert", "Z", "a"));
  ("400", ("N", "Open/Close", "U", "b"));
  ("401", ("N", "Open/Close by User", "U", "b"));
  ("402", ("N", "Group Open/Close", "U", "b"));
  ("403", ("N", "Automatic Open/Close", "U", "b"));
  ("404", ("N", "Late to O/C (Note: use 453, 454 instead)", "U", "b"));
  ("405", ("N", "Deferred O/C (Obsolete - do not use)", "U", "b"));
  ("406", ("N", "Cancel (by User)", "U", "b"));
  ("407", ("N", "Remote arm/disarm", "U", "b"));
  ("408", ("N", "Quick arm", "U", "b"));
  ("409", ("N", "Keyswitch Open/Close", "U", "b"));
  ("411", ("O", "Callback requested", "U", "a"));
  ("412", ("O", "Successful download access", "U", "a"));
  ("413", ("O", "Unsuccessful access", "U", "a"));
  ("414", ("O", "System shutdown command received", "U", "a"));
  ("415", ("O", "Dialer shutdown command received", "U", "a"));
  ("416", ("O", "Successful Upload", "Z", "a"));
  ("421", ("P", "Access denied", "U", "a"));
  ("422", ("P", "Access report by User", "U", "a"));
  ("423", ("P", "Forced Access", "Z", "a"));
  ("424", ("P", "Egress Denied", "U", "a"));
  ("425", ("P", "Egress Granted", "U", "a"));
  ("426", ("P", "Access Door propped open", "Z", "a"));
  ("427", ("P", "Access point Door Status Monitor trouble", "Z", "a"));
  ("428", ("P", "Access point Request To Exit trouble", "Z", "a"));
  ("429", ("P", "Access program mode entry", "U", "a"));
  ("430", ("P", "Access program mode exit", "U", "a"));
  ("431", ("P", "Access threat level change", "U", "a"));
  ("432", ("P", "Access relay/trigger fail", "Z", "a"));
  ("433", ("P", "Access Request to Exit shunt", "Z", "a"));
  ("434", ("P", "Access Door Status Monitor shunt", "Z", "a"));
  ("435", ("P", "Second Person Access", "U", "a"));
  ("436", ("P", "Irregular Access", "U", "a"));
  ("441", ("N", "Armed Stay", "U", "b"));
  ("442", ("N", "Keyswitch Armed Stay", "U", "b"));
  ("450", ("N", "Exception Open/Close", "U", "b"));
  ("451", ("N", "Early Open/Close", "U", "b"));
  ("452", ("N", "Late Open/Close", "U", "b"));
  ("453", ("N", "Failed to Open", "U", "b"));
  ("454", ("N", "Failed to Close", "U", "b"));
  ("455", ("N", "Auto-arm Failed", "U", "b"));
  ("456", ("N", "Partial Arm", "U", "b"));
  ("457", ("N", "User Exit Error", "U", "b"));
  ("458", ("N", "User on Premises", "U", "b"));
  ("459", ("N", "Recent Close", "U", "b"));
  ("461", ("N", "Wrong Code Entry", "Z", "b"));
  ("462", ("N", "Legal Code Entry", "U", "b"));
  ("463", ("N", "Re-arm after Alarm", "U", "b"));
  ("464", ("N", "Auto-arm Time Extended", "U", "b"));
  ("465", ("N", "Panic Alarm Reset", "Z", "b"));
  ("466", ("N", "Service On/Off Premises", "U", "b"));
  ("501", ("Q", "Access reader disable", "Z", "a"));
  ("520", ("R", "Sounder/Relay Disable", "Z", "a"));
  ("521", ("R", "Bell 1 disable", "Z", "a"));
  ("522", ("R", "Bell 2 disable", "Z", "a"));
  ("523", ("R", "Alarm relay disable", "Z", "a"));
  ("524", ("R", "Trouble relay disable", "Z", "a"));
  ("525", ("R", "Reversing relay disable", "Z", "a"));
  ("526", ("R", "Notification Appliance Ckt. # 3 disable", "Z", "a"));
  ("527", ("R", "Notification Appliance Ckt. # 4 disable", "Z", "a"));
  ("531", ("S", "Module Added", "Z", "a"));
  ("532", ("S", "Module Removed", "Z", "a"));
  ("551", ("T", "Dialer disabled", "Z", "a"));
  ("552", ("T", "Radio transmitter disabled", "Z", "a"));
  ("553", ("T", "Remote Upload/Download disabled", "Z", "a"));
  ("570", ("U", "Zone/Sensor bypass", "Z", "a"));
  ("571", ("U", "Fire bypass", "Z", "a"));
  ("572", ("U", "24 Hour zone bypass", "Z", "a"));
  ("573", ("U", "Burglary Bypass", "Z", "a"));
  ("574", ("U", "Group Bypass", "U", "a"));
  ("575", ("U", "Swinger Bypass", "Z", "a"));
  ("576", ("U", "Access zone shunt", "Z", "a"));
  ("577", ("U", "Access point bypass", "Z", "a"));
  ("578", ("U", "Vault Bypass", "Z", "a"));
  ("579", ("U", "Vent Bypass", "Z", "a"));
  ("601", ("V", "Manual trigger test report", "Z", "a"));
  ("602", ("V", "Periodic test report", "Z", "a"));
  ("603", ("V", "Periodic RF transmission", "Z", "a"));
  ("604", ("V", "Fire test", "U", "a"));
  ("605", ("V", "Status report to follow", "Z", "a"));
  ("606", ("V", "Listen-in to follow", "Z", "a"));
  ("607", ("V", "Walk test mode", "U", "a"));
  ("608", ("V", "System Trouble Present", "Z", "a"));
  ("609", ("V", "Video Transmitter active", "Z", "a"));
  ("611", ("V", "Point tested OK", "Z", "a"));
  ("612", ("V", "Point not tested", "Z", "a"));
  ("613", ("V", "Intrusion Zone Walk Tested", "Z", "a"));
  ("614", ("V", "Fire Zone Walk Tested", "Z", "a"));
  ("615", ("V", "Panic Zone Walk Tested", "Z", "a"));
  ("616", ("V", "Trouble Service Request", "Z", "a"));
  ("621", ("W", "Event Log reset", "Z", "a"));
  ("622", ("W", "Event Log 50% full", "Z", "a"));
  ("623", ("W", "Event Log 90% full", "Z", "a"));
  ("624", ("W", "Event Log overflow", "Z", "a"));
  ("625", ("W", "Time/Date reset", "U", "a"));
  ("626", ("W", "Time/Date inaccurate", "Z", "a"));
  ("627", ("W", "Program mode entry", "Z", "a"));
  ("628", ("W", "Program mode exit", "Z", "a"));
  ("629", ("W", "32 Hour Event log marker", "Z", "a"));
  ("630", ("X", "Schedule change", "Z", "a"));
  ("631", ("X", "Exception schedule change", "Z", "a"));
  ("632", ("X", "Access schedule change", "Z", "a"));
  ("641", ("Y", "Senior Person Watch Trouble (No movement)", "Z", "a"));
  ("642", ("Y", "Latch-key Supervision", "U", "a"));
  ("651", ("Z", "Identifies ADT Authorized Dealer", "Z", "a"));
  ("652", ("Z", "Reserved for ADEMCO Use", "U", "a"));
  ("653", ("Z", "Reserved for ADEMCO Use", "U", "a"));
  ("654", ("Z", "System Inactivity", "Z", "a"));
  ("703", ("Z", "Auxiliary #3", "Z", "a"));
  ("704", ("Z", "Installer Test", "Z", "a"));
  ("750", ("*", "Assign Your Own Description", "?", "a"));
  ("751", ("*", "Assign Your Own Description", "?", "a"));
  ("752", ("*", "Assign Your Own Description", "?", "a"));
  ("753", ("*", "Assign Your Own Description", "?", "a"));
  ("754", ("*", "Assign Your Own Description", "?", "a"));
  ("755", ("*", "Assign Your Own Description", "?", "a"));
  ("756", ("*", "Assign Your Own Description", "?", "a"));
  ("757", ("*", "Assign Your Own Description", "?", "a"));
  ("758", ("*", "Assign Your Own Description", "?", "a"));
  ("759", ("*", "Assign Your Own Description", "?", "a"));
  ("760", ("*", "Assign Your Own Description", "?", "a"));
  ("761", ("*", "Assign Your Own Description", "?", "a"));
  ("762", ("*", "Assign Your Own Description", "?", "a"));
  ("763", ("*", "Assign Your Own Description", "?", "a"));
  ("764", ("*", "Assign Your Own Description", "?", "a"));
  ("765", ("*", "Assign Your Own Description", "?", "a"));
  ("766", ("*", "Assign Your Own Description", "?", "a"));
  ("767", ("*", "Assign Your Own Description", "?", "a"));
  ("768", ("*", "Assign Your Own Description", "?", "a"));
  ("769", ("*", "Assign Your Own Description", "?", "a"));
  ("770", ("*", "Assign Your Own Description", "?", "a"));
  ("771", ("*", "Assign Your Own Description", "?", "a"));
  ("772", ("*", "Assign Your Own Description", "?", "a"));
  ("773", ("*", "Assign Your Own Description", "?", "a"));
  ("774", ("*", "Assign Your Own Description", "?", "a"));
  ("775", ("*", "Assign Your Own Description", "?", "a"));
  ("776", ("*", "Assign Your Own Description", "?", "a"));
  ("777", ("*", "Assign Your Own Description", "?", "a"));
  ("778", ("*", "Assign Your Own Description", "?", "a"));
  ("779", ("*", "Assign Your Own Description", "?", "a"));
  ("780", ("*", "Assign Your Own Description", "?", "a"));
  ("781", ("*", "Assign Your Own Description", "?", "a"));
  ("782", ("*", "Assign Your Own Description", "?", "a"));
  ("783", ("*", "Assign Your Own Description", "?", "a"));
  ("784", ("*", "Assign Your Own Description", "?", "a"));
  ("785", ("*", "Assign Your Own Description", "?", "a"));
  ("786", ("*", "Assign Your Own Description", "?", "a"));
  ("787", ("*", "Assign Your Own Description", "?", "a"));
  ("788", ("*", "Assign Your Own Description", "?", "a"));
  ("789", ("*", "Assign Your Own Description", "?", "a"));
  ("796", ("Z", "Unable to output signal (Derived Channel)", "Z", "a"));
  ("798", ("Z", "STU Controller down (Derived Channel)", "Z", "a"));
  ("900", ("Z", "Download Abort Downloader", "X", "a"));
  ("901", ("Z", "Download Start/End", "X", "a"));
  ("902", ("Z", "Download Interrupted", "X", "a"));
  ("910", ("Z", "Auto-close with Bypass", "Z", "a"));
  ("911", ("Z", "Bypass Closing", "Z", "a"));
  ("912", ("Z", "Fire Alarm Silenced", "X", "a"));
  ("913", ("Z", "Supervisory Point test Start/End", "U", "a"));
  ("914", ("Z", "Hold-up test Start/End", "U", "a"));
  ("915", ("Z", "Burglary Test Print Start/End", "X", "a"));
  ("916", ("Z", "Supervisory Point test Start/End", "X", "a"));
  ("917", ("Z", "Burg. Diagnostics Start/End", "Z", "a"));
  ("918", ("Z", "Fire Diagnostics Start/End", "Z", "a"));
  ("919", ("Z", "Untyped diagnostics", "Z", "a"));
  ("920", ("Z", "Trouble Closing (closed with burg. During exit)", "U", "a"));
  ("921", ("Z", "Access Denied Code Unknown", "U", "a"));
  ("922", ("Z", "Supervisory Point Alarm", "Z", "a"));
  ("923", ("Z", "Supervisory Point Bypass", "Z", "a"));
  ("924", ("Z", "Supervisory Point Trouble", "Z", "a"));
  ("925", ("Z", "Hold-up Point Bypass", "Z", "a"));
  ("926", ("Z", "AC Failure for 4 hours", "Z", "a"));
  ("927", ("Z", "Output Trouble", "Z", "a"));
  ("928", ("Z", "User code for event", "U", "a"));
  ("929", ("Z", "Log-off", "U", "a"));
  ("954", ("Z", "Call Center Connection Failure", "X", "a"));
  ("961", ("Z", "Receiver Database Connection Fail/Restore", "X", "a"));
  ("962", ("Z", "License Expiration Notify", "X", "a"));
  ("999", ("Z", "1 and 1/3 day no read log event", "X", "a"))
  ].

Definition CID_EventCodes : gmap string (string * string * string * string) :=
  list_to_map CID_EventCodes_list.

Record DecodeCID : Type := {
  decodeLevel : string;
  zones : gmap string string;
  users : gmap string string
}.

(** The constructor: an unknown level falls back to NORMAL. *)
Definition init (decodelvl : string) : DecodeCID :=
  let lvl := Py.upper decodelvl in
  {| decodeLevel :=
       if negb (String.eqb lvl "VERBOSE") && negb (String.eqb lvl "NORMAL")
          && negb (String.eqb lvl "TERSE")
       then "NORMAL" else lvl;
     zones := default_zones;
     users := default_users |}.

Definition setZones (self : DecodeCID) (myZones : gmap string string) : DecodeCID :=
  if negb (size myZones =? 0)%nat
  then {| decodeLevel := decodeLevel self; zones := myZones; users := users self |}
  else self.

Definition setUsers (self : DecodeCID) (myUsers : gmap string string) : DecodeCID :=
  if negb (size myUsers =? 0)%nat
  then {| decodeLevel := decodeLevel self; zones := zones self; users := myUsers |}
  else self.

(** The second [try] block: who or what caused the event. *)
Definition agent_of (self : DecodeCID) (kind CID_AgentID : string) : result string :=
  except_KeyError
    (if String.eqb kind "U" then
       name <- getitem (users self) CID_AgentID ;;; Ok ("User:" +:+ name)
     else if String.eqb kind "Z" then
       name <- getitem (zones self) CID_AgentID ;;; Ok ("Zone:" +:+ name)
     else if String.eqb kind "X" then
       Ok ("ID:" +:+ CID_AgentID)
     else Ok "User: ???")
    (Ok "Unknown user/zone/agent").

(** [self.CID_EventQualifiers[EQselector][CID_QualCode]]. *)
Definition qualifier_text (EQselector CID_QualCode : string) : result string :=
  quals <- getitem CID_EventQualifiers EQselector ;;; getitem quals CID_QualCode.

(** The third [try] block: the reply for the decode level. *)
Definition compose (self : DecodeCID)
    (CID_QualCode CID_Event CID_Partition : string)
    (resultTuple : string * string * string * string) (agent : string) : result string :=
  let '(cat, descr, _, EQselector) := resultTuple in
  except_Exception
    (if String.eqb (decodeLevel self) "VERBOSE" then
       category <- getitem CID_EventCategory cat ;;;
       qual <- qualifier_text EQselector CID_QualCode ;;;
       Ok (Py.replace "!" ""
             ("Partition:" +:+ CID_Partition +:+ ", " +:+ category +:+ ", " +:+ qual
              +:+ ":" +:+ CID_Event +:+ " " +:+ descr +:+ ", " +:+ agent))
     else if String.eqb (decodeLevel self) "NORMAL" then
       qual <- qualifier_text EQselector CID_QualCode ;;;
       Ok (Py.replace "!" ""
             ("Partition:" +:+ CID_Partition +:+ ", " +:+ qual
              +:+ ":" +:+ CID_Event +:+ " " +:+ descr +:+ ", " +:+ agent))
     else if String.eqb (decodeLevel self) "TERSE" then
       Ok (Py.replace "!" ""
             ("Partition:" +:+ CID_Partition +:+ ", " +:+ descr +:+ ", " +:+ agent))
     else Ok "CID-003E Invalid input - unable to decode CID")
    (Ok "Unable to decode CID").

(** Decode the CID into reasonably simple English. *)
Definition getDescription (self : DecodeCID) (CID : string) : result string :=
  CID_QualCode <- Py.index CID 0 ;;;
  let CID_Event := Py.slice CID 1 4 in
  let CID_Partition := Py.slice CID 4 6 in
  let CID_AgentID := Py.slice CID 6 9 in
  match CID_EventCodes !! CID_Event with
  | None => Ok ("No description available for CID event code " +:+ CID_Event)
  | Some resultTuple =>
      agent <- agent_of self (resultTuple.1.2) CID_AgentID ;;;
      compose self CID_QualCode CID_Event CID_Partition resultTuple agent
  end.

End Cid.

(** ** Stateful code: a state monad whose state survives an exception *)

Definition M (S A : Type) : Type := S -> result A * S.

Definition ret {S A} (a : A) : M S A := fun s => (Ok a, s).

Definition raise {S A} (e : exn) : M S A := fun s => (Raise e, s).

Definition mbind {S A B} (m : M S A) (k : A -> M S B) : M S B :=
  fun s => match m s with
           | (Ok a, s') => k a s'
           | (Raise e, s') => (Raise e, s')
           end.

Definition lift {S A} (r : result A) : M S A := fun s => (r, s).

Definition get {S} : M S S := fun s => (Ok s, s).

Definition modify {S} (f : S -> S) : M S unit := fun s => (Ok tt, f s).

(** [try: body except Exception: handler]; the handler sees the state the
    body left behind. *)
Definition try_except {S A} (body handler : M S A) : M S A :=
  fun s => match body s with
           | (Ok a, s') => (Ok a, s')
           | (Raise _, s') => handler s'
           end.

Notation "x <~ m ;; k" := (mbind m (fun x => k))
  (at level 100, m at next level, right associativity).
Notation "m ;;> k" := (mbind m (fun _ => k))
  (at level 100, right associativity).

(** [for x in l: body x], stopping at the first exception. *)
Fixpoint for_each {S A} (l : list A) (body : A -> M S unit) : M S unit :=
  match l with
  | [] => ret tt
  | x :: l' => body x ;;> for_each l' body
  end.

(** The rolling-history pruning shared by the three classes:
    [keys = sorted(d.keys())], then the first [len(keys) - MAX_HISTORY]
    keys are popped. *)
Definition popLim (MAX_HISTORY length : nat) : nat :=
  if (MAX_HISTORY <? length)%nat then (length - MAX_HISTORY)%nat else 0%nat.

Definition surplus_keys {V} (MAX_HISTORY : nat) (d : gmap Z V) : list Z :=
  let keys := sorted_keys d in
  take (popLim MAX_HISTORY (length keys)) keys.

(** [d.pop(k)]: [KeyError] when the key is missing. *)
Definition pop {V} (k : Z) : M (gmap Z V) unit :=
  fun d => match d !! k with
           | Some _ => (Ok tt, delete k d)
           | None => (Raise KeyError, d)
           end.

(** [n & 1 << k] as a truth value. *)
Definition bit_set (n k : Z) : bool := negb (Z.land n (Z.shiftl 1 k) =? 0).

(** [if cond : status = status + phrase]. *)
Definition add_if (cond : bool) (phrase status : string) : string :=
  if cond then status +:+ phrase else status.

(** ** telnetEVL4.py: the socket-protocol engine *)

Module Telnet.

(** Security system partition states. *)
Definition pstates : gmap Z string := list_to_map [
    (1, "READY"); (2, "READY TO ARM"); (3, "NOT READY"); (4, "ARMED STAY");
    (5, "ARMED AWAY"); (6, "ARMED INSTANT"); (7, "EXIT DELAY");
    (8, "ALARMING NOW"); (9, "WAS ALARMING"); (10, "ARMED MAXIMUM")
  ].

Definition MAX_HISTORY : nat := 2.

Definition history_names : list string := [
    "msg00raw"; "msg00txt"; "msg01raw"; "msg01txt"; "msg02raw"; "msg02txt";
    "msg03raw"; "msg03txt"; "msgFFraw"; "msgFFtxt"; "req00"; "rsp00"; "req01";
    "rsp01"; "req02"; "rsp02"; "req03"; "rsp03"; "msgflag00"; "msgflag01";
    "msgflag02"; "msgflag03"; "msgflagFF"
  ].

(** [tn] tells whether a connection object is held ([self.tn is not None]). *)
Record TelnetEVL4 : Type := {
  tn : bool;
  retries : nat;
  recentMsgs : gmap string (gmap Z string)
}.

Definition init_recentMsgs : gmap string (gmap Z string) :=
  list_to_map (map (fun name => (name, ∅)) history_names).

(** Process an alpha keypad type [%00] message. *)
Definition doType00 (msg : string) : result string :=
  let status := "" in
  let msglist := Py.split "," msg in
  flags <- Py.nth_item msglist 2 ;;;
  myint <- Py.int16 flags ;;;
  let status := add_if (bit_set myint 15) "ARMED STAY," status in
  let status := add_if (bit_set myint 14) "LOW BATTERY," status in
  let status := add_if (bit_set myint 13) "FIRE," status in
  let status := add_if (bit_set myint 12) "SYSTEM READY," status in
  let status := add_if (bit_set myint 9) "SYSTEM TROUBLE," status in
  let status := add_if (bit_set myint 8) "FIRE ZONE ALARM," status in
  let status := add_if (bit_set myint 7) "ARMED NO DELAY," status in
  let status := add_if (bit_set myint 5) "CHIME," status in
  let status := add_if (bit_set myint 4) "ZONES BYPASSED," status in
  let status := if bit_set myint 3 then status +:+ "AC PRESENT,"
                else status +:+ "AC LOSS," in
  let status := add_if (bit_set myint 2) "ARMED AWAY," status in
  let status := add_if (bit_set myint 1) "ALARM IN MEMORY," status in
  let status := add_if (negb (Z.land myint 1 =? 0)) "ALARMED STATE," status in
  let status := add_if (0 <? Py.count "NIGHT-STAY" msg) "NIGHT-STAY," status in
  let status := add_if (0 <? Py.count "DISARMED" msg) "DISARMED," status in
  Ok (Py.strip " ," status).

(** One iteration of the zone-bitmap loop, for group [x] with bits
    [zbits]: the sixteen tests in the order of the source, then the
    strip of the trailing comma, which sits inside the loop. *)
Definition doType01_group (x zbits : Z) (znums : string) : string :=
  let zone (offset : Z) := Py.fmt03d (16 * x + offset) +:+ "," in
  let znums := add_if (bit_set zbits 8) (zone 1) znums in
  let znums := add_if (bit_set zbits 9) (zone 2) znums in
  let znums := add_if (bit_set zbits 10) (zone 3) znums in
  let znums := add_if (bit_set zbits 11) (zone 4) znums in
  let znums := add_if (bit_set zbits 12) (zone 5) znums in
  let znums := add_if (bit_set zbits 13) (zone 6) znums in
  let znums := add_if (bit_set zbits 14) (zone 7) znums in
  let znums := add_if (bit_set zbits 15) (zone 8) znums in
  let znums := add_if (bit_set zbits 0) (zone 9) znums in
  let znums := add_if (bit_set zbits 1) (zone 10) znums in
  let znums := add_if (bit_set zbits 2) (zone 11) znums in
  let znums := add_if (bit_set zbits 3) (zone 12) znums in
  let znums := add_if (bit_set zbits 4) (zone 13) znums in
  let znums := add_if (bit_set zbits 5) (zone 14) znums in
  let znums := add_if (bit_set zbits 6) (zone 15) znums in
  let znums := add_if (bit_set zbits 7) (zone 16) znums in
  if negb (String.eqb znums "") then Py.strip "," znums else znums.

Fixpoint doType01_loop (zones : string) (xs : list nat) (znums : string) : result string :=
  match xs with
  | [] => Ok znums
  | x :: xs' =>
      let fourhex := Py.slice zones (x * 4) (x * 4 + 4) in
      zbits <- Py.int16 fourhex ;;;
      doType01_loop zones xs' (doType01_group (Z.of_nat x) zbits znums)
  end.

(** Process a zone state change type [%01] message. *)
Definition doType01 (msg : string) : result string :=
  let msglst := Py.split "," msg in
  zones <- Py.nth_item msglst 1 ;;;
  let zones := Py.strip "$" zones in
  doType01_loop zones (seq 0 8) "".

Fixpoint doType02_loop (partitions : string) (xs : list nat) (notice : string) : result string :=
  match xs with
  | [] => Ok notice
  | x :: xs' =>
      let part := "PTN" +:+ Py.str (Z.of_nat x + 1) in
      let state := Py.slice partitions (x * 2) (x * 2 + 2) in
      intstate <- Py.int16 state ;;;
      if negb (intstate =? 0) then
        name <- getitem pstates intstate ;;;
        doType02_loop partitions xs' (notice +:+ part +:+ "=" +:+ name +:+ ",")
      else doType02_loop partitions xs' notice
  end.

(** Process a partition state type [%02] message. *)
Definition doType02 (msg : string) : result string :=
  let msglst := Py.split "," msg in
  partitions <- Py.nth_item msglst 1 ;;;
  let partitions := Py.strip "$" partitions in
  notice <- doType02_loop partitions (seq 0 8) "" ;;;
  Ok (Py.strip "," notice).

(** Process a Contact ID type [%03] message. *)
Definition doType03 (msg : string) : result string :=
  let msglst := Py.split "," msg in
  tmpstr <- Py.nth_item msglst 1 ;;;
  Ok ("CID=" +:+ Py.strip "$" tmpstr).

(** Process a zone timers type [%FF] message. *)
Definition doTypeFF (msg : string) : result string :=
  Ok "Zone nnn Closed mm Minutes Ago".

(** [self.recentMsgs[name][ts] = v]. *)
Definition store (name : string) (ts : Z) (v : string) : M TelnetEVL4 unit :=
  fun self =>
    match recentMsgs self !! name with
    | Some h =>
        (Ok tt, {| tn := tn self; retries := retries self;
                   recentMsgs := <[name := <[ts := v]> h]> (recentMsgs self) |})
    | None => (Raise KeyError, self)
    end.

(** What one call observes of the outside world: the decoded,
    not yet stripped text [read_until] delivers (or its failure), the
    reading of [time.time_ns()], and whether each successive login
    attempt of a reconnect succeeds. *)
Record Env : Type := {
  read_until : result string;
  time_ns : Z;
  logins : list bool
}.

(** Reconnect: up to [retries] login attempts; when all fail the module
    is rebooted and the connection stays absent. *)
Definition doReconnect (env : Env) : M TelnetEVL4 unit :=
  modify (fun self =>
    {| tn := existsb id (take (retries self) (logins env));
       retries := retries self;
       recentMsgs := recentMsgs self |}).

(** The branch of [getNextMessage] for an unsolicited [%TT] frame. *)
Definition store_decoded (tt_ : string) (decode : string -> result string)
    (ts : Z) (msg : string) : M TelnetEVL4 unit :=
  store ("msg" +:+ tt_ +:+ "raw") ts msg ;;>
  txt <~ lift (decode msg) ;;
  store ("msg" +:+ tt_ +:+ "txt") ts txt ;;>
  store ("msgflag" +:+ tt_) ts "1".

(** The body of the [try] block of [getNextMessage]. *)
Definition receive (env : Env) : M TelnetEVL4 unit :=
  self <~ get ;;
  raw <~ lift (if tn self then read_until env else Raise AttributeError) ;;
  let msg := Py.strip_ws raw in
  if Py.startswith msg "^09" then ret tt
  else if Py.startswith msg "^00" then store "rsp00" (time_ns env) msg
  else if Py.startswith msg "^01" then store "rsp01" (time_ns env) msg
  else if Py.startswith msg "^02" then store "rsp02" (time_ns env) msg
  else if Py.startswith msg "^03" then store "rsp03" (time_ns env) msg
  else if Py.startswith msg "%00" then store_decoded "00" doType00 (time_ns env) msg
  else if Py.startswith msg "%01" then store_decoded "01" doType01 (time_ns env) msg
  else if Py.startswith msg "%02" then store_decoded "02" doType02 (time_ns env) msg
  else if Py.startswith msg "%03" then store_decoded "03" doType03 (time_ns env) msg
  else if Py.startswith msg "%FF" then store_decoded "FF" doTypeFF (time_ns env) msg
  else ret tt.

(** Prune one history: the oldest surplus keys are popped. *)
Definition prune (d : gmap Z string) : gmap Z string :=
  foldl (fun d k => delete k d) d (surplus_keys MAX_HISTORY d).

(** Prune surplus and aged historical messages, for every history. *)
Definition pruneAll : M TelnetEVL4 unit :=
  modify (fun self =>
    {| tn := tn self; retries := retries self;
       recentMsgs := prune <$> recentMsgs self |}).

(** Get the next message; the aggregated histories are returned. *)
Definition getNextMessage (env : Env) : M TelnetEVL4 (gmap string (gmap Z string)) :=
  try_except (receive env) (doReconnect env) ;;>
  pruneAll ;;>
  self <~ get ;;
  ret (recentMsgs self).

End Telnet.

(** A loop over the items of a dictionary that keeps those satisfying a
    test which may itself raise [KeyError]; the local result is lost when
    it does. *)
Definition ok_true (r : result bool) : bool :=
  match r with Ok true => true | _ => false end.

Definition select_items {V} (test : Z -> V -> result bool) (d : gmap Z V) : result (gmap Z V) :=
  if forallb (fun kv => is_Ok (test kv.1 kv.2)) (map_to_list d)
  then Ok (filter (fun kv => ok_true (test kv.1 kv.2) = true) d)
  else Raise KeyError.

(** ** scanEVL4log.py: the log scanner *)

Module ScanLog.

Definition MAX_HISTORY : nat := 2.

(** [CIDevents]: the codes and their reported flags, both keyed by the
    timestamp of the log line, which has a resolution of one second. *)
Record ScanEVL4Log : Type := {
  CIDs : gmap Z string;
  CIDflags : gmap Z string
}.

Definition init : ScanEVL4Log := {| CIDs := ∅; CIDflags := ∅ |}.

(** What the two regular expressions find in a stripped log line:
    [hit1] is the date and time at the start, already converted to a
    timestamp ([Raise] when [strptime] rejects it); [hit3] is the ten
    digits of a [CID Event:] when the line ends with them. *)
Record LogLine : Type := {
  hit1 : option (result Z);
  hit3 : option string
}.

(** The two assignments for a line that carries a CID. *)
Definition record (ts1 : Z) (thisCID : string) : M ScanEVL4Log unit :=
  modify (fun self =>
    {| CIDs := <[ts1 := thisCID]> (CIDs self);
       CIDflags := <[ts1 := "0"]> (CIDflags self) |}).

(** The [for] loop over the new lines; [ts1] is the local variable of
    that name, unbound until a line carries a date, and an element
    [Raise] of [lines] is a failure of the file reader. *)
Fixpoint scan_lines (lines : list (result LogLine)) (ts1 : option Z) : M ScanEVL4Log unit :=
  match lines with
  | [] => ret tt
  | l :: rest =>
      line <~ lift l ;;
      ts1 <~ match hit1 line with
             | Some parsed => t <~ lift parsed ;; ret (Some t)
             | None => ret ts1
             end ;;
      match hit3 line with
      | Some thisCID =>
          match ts1 with
          | Some t => record t thisCID
          | None => raise NameError
          end
      | None => ret tt
      end ;;>
      scan_lines rest ts1
  end.

Definition pop_CID (k : Z) : M ScanEVL4Log unit :=
  fun self =>
    match pop k (CIDs self) with
    | (r, d) => (r, {| CIDs := d; CIDflags := CIDflags self |})
    end.

Definition pop_CIDflag (k : Z) : M ScanEVL4Log unit :=
  fun self =>
    match pop k (CIDflags self) with
    | (r, d) => (r, {| CIDs := CIDs self; CIDflags := d |})
    end.

(** Prune surplus historical CIDs scraped from the log. *)
Definition doPruning : M ScanEVL4Log unit :=
  self <~ get ;;
  for_each (surplus_keys MAX_HISTORY (CIDs self))
           (fun k => pop_CID k ;;> pop_CIDflag k).

(** Get the log records that contain CID events: the unreported ones
    are returned. *)
Definition getLogRecsWithCID (lines : list (result LogLine)) : M ScanEVL4Log (gmap Z string) :=
  try_except (scan_lines lines None) (ret tt) ;;>
  doPruning ;;>
  self <~ get ;;
  lift (select_items
          (fun key _ => flag <- getitem (CIDflags self) key ;;; Ok (String.eqb flag "0"))
          (CIDs self)).

(** Flag a CID event as now reported upon; the log call reads the code
    of the entry. *)
Definition flagAsReportedCID (tskey : Z) : M ScanEVL4Log unit :=
  modify (fun self =>
    {| CIDs := CIDs self; CIDflags := <[tskey := "1"]> (CIDflags self) |}) ;;>
  self <~ get ;;
  _ <~ lift (getitem (CIDs self) tskey) ;;
  ret tt.

(** Retrieve the recent reported or unreported CIDs; [nowts] is
    [int(datetime.timestamp(datetime.now()))]. *)
Definition getRecentCIDs (nowts : Z) (RECENT_SECS : Z) (isReptd : bool)
  : M ScanEVL4Log (gmap Z string) :=
  let flag := if isReptd then "1" else "0" in
  self <~ get ;;
  lift (select_items
          (fun key _ =>
             let diff := Z.abs (nowts - key) in
             if diff <=? RECENT_SECS
             then f <- getitem (CIDflags self) key ;;; Ok (String.eqb f flag)
             else Ok false)
          (CIDs self)).

End ScanLog.

(** ** Calendar dates, as [datetime.strptime] accepts them *)

Module Calendar.

Record datetime : Type := {
  year : Z; month : Z; day : Z;
  hour : Z; minute : Z; second : Z
}.

Definition is_leap (y : Z) : bool :=
  (y mod 4 =? 0) && (negb (y mod 100 =? 0) || (y mod 400 =? 0)).

Definition days_in_month (y m : Z) : Z :=
  if m =? 2 then (if is_leap y then 29 else 28)
  else if (m =? 4) || (m =? 6) || (m =? 9) || (m =? 11) then 30
  else 31.

(** Days in the year [y] before the first of month [m]. *)
Definition days_before_month (y m : Z) : Z :=
  fold_right Z.add 0 (map (fun i => days_in_month y (Z.of_nat i)) (seq 1 (Z.to_nat (m - 1)))).

(** [date.toordinal()]: day 1 is 0001-01-01. *)
Definition toordinal (y m d : Z) : Z :=
  let y' := y - 1 in
  y' * 365 + y' / 4 - y' / 100 + y' / 400 + days_before_month y m + d.

(** [strptime] of a year of four digits, a month and a day of at most
    two digits: the date must exist. *)
Definition valid_date (y m d : Z) : bool :=
  (1000 <=? y) && (y <=? 9999) && (1 <=? m) && (m <=? 12)
  && (1 <=? d) && (d <=? days_in_month y m).

Definition valid_time (h mi s : Z) : bool :=
  (0 <=? h) && (h <=? 23) && (0 <=? mi) && (mi <=? 59) && (0 <=? s) && (s <=? 59).

(** [datetime.strptime(.., "%Y-%m-%d")], as seconds since day 0. *)
Definition strptime_date (y m d : Z) : result Z :=
  if valid_date y m d then Ok (toordinal y m d * 86400) else Raise ValueError.

(** [datetime.strptime(.., "%Y-%m-%d %H:%M:%S")], as seconds since day 0. *)
Definition strptime_datetime (t : datetime) : result Z :=
  if valid_date (year t) (month t) (day t) && valid_time (hour t) (minute t) (second t)
  then Ok (toordinal (year t) (month t) (day t) * 86400
           + hour t * 3600 + minute t * 60 + second t)
  else Raise ValueError.

(** [(ts1 - ts2).days]. *)
Definition days_between (ts1 ts2 : Z) : Z := (ts1 - ts2) / 86400.

End Calendar.

(** ** config.py: the typed values the core reads *)

Module Config.

(** The configuration file is read-only; the metrics file holds the
    count of messages of the cycle and the date of the latest one, [None]
    standing for the text UNKNOWN. *)
Record Configuration : Type := {
  RenewalDay : Z;
  SMS_Allowance : Z;
  validRedAlertPhones : list string;
  validYellowAlertPhones : list string;
  validRebootAlertPhones : list string;
  validInboundSMSPhones : list string;
  SendSMS : bool;
  SMSsize : Z;
  RecentSecondsEVL4 : Z;
  AdjacentSecondsEVL4 : Z;
  RecentSecondsSMS : Z;
  IgnoreTokens : list string;
  NotTheseTokens : list string;
  UrgentTokens : list string;
  ImportantTokens : list string;
  SMS_Count : Z;
  SMS_LatestDate : option Calendar.datetime
}.

Definition set_metrics (cnf : Configuration) (count : Z)
    (latest : option Calendar.datetime) : Configuration :=
  {| RenewalDay := RenewalDay cnf; SMS_Allowance := SMS_Allowance cnf;
     validRedAlertPhones := validRedAlertPhones cnf;
     validYellowAlertPhones := validYellowAlertPhones cnf;
     validRebootAlertPhones := validRebootAlertPhones cnf;
     validInboundSMSPhones := validInboundSMSPhones cnf;
     SendSMS := SendSMS cnf; SMSsize := SMSsize cnf;
     RecentSecondsEVL4 := RecentSecondsEVL4 cnf;
     AdjacentSecondsEVL4 := AdjacentSecondsEVL4 cnf;
     RecentSecondsSMS := RecentSecondsSMS cnf;
     IgnoreTokens := IgnoreTokens cnf; NotTheseTokens := NotTheseTokens cnf;
     UrgentTokens := UrgentTokens cnf; ImportantTokens := ImportantTokens cnf;
     SMS_Count := count; SMS_LatestDate := latest |}.

Definition getRedAlertCellPhoneCount (cnf : Configuration) : Z :=
  Z.of_nat (length (validRedAlertPhones cnf)).
Definition getYellowAlertCellPhoneCount (cnf : Configuration) : Z :=
  Z.of_nat (length (validYellowAlertPhones cnf)).
Definition getRebootAlertCellPhoneCount (cnf : Configuration) : Z :=
  Z.of_nat (length (validRebootAlertPhones cnf)).
Definition getInboundSMSCellPhoneCount (cnf : Configuration) : Z :=
  Z.of_nat (length (validInboundSMSPhones cnf)).

(** [updateSMSmetrics(sent, sentdate)]. *)
Definition updateSMSmetrics (sent : Z) (sentdate : Calendar.datetime) : M Configuration unit :=
  modify (fun cnf => set_metrics cnf (SMS_Count cnf + sent) (Some sentdate)).

(** [resetSMSmetrics()]. *)
Definition resetSMSmetrics : M Configuration unit :=
  modify (fun cnf => set_metrics cnf 0 None).

End Config.

(** ** mymodem.py: the modem engine *)

Module Modem.

Definition MAX_HISTORY : nat := 16.

(** How the exchange that submits one SMS ends: the modem answers OK,
    it answers something else, or the serial port raises. *)
Inductive exchange : Type := ReplyOK | ReplyOther | PortFails.

(** The outside world, as successive observations: the [n]-th reading of
    [time.time_ns()], the outcome of the [n]-th SMS submission, and
    whether the [n]-th [serial.Serial(..)] opens the port. *)
Record Env : Type := {
  time_ns_at : nat -> Z;
  exchange_at : nat -> exchange;
  serial_opens_at : nat -> bool
}.

(** [commscon] tells whether a serial connection is held; the two
    dictionaries of [SMS_history] share their keys; the counters say how
    many observations of each kind were consumed, and [submitted]
    lists the (message, recipient) pairs written to the port, latest
    first. *)
Record MyModem : Type := {
  commscon : bool;
  retries : nat;
  RECENT_SECS : Z;
  alert : gmap Z string;
  phone : gmap Z string;
  clock_reads : nat;
  exchanges : nat;
  opens : nat;
  submitted : list (string * string)
}.

Definition set_history (self : MyModem) (a p : gmap Z string) : MyModem :=
  {| commscon := commscon self; retries := retries self;
     RECENT_SECS := RECENT_SECS self; alert := a; phone := p;
     clock_reads := clock_reads self; exchanges := exchanges self;
     opens := opens self; submitted := submitted self |}.

Definition set_commscon (self : MyModem) (c : bool) (opened : nat) : MyModem :=
  {| commscon := c; retries := retries self;
     RECENT_SECS := RECENT_SECS self; alert := alert self; phone := phone self;
     clock_reads := clock_reads self; exchanges := exchanges self;
     opens := (opens self + opened)%nat; submitted := submitted self |}.

(** [time.time_ns()]. *)
Definition time_ns (env : Env) : M MyModem Z :=
  fun self =>
    (Ok (time_ns_at env (clock_reads self)),
     {| commscon := commscon self; retries := retries self;
        RECENT_SECS := RECENT_SECS self; alert := alert self; phone := phone self;
        clock_reads := S (clock_reads self); exchanges := exchanges self;
        opens := opens self; submitted := submitted self |}).

(** The three writes and the read that submit one SMS. *)
Definition submit (env : Env) (message recipient : string) : M MyModem exchange :=
  fun self =>
    (Ok (exchange_at env (exchanges self)),
     {| commscon := commscon self; retries := retries self;
        RECENT_SECS := RECENT_SECS self; alert := alert self; phone := phone self;
        clock_reads := clock_reads self; exchanges := S (exchanges self);
        opens := opens self; submitted := (message, recipient) :: submitted self |}).

(** Save a brief history of the SMS messages sent. *)
Definition saveHistory (env : Env) (message recipient : string) : M MyModem unit :=
  tstamp <~ time_ns env ;;
  modify (fun self => set_history self (<[tstamp := message]> (alert self))
                                       (<[tstamp := recipient]> (phone self))).

(** [abs((ts1 - k) / 1000000000) <= RECENT_SECS]. *)
Definition recent_enough (ts1 k RECENT_SECS : Z) : result bool :=
  elapsed <- PyFloat.truediv_int (ts1 - k) 1000000000 ;;;
  Ok (PyFloat.le_int (SFabs elapsed) RECENT_SECS).

(** The loop of [isDuplicate] over the keys, most recent first. *)
Fixpoint isDuplicate_loop (env : Env) (message recipient : string) (keys : list Z)
  : M MyModem bool :=
  match keys with
  | [] => ret false
  | k :: keys' =>
      self <~ get ;;
      a <~ lift (getitem (alert self) k) ;;
      same <~ (if String.eqb a message
               then p <~ lift (getitem (phone self) k) ;; ret (String.eqb p recipient)
               else ret false) ;;
      if (same : bool) then
        ts1 <~ time_ns env ;;
        recent <~ lift (recent_enough ts1 k (RECENT_SECS self)) ;;
        if (recent : bool) then ret true
        else isDuplicate_loop env message recipient keys'
      else isDuplicate_loop env message recipient keys'
  end.

(** Is this message a recent duplicate? *)
Definition isDuplicate (env : Env) (message recipient : string) : M MyModem bool :=
  self <~ get ;;
  isDuplicate_loop env message recipient (sorted_keys_desc (alert self)).

(** Try to reconnect: up to [retries] attempts to open the port; when
    all fail the modem is rebooted and no connection is held. *)
Definition doReconnect (env : Env) : M MyModem unit :=
  modify (fun self =>
    let attempts := map (fun i => serial_opens_at env (opens self + i)%nat)
                        (seq 0 (retries self)) in
    match list_find (fun b => b = true) attempts with
    | Some (i, _) => set_commscon self true (S i)
    | None => set_commscon self false (retries self)
    end).

(** The body of the [try] block of [sendSMS]. *)
Definition transmit (env : Env) (message recipient : string) : M MyModem Z :=
  self <~ get ;;
  if commscon self then
    reply <~ submit env message recipient ;;
    match reply with
    | ReplyOK => saveHistory env message recipient ;;> ret 0
    | ReplyOther => raise IOError
    | PortFails => raise IOError
    end
  else raise AttributeError.

(** Send an SMS message to a recipient: 0 sent, 4 sending disabled,
    8 duplicate, 16 failure. *)
Definition sendSMS (cnf : Config.Configuration) (env : Env) (message recipient : string)
  : M MyModem Z :=
  dup <~ isDuplicate env message recipient ;;
  if (dup : bool) then
    saveHistory env message recipient ;;> ret 8
  else if Config.SendSMS cnf then
    try_except (transmit env message recipient)
               (doReconnect env ;;> ret 16)
  else ret 4.

Definition pop_alert (k : Z) : M MyModem unit :=
  fun self =>
    match pop k (alert self) with
    | (r, d) => (r, set_history self d (phone self))
    end.

Definition pop_phone (k : Z) : M MyModem unit :=
  fun self =>
    match pop k (phone self) with
    | (r, d) => (r, set_history self (alert self) d)
    end.

(** Prune the surplus historical SMS events. *)
Definition doPruning : M MyModem unit :=
  self <~ get ;;
  for_each (surplus_keys MAX_HISTORY (alert self))
           (fun k => pop_alert k ;;> pop_phone k).

End Modem.

(** ** DPM.py: budget gate, correlator, classifier *)

Module DPM.

Import Config.

(** *** The budget gate *)

(** The date of the next renewal, as the three branches build it. *)
Definition next_renewal (i_year i_month i_days i_renewDay : Z) : Z * Z * Z :=
  if i_renewDay <? i_days then
    if i_month =? 12 then (i_year + 1, 1, i_renewDay)
    else (i_year, i_month + 1, i_renewDay)
  else (i_year, i_month, i_renewDay).

(** The renewal check at the head of [optimizeSMS]. *)
Definition renewal_check (now : Calendar.datetime) : M Configuration unit :=
  cnf <~ get ;;
  let i_renewDay := RenewalDay cnf in
  if i_renewDay <=? Calendar.day now then
    ts1 <~ lift (Calendar.strptime_date (Calendar.year now) (Calendar.month now) i_renewDay) ;;
    ts2 <~ lift (match SMS_LatestDate cnf with
                 | None => Calendar.strptime_date (Calendar.year now) (Calendar.month now)
                                                  i_renewDay
                 | Some sent => Calendar.strptime_datetime sent
                 end) ;;
    let diff := Calendar.days_between ts1 ts2 in
    if 0 <=? diff then resetSMSmetrics else ret tt
  else ret tt.

(** Days until the next renewal; zero counts as a full cycle. *)
Definition days_to_go (now : Calendar.datetime) (i_renewDay : Z) : result Z :=
  let '(y2, m2, d2) := next_renewal (Calendar.year now) (Calendar.month now)
                                    (Calendar.day now) i_renewDay in
  ts1 <- Calendar.strptime_date (Calendar.year now) (Calendar.month now) (Calendar.day now) ;;;
  ts2 <- Calendar.strptime_date y2 m2 d2 ;;;
  let daysToGo := Z.abs (Calendar.days_between ts2 ts1) in
  Ok (if daysToGo =? 0 then 30 else daysToGo).

(** [(redphcnt + yelphcnt + bootphcnt + inbdphcnt) / 4]. *)
Definition avgphonect (cnf : Configuration) : result spec_float :=
  PyFloat.truediv_int (getRedAlertCellPhoneCount cnf + getYellowAlertCellPhoneCount cnf
                       + getRebootAlertCellPhoneCount cnf + getInboundSMSCellPhoneCount cnf) 4.

(** The percentage risk of exhausting the allowance prematurely. *)
Definition riskpc (SMS_allowance sentSMS daysToGo : Z) (avg : spec_float) : result Z :=
  let divisor := SMS_allowance - sentSMS in
  let divisor := if divisor =? 0 then 1 else divisor in
  dividend <- PyFloat.mul_int avg daysToGo ;;;
  quotient <- PyFloat.div_int dividend divisor ;;;
  percent <- PyFloat.mul_int quotient 100 ;;;
  PyFloat.round percent.

(** [(sentSMS + avgphonect) <= SMS_allowance]. *)
Definition within_allowance (SMS_allowance sentSMS : Z) (avg : spec_float) : result bool :=
  usage <- PyFloat.int_add sentSMS avg ;;;
  Ok (PyFloat.le_int usage SMS_allowance).

(** The final [if]/[elif]/[else] of [optimizeSMS]. *)
Definition gate (risk : Z) (within : bool) : list bool :=
  if (risk <? 100) && within then [true; true; true]
  else if (100 <=? risk) && within then [true; false; false]
  else [false; false; false].

(** Optimize the use of the SMS allocation of the billing cycle: which
    of Red, Yellow and Reboot alerts may be sent. *)
Definition optimizeSMS (now : Calendar.datetime) : M Configuration (list bool) :=
  renewal_check now ;;>
  cnf <~ get ;;
  let SMS_allowance := SMS_Allowance cnf in
  let sentSMS := SMS_Count cnf in
  daysToGo <~ lift (days_to_go now (RenewalDay cnf)) ;;
  avg <~ lift (avgphonect cnf) ;;
  if PyFloat.eq_int avg 0 then ret [false; false; false]
  else
    risk <~ lift (riskpc SMS_allowance sentSMS daysToGo avg) ;;
    within <~ lift (within_allowance SMS_allowance sentSMS avg) ;;
    ret (gate risk within).

(** *** Sending to the cell phones *)

(** The configuration with its metrics, the modem, and the number of
    readings of [datetime.now()] made so far. *)
Record Sys : Type := { cnf1 : Configuration; mdm1 : Modem.MyModem; now_reads : nat }.

Definition on_cnf {A} (m : M Configuration A) : M Sys A :=
  fun s => match m (cnf1 s) with
           | (r, c) => (r, {| cnf1 := c; mdm1 := mdm1 s; now_reads := now_reads s |})
           end.

Definition on_mdm {A} (m : M Modem.MyModem A) : M Sys A :=
  fun s => match m (mdm1 s) with
           | (r, d) => (r, {| cnf1 := cnf1 s; mdm1 := d; now_reads := now_reads s |})
           end.

(** The outside world of the control loop: that of the modem, and the
    [n]-th reading of [datetime.now()], in local time. *)
Record Env : Type := {
  modem_env : Modem.Env;
  now_at : nat -> Calendar.datetime
}.

(** [datetime.now()]. *)
Definition datetime_now (env : Env) : M Sys Calendar.datetime :=
  fun s => (Ok (now_at env (now_reads s)),
            {| cnf1 := cnf1 s; mdm1 := mdm1 s; now_reads := S (now_reads s) |}).

(** Update the count of SMS messages sent and the most recent date. *)
Definition updateMetrics (env : Env) (count : Z) : M Sys unit :=
  now <~ datetime_now env ;;
  on_cnf (updateSMSmetrics count now).

Definition sendSMS (env : Env) (message recipient : string) : M Sys Z :=
  s <~ get ;;
  on_mdm (Modem.sendSMS (cnf1 s) (modem_env env) message recipient).

(** The body of the loop of [callCellPhones] over the phones. *)
Definition call_one (env : Env) (fullMsg ph : string) : M Sys unit :=
  rc <~ sendSMS env fullMsg ph ;;
  if rc =? 0 then updateMetrics env 1
  else if rc =? 4 then ret tt
  else if rc =? 8 then ret tt
  else if rc =? 16 then
    rc <~ sendSMS env fullMsg ph ;;
    if rc =? 0 then updateMetrics env 1 else ret tt
  else ret tt.

(** Conditionally, send an SMS to one or more cell phones. *)
Definition callCellPhones (env : Env) (fullMsg : string)
    (redAlert yellowAlert rebootAlert : bool) : M Sys unit :=
  now <~ datetime_now env ;;
  resultList <~ on_cnf (optimizeSMS now) ;;
  r0 <~ lift (Py.nth_item resultList 0) ;;
  go <~ (if (r0 : bool) && redAlert then ret true
         else r1 <~ lift (Py.nth_item resultList 1) ;;
              if (r1 : bool) && yellowAlert then ret true
              else r2 <~ lift (Py.nth_item resultList 2) ;;
                   ret ((r2 : bool) && rebootAlert)) ;;
  if (go : bool) then
    s <~ get ;;
    let phones :=
      if redAlert then validRedAlertPhones (cnf1 s)
      else if yellowAlert then validYellowAlertPhones (cnf1 s)
      else if rebootAlert then validRebootAlertPhones (cnf1 s)
      else [] in
    for_each phones (call_one env fullMsg) ;;>
    on_mdm Modem.doPruning
  else ret tt.

(** *** The correlator *)

(** [int(key2 / 1000000000)]: the seconds of a nanosecond timestamp. *)
Definition tpi_seconds (key2 : Z) : result Z :=
  secs <- PyFloat.truediv_int key2 1000000000 ;;;
  PyFloat.to_int secs.

(** The inner loop of [scanSyslog] over the protocol's CID history, most
    recent first: is there an adjacent entry with the code of the log
    entry [key1]? *)
Fixpoint match_tpi (msg03txt : gmap Z string) (ADJACENT_SECS : Z)
    (key1 : Z) (code : string) (keyz : list Z) : result bool :=
  match keyz with
  | [] => Ok false
  | key2 :: keyz' =>
      txt <- getitem msg03txt key2 ;;;
      if String.eqb (Py.strip "CID=" txt) code then
        ts1 <- tpi_seconds key2 ;;;
        let diff := Z.abs (ts1 - key1) in
        if diff <=? ADJACENT_SECS then Ok true
        else match_tpi msg03txt ADJACENT_SECS key1 code keyz'
      else match_tpi msg03txt ADJACENT_SECS key1 code keyz'
  end.

(** The outer loop of [scanSyslog] over the recent log entries: a
    matched entry is flagged as reported, an unmatched one is collected
    in [finalCheckLS]. *)
Fixpoint correlate (msg03txt : gmap Z string) (ADJACENT_SECS : Z) (keyz : list Z)
    (items : list (Z * string)) (finalCheckLS : gmap Z string)
  : M ScanLog.ScanEVL4Log (gmap Z string) :=
  match items with
  | [] => ret finalCheckLS
  | (key1, code) :: items' =>
      isMatched <~ lift (match_tpi msg03txt ADJACENT_SECS key1 code keyz) ;;
      if (isMatched : bool) then
        ScanLog.flagAsReportedCID key1 ;;>
        correlate msg03txt ADJACENT_SECS keyz items' finalCheckLS
      else
        correlate msg03txt ADJACENT_SECS keyz items' (<[key1 := code]> finalCheckLS)
  end.

(** The recent entries among the candidates of the log scan. *)
Definition recent_candidates (RECENT_SECS nowts : Z) (logscan : gmap Z string)
  : gmap Z string :=
  filter (fun kv => Z.abs (nowts - kv.1) <= RECENT_SECS) logscan.

(** [scanSyslog] after its call of [getLogRecsWithCID]. *)
Definition correlation_pass (cnf : Configuration) (msg03txt : gmap Z string)
    (nowts : Z) (logscan : gmap Z string) : M ScanLog.ScanEVL4Log (option string) :=
  let checkLogScan := recent_candidates (RecentSecondsEVL4 cnf) nowts logscan in
  let keyz := sorted_keys_desc msg03txt in
  finalCheckLS <~ correlate msg03txt (AdjacentSecondsEVL4 cnf) keyz
                            (map_to_list checkLogScan) ∅ ;;
  if (0 <? size finalCheckLS)%nat then
    let keys := sorted_keys finalCheckLS in
    oldest <~ lift (Py.nth_item keys 0) ;;
    ScanLog.flagAsReportedCID oldest ;;>
    code <~ lift (getitem finalCheckLS oldest) ;;
    ret (Some code)
  else ret None.

(** Check the log for recent CID entries: a recent unreported CID that
    the protocol channel has not reported is returned. [lines] are the
    new log lines and [nowts] the current time in seconds. *)
Definition scanSyslog (cnf : Configuration) (msg03txt : gmap Z string)
    (lines : list (result ScanLog.LogLine)) (nowts : Z)
  : M ScanLog.ScanEVL4Log (option string) :=
  logscan <~ ScanLog.getLogRecsWithCID lines ;;
  correlation_pass cnf msg03txt nowts logscan.

(** The loop of [checkSyslog] over the recent log entries, most recent
    first, against the most recent protocol CID. *)
Fixpoint checkSyslog_loop (msg03txt : gmap Z string) (ADJACENT_SECS : Z)
    (keysTPI : list Z) (recentCIDs : gmap Z string) (isReptd : bool)
    (keysSLG : list Z) : M ScanLog.ScanEVL4Log bool :=
  match keysSLG with
  | [] => ret false
  | key1 :: keysSLG' =>
      let continue := checkSyslog_loop msg03txt ADJACENT_SECS keysTPI recentCIDs
                                       isReptd keysSLG' in
      match keysTPI with
      | [] => continue
      | key2 :: _ =>
          txt <~ lift (getitem msg03txt key2) ;;
          code <~ lift (getitem recentCIDs key1) ;;
          if String.eqb (Py.strip "CID=" txt) code then
            ts1 <~ lift (tpi_seconds key2) ;;
            let diff := Z.abs (ts1 - key1) in
            if diff <=? ADJACENT_SECS then
              (if isReptd then ret tt else ScanLog.flagAsReportedCID key1) ;;>
              ret true
            else continue
          else continue
      end
  end.

(** Does the most recent protocol CID match an adjacent, recent log
    entry (reported or not)? *)
Definition checkSyslog (cnf : Configuration) (msg03txt : gmap Z string)
    (isReptd : bool) (nowts : Z) : M ScanLog.ScanEVL4Log bool :=
  recentCIDs <~ ScanLog.getRecentCIDs nowts (RecentSecondsEVL4 cnf) isReptd ;;
  let keysSLG := sorted_keys_desc recentCIDs in
  let keysTPI := sorted_keys_desc msg03txt in
  checkSyslog_loop msg03txt (AdjacentSecondsEVL4 cnf) keysTPI recentCIDs isReptd keysSLG.

(** *** The composite alert and the classifier *)

(** [msg[name][k]] and [msg[name][k] = v] on the aggregated histories. *)
Definition msg_get (name : string) (k : Z) : M (gmap string (gmap Z string)) string :=
  msg <~ get ;;
  lift (d <- getitem msg name ;;; getitem d k).

Definition msg_set (name : string) (k : Z) (v : string)
  : M (gmap string (gmap Z string)) unit :=
  fun msg =>
    match msg !! name with
    | Some d => (Ok tt, <[name := <[k := v]> d]> msg)
    | None => (Raise KeyError, msg)
    end.

(** [sorted(msg[name].keys(), reverse=True)]. *)
Definition msg_keys (name : string) : M (gmap string (gmap Z string)) (list Z) :=
  msg <~ get ;;
  lift (d <- getitem msg name ;;; Ok (sorted_keys_desc d)).

(** The blocks for the types 01, 02 and FF: the newest flag is reset. *)
Definition mark_processed (flagname : string) (keys : list Z)
  : M (gmap string (gmap Z string)) unit :=
  match keys with
  | k0 :: _ =>
      flag <~ msg_get flagname k0 ;;
      if String.eqb flag "1" then msg_set flagname k0 "0" else ret tt
  | [] => ret tt
  end.

(** The keypad text and the decoded code, joined by the separator. *)
Definition composite (keypad decoded : string) : string :=
  keypad +:+ " ! " +:+ decoded.

(** The collation of a new CID with the most recent keypad status. *)
Definition collate (cid1 : Cid.DecodeCID) (keys00 keys03 : list Z)
  : M (gmap string (gmap Z string)) string :=
  k03 <~ lift (Py.nth_item keys03 0) ;;
  CID <~ msg_get "msg03txt" k03 ;;
  let tmplst := Py.split "=" CID in
  numeric <~ lift (Py.nth_item tmplst 1) ;;
  tmpstr <~ lift (Cid.getDescription cid1 numeric) ;;
  k00 <~ lift (Py.nth_item keys00 0) ;;
  keypad <~ msg_get "msg00txt" k00 ;;
  ret (composite keypad tmpstr).

(** The loop that removes the unwanted tokens from the keypad part. *)
Definition remove_token (part tok1 : string) : string :=
  let part := Py.replace tok1 "" part in
  let part := Py.replace "  " " " part in
  let part := Py.replace ", " "," part in
  Py.replace ",," "," part.

(** [s[0:n]]; a negative [n] counts from the end. *)
Definition prefix_to (s : string) (n : Z) : string :=
  if 0 <=? n then Py.slice s 0 (Z.to_nat n)
  else Py.slice s 0 (Z.to_nat (Z.of_nat (String.length s) + n)).

(** The compression of the collated message, after the blocks. *)
Definition compress (cnf : Configuration) (theMsg : string) : result string :=
  if 0 <? Py.count "!" theMsg then
    let msgList := Py.split "!" theMsg in
    part0 <- Py.nth_item msgList 0 ;;;
    let part0 := fold_left remove_token (IgnoreTokens cnf) part0 in
    let part0 := Py.strip " ," part0 in
    let part0 := Py.replace "," ", " part0 in
    part1 <- Py.nth_item msgList 1 ;;;
    let theMsg := part0 +:+ " ! " +:+ part1 in
    let theMsg := Py.strip " ," theMsg in
    let theMsg := Py.replace "  " " " theMsg in
    let maxsize := SMSsize cnf - Z.of_nat (String.length "yyyy-mm-dd hh:mm:ss ") in
    if maxsize <? Z.of_nat (String.length theMsg) then Ok (prefix_to theMsg maxsize)
    else Ok theMsg
  else Ok "".

(** The Third Party Interface processing of the aggregated histories;
    the flags are updated in place. *)
Definition TPI (cnf : Configuration) (cid1 : Cid.DecodeCID)
  : M (gmap string (gmap Z string)) string :=
  keys00 <~ msg_keys "msgflag00" ;;
  keys01 <~ msg_keys "msgflag01" ;;
  keys02 <~ msg_keys "msgflag02" ;;
  keys03 <~ msg_keys "msgflag03" ;;
  keysFF <~ msg_keys "msgflagFF" ;;
  match keys00 with
  | k0 :: k1 :: _ =>
      flag <~ msg_get "msgflag00" k0 ;;
      if String.eqb flag "1" then
        newest <~ msg_get "msg00txt" k0 ;;
        previous <~ msg_get "msg00txt" k1 ;;
        msg_set "msgflag00" k0 "0"
      else ret tt
  | [k0] =>
      flag <~ msg_get "msgflag00" k0 ;;
      if String.eqb flag "1" then
        newest <~ msg_get "msg00txt" k0 ;;
        msg_set "msgflag00" k0 "0"
      else ret tt
  | [] => ret tt
  end ;;>
  mark_processed "msgflag01" keys01 ;;>
  mark_processed "msgflag02" keys02 ;;>
  theMsg <~ match keys03 with
            | k0 :: rest =>
                flag <~ msg_get "msgflag03" k0 ;;
                if String.eqb flag "1" then
                  newest <~ msg_get "msg03txt" k0 ;;
                  msg_set "msgflag03" k0 "0" ;;>
                  match rest with
                  | k1 :: _ =>
                      previous <~ msg_get "msg03txt" k1 ;;
                      repeated <~ (if String.eqb newest previous
                                   then f1 <~ msg_get "msgflag03" k1 ;;
                                        ret (String.eqb f1 "0")
                                   else ret false) ;;
                      if (repeated : bool) then ret ""
                      else collate cid1 keys00 keys03
                  | [] => collate cid1 keys00 keys03
                  end
                else ret ""
            | [] => ret ""
            end ;;
  mark_processed "msgflagFF" keysFF ;;>
  lift (compress cnf theMsg).

(** The half of the message the red and yellow checks look at. *)
Definition keypad_fragment (msg : string) : result string :=
  let tmpmsg := Py.split "!" msg in
  Py.nth_item tmpmsg 0.

(** The half of the message the non-alert check looks at. *)
Definition code_fragment (msg : string) : result string :=
  let tmpmsg := Py.split "!" msg in
  if Py.contains "!" msg then Py.nth_item tmpmsg 1 else Py.nth_item tmpmsg 0.

(** Check for red alert events, such as fire. *)
Definition checkRedAlert (cnf : Configuration) (msg : string) : result bool :=
  msg <- keypad_fragment msg ;;;
  Ok (existsb (fun tok => Py.contains tok msg) (UrgentTokens cnf)).

(** Check for yellow alert events, such as arming. *)
Definition checkYellowAlert (cnf : Configuration) (msg : string) : result bool :=
  msg <- keypad_fragment msg ;;;
  Ok (existsb (fun tok => Py.contains tok msg) (ImportantTokens cnf)).

(** Check for non-alert events; the message was lowercased. *)
Definition checkNonAlert (cnf : Configuration) (msg : string) : result bool :=
  msg <- code_fragment msg ;;;
  Ok (existsb (fun tok => Py.contains (Py.lower tok) msg) (NotTheseTokens cnf)).

(** Scan the message for significant tokens and alert accordingly;
    [inetAlive] is the answer of the connectivity probe. *)
Definition doAlerts (env : Env) (inetAlive : bool) (msg : string) (doLowerCase : bool)
  : M Sys unit :=
  s <~ get ;;
  nonAlert <~ lift (checkNonAlert (cnf1 s) (Py.lower msg)) ;;
  if (nonAlert : bool) then ret tt
  else
    redAlert <~ lift (checkRedAlert (cnf1 s) (if doLowerCase then Py.lower msg else msg)) ;;
    if (redAlert : bool) then callCellPhones env msg true false false
    else
      yellowAlert <~ lift (checkYellowAlert (cnf1 s)
                             (if doLowerCase then Py.lower msg else msg)) ;;
      if (yellowAlert : bool) then
        if inetAlive then ret tt
        else callCellPhones env msg false true false
      else ret tt.

End DPM.

(** ** Predicates used by the statements *)

Definition is_digit (c : ascii) : bool :=
  let n := nat_of_ascii c in (48 <=? n)%nat && (n <=? 57)%nat.

Fixpoint all_digits (s : string) : bool :=
  match s with
  | EmptyString => true
  | String c s' => is_digit c && all_digits s'
  end.

(** A 10-digit Contact-ID code. *)
Definition ten_digits (s : string) : Prop :=
  String.length s = 10%nat /\ all_digits s = true.

(** The three decode levels the constructor of [DecodeCID] lets through. *)
Definition known_level (lvl : string) : Prop :=
  lvl = "VERBOSE" \/ lvl = "NORMAL" \/ lvl = "TERSE".

(** The qualifier digits the qualifier tables know. *)
Definition valid_qualifier (q : string) : Prop :=
  q = "1" \/ q = "3" \/ q = "6".

(** A row of the event table names a known category and one of the four
    qualifier selectors. *)
Definition entry_ok (e : string * (string * string * string * string)) : bool :=
  let '(_, (cat, _, _, sel)) := e in
  match Cid.CID_EventCategory !! cat with Some _ => true | None => false end
  && (String.eqb sel "a" || String.eqb sel "b" || String.eqb sel "c" || String.eqb sel "d").

(** The two dictionaries of the log scanner hold the same keys. *)
Definition scanlog_wf (self : ScanLog.ScanEVL4Log) : Prop :=
  forall k, is_Some (ScanLog.CIDs self !! k) <-> is_Some (ScanLog.CIDflags self !! k).

(** The two dictionaries of the SMS history hold the same keys. *)
Definition modem_wf (self : Modem.MyModem) : Prop :=
  forall k, is_Some (Modem.alert self !! k) <-> is_Some (Modem.phone self !! k).

(** A modem operation under which the two dictionaries of the SMS history
    keep the same keys, whatever it returns. *)
Definition keeps_wf {A} (m : M Modem.MyModem A) : Prop :=
  forall self, modem_wf self -> modem_wf (m self).2.










(** No phone is configured in any of the four categories. *)
Definition rosters_empty (cnf : Config.Configuration) : Prop :=
  Config.validRedAlertPhones cnf = [] /\ Config.validYellowAlertPhones cnf = []
  /\ Config.validRebootAlertPhones cnf = [] /\ Config.validInboundSMSPhones cnf = [].

(** The calendar part of the budget gate cannot fail: today exists, the
    renewal day exists in every month, and the date of the latest message,
    when there is one, is well formed. *)
Definition well_dated (now : Calendar.datetime) (cnf : Config.Configuration) : Prop :=
  Calendar.valid_date (Calendar.year now) (Calendar.month now) (Calendar.day now) = true
  /\ Calendar.year now < 9999
  /\ 1 <= Config.RenewalDay cnf <= 28
  /\ match Config.SMS_LatestDate cnf with
     | Some sent => is_Ok (Calendar.strptime_datetime sent) = true
     | None => True
     end.

(** ** Concrete configurations and states, for the examples *)

Module Examples.

Definition noon (y m d : Z) : Calendar.datetime :=
  {| Calendar.year := y; Calendar.month := m; Calendar.day := d;
     Calendar.hour := 12; Calendar.minute := 0; Calendar.second := 0 |}.

(** A configuration with the given rosters, allowance and count. *)
Definition config (red yellow reboot inbound : list string) (allowance count : Z)
  : Config.Configuration :=
  {| Config.RenewalDay := 15; Config.SMS_Allowance := allowance;
     Config.validRedAlertPhones := red; Config.validYellowAlertPhones := yellow;
     Config.validRebootAlertPhones := reboot; Config.validInboundSMSPhones := inbound;
     Config.SendSMS := true; Config.SMSsize := 160;
     Config.RecentSecondsEVL4 := 120; Config.AdjacentSecondsEVL4 := 90;
     Config.RecentSecondsSMS := 60;
     Config.IgnoreTokens := []; Config.NotTheseTokens := [];
     Config.UrgentTokens := ["FIRE"]; Config.ImportantTokens := ["ARMED"];
     Config.SMS_Count := count; Config.SMS_LatestDate := None |}.

(** One phone in each category: the average roster size is 1. *)
Definition one_each (allowance count : Z) : Config.Configuration :=
  config ["5550001"] ["5550002"] ["5550003"] ["5550004"] allowance count.

(** A red-alert phone only: three categories are empty. *)
Definition red_only : Config.Configuration := config ["5550001"] [] [] [] 100 0.

(** No phone at all. *)
Definition no_phones : Config.Configuration := config [] [] [] [] 100 0.

End Examples.

(** The SMS history holds the message for the recipient under key [k]. *)
Definition has_record (self : Modem.MyModem) (k : Z) (message recipient : string) : Prop :=
  Modem.alert self !! k = Some message /\ Modem.phone self !! k = Some recipient.

(** [k] is the most recent record of the message for the recipient. *)
Definition latest_record (self : Modem.MyModem) (k : Z) (message recipient : string) : Prop :=
  has_record self k message recipient
  /\ forall k', k < k' -> ~ has_record self k' message recipient.

Definition no_record (self : Modem.MyModem) (message recipient : string) : Prop :=
  forall k, ~ has_record self k message recipient.

(** The modem after [n] more readings of the clock. *)
Definition after_reads (self : Modem.MyModem) (n : nat) : Modem.MyModem :=
  {| Modem.commscon := Modem.commscon self; Modem.retries := Modem.retries self;
     Modem.RECENT_SECS := Modem.RECENT_SECS self;
     Modem.alert := Modem.alert self; Modem.phone := Modem.phone self;
     Modem.clock_reads := (n + Modem.clock_reads self)%nat;
     Modem.exchanges := Modem.exchanges self;
     Modem.opens := Modem.opens self; Modem.submitted := Modem.submitted self |}.


(** Does a reconnect of the modem find the port within its retries? *)
Definition reconnects (env : Modem.Env) (self : Modem.MyModem) : bool :=
  existsb (fun b => b)
          (map (fun i => Modem.serial_opens_at env (Modem.opens self + i)%nat)
               (seq 0 (Modem.retries self))).

Module ModemExamples.

Definition t0 : Z := 1700000000000000000.

(** A clock that advances by one second between readings, a modem that
    acknowledges every submission, a port that always opens. *)
Definition steady_env : Modem.Env :=
  {| Modem.time_ns_at := fun n => t0 + Z.of_nat n * 1000000000;
     Modem.exchange_at := fun _ => Modem.ReplyOK;
     Modem.serial_opens_at := fun _ => true |}.

(** The same, with a serial port that fails on every submission. *)
Definition failing_env : Modem.Env :=
  {| Modem.time_ns_at := fun n => t0 + Z.of_nat n * 1000000000;
     Modem.exchange_at := fun _ => Modem.PortFails;
     Modem.serial_opens_at := fun _ => true |}.

Definition fresh_modem : Modem.MyModem :=
  {| Modem.commscon := true; Modem.retries := 3; Modem.RECENT_SECS := 60;
     Modem.alert := ∅; Modem.phone := ∅;
     Modem.clock_reads := 0; Modem.exchanges := 0; Modem.opens := 0;
     Modem.submitted := [] |}.

(** The modem after one acknowledged send of FIRE at the first reading
    of the clock. *)
Definition sent_once : Modem.MyModem :=
  {| Modem.commscon := true; Modem.retries := 3; Modem.RECENT_SECS := 60;
     Modem.alert := {[ t0 := "FIRE" ]}; Modem.phone := {[ t0 := "5550001" ]};
     Modem.clock_reads := 1; Modem.exchanges := 1; Modem.opens := 0;
     Modem.submitted := [("FIRE", "5550001")] |}.

Definition cnf : Config.Configuration := Examples.one_each 1000 0.

(** Sixteen other alerts. *)
Definition others : list string :=
  map (fun n => "ZONE " +:+ Py.fmt03d (Z.of_nat n)) (seq 1 16).

(** FIRE is sent, sixteen other alerts follow, the history is pruned,
    and FIRE is sent again, all to the same phone, one second apart. *)
Definition resend_after_eviction : result Z * result Z * Modem.MyModem * Modem.MyModem :=
  let '(rc1, m1) := Modem.sendSMS cnf steady_env "FIRE" "5550001" fresh_modem in
  let '(_, m2) := for_each others
                    (fun o => Modem.sendSMS cnf steady_env o "5550001" ;;> ret tt) m1 in
  let '(_, m3) := Modem.doPruning m2 in
  let '(rc2, m4) := Modem.sendSMS cnf steady_env "FIRE" "5550001" m3 in
  (rc1, rc2, m3, m4).

Definition sys (mdm : Modem.MyModem) : DPM.Sys :=
  {| DPM.cnf1 := cnf; DPM.mdm1 := mdm; DPM.now_reads := 0 |}.

Definition dpm_env (env : Modem.Env) : DPM.Env :=
  {| DPM.modem_env := env; DPM.now_at := fun _ => Examples.noon 2026 11 3 |}.

End ModemExamples.

(** The timestamps the date pattern finds in a batch of log lines. *)
Fixpoint stamps (lines : list (result ScanLog.LogLine)) : list Z :=
  match lines with
  | [] => []
  | Ok {| ScanLog.hit1 := Some (Ok t) |} :: rest => t :: stamps rest
  | _ :: rest => stamps rest
  end.

(** From [s] to [s'] the codes are untouched and a flag either keeps its
    value or becomes reported. *)
Definition only_reports (s s' : ScanLog.ScanEVL4Log) : Prop :=
  ScanLog.CIDs s' = ScanLog.CIDs s
  /\ forall k, ScanLog.CIDflags s' !! k = ScanLog.CIDflags s !! k
               \/ ScanLog.CIDflags s' !! k = Some "1".

(** From [s] to [s'] the entry [k], once reported, is not unreported
    again. *)
Definition stays_reported (s s' : ScanLog.ScanEVL4Log) (k : Z) : Prop :=
  ScanLog.CIDflags s !! k = Some "1" -> ScanLog.CIDflags s' !! k <> Some "0".

Module ScanExamples.

Definition burglary : result ScanLog.LogLine :=
  Ok {| ScanLog.hit1 := Some (Ok 1700000000); ScanLog.hit3 := Some "1131010030" |}.

Definition cnf : Config.Configuration := Examples.one_each 1000 0.

(** Two passes of [scanSyslog], no protocol CID in the history; a line
    with the burglary code is read by the first pass, and a second line
    of the same second and code by the next pass, five seconds later. *)
Definition rescanned
  : result (option string) * result (option string)
    * ScanLog.ScanEVL4Log * ScanLog.ScanEVL4Log :=
  let '(r1, s1) := DPM.scanSyslog cnf ∅ [burglary] 1700000001 ScanLog.init in
  let '(r2, s2) := DPM.scanSyslog cnf ∅ [burglary] 1700000006 s1 in
  (r1, r2, s1, s2).

(** The state between the scan and the correlation of the second pass. *)
Definition rescanned_midway : ScanLog.ScanEVL4Log :=
  (ScanLog.getLogRecsWithCID [burglary] rescanned.1.2).2.

End ScanExamples.

(** The protocol history holds an entry with the code of the log entry
    [key1], whose nanosecond timestamp [key2] is, in whole seconds, at
    most [AdjacentSecondsEVL4] seconds away from [key1]. *)
Definition adjacent_match (cnf : Config.Configuration) (msg03txt : gmap Z string)
    (key1 : Z) (code : string) : Prop :=
  exists key2 txt,
    msg03txt !! key2 = Some txt
    /\ Py.strip "CID=" txt = code
    /\ Z.abs (key2 / 1000000000 - key1) <= Config.AdjacentSecondsEVL4 cnf.

(** The log entry [key1] is at most [RecentSecondsEVL4] seconds old. *)
Definition recent (cnf : Config.Configuration) (nowts key1 : Z) : Prop :=
  Z.abs (nowts - key1) <= Config.RecentSecondsEVL4 cnf.


(** A reading of [time.time_ns()] between 2006 and 2043 (61 bits) that
    is not in the last microsecond of its second: there the float
    quotient [key2 / 1000000000] may round up to the next second. *)
Definition nanosecond_stamp (key2 : Z) : Prop :=
  2 ^ 60 <= key2 < 2 ^ 61 /\ key2 mod 1000000000 < 999999000.

(** Every key of the protocol history is such a reading. *)
Definition nanosecond_stamps (msg03txt : gmap Z string) : Prop :=
  forall key2, is_Some (msg03txt !! key2) -> nanosecond_stamp key2.

Module CorrelatorExamples.

(** The protocol channel saw the burglary two seconds after the log. *)
Definition tpi_history : gmap Z string :=
  {[ 1700000002123456789 := "CID=1131010030" ]}.

Definition disarmed : result ScanLog.LogLine :=
  Ok {| ScanLog.hit1 := Some (Ok 1700000010); ScanLog.hit3 := Some "1441010010" |}.

End CorrelatorExamples.

Module AlertExamples.

Definition frame (raw : string) (t : Z) : Telnet.Env :=
  {| Telnet.read_until := Ok raw; Telnet.time_ns := t; Telnet.logins := [] |}.

Definition connected : Telnet.TelnetEVL4 :=
  {| Telnet.tn := true; Telnet.retries := 3; Telnet.recentMsgs := Telnet.init_recentMsgs |}.

(** A keypad frame with every status bit set, then a burglary CID. *)
Definition all_flags_then_burglary : gmap string (gmap Z string) :=
  let s1 := (Telnet.getNextMessage
               (frame "%00,01,FFFF,08,03,NIGHT-STAY DISARMED$" 10) connected).2 in
  let s2 := (Telnet.getNextMessage (frame "%03,1131010030$" 20) s1).2 in
  Telnet.recentMsgs s2.

End AlertExamples.

(** A zone that is violated twice, one minute apart, while the system
    stays armed: the keypad status, the burglary, a first pass of [TPI]
    (which updates the flags of the histories it is given), the same
    burglary again, and the log line of that second burglary. *)
Module RepeatedEventExamples.

Definition cid1 : Cid.DecodeCID := Cid.init "NORMAL".

Definition cnf : Config.Configuration := Examples.one_each 1000 0.

Definition after_first_burglary : Telnet.TelnetEVL4 :=
  let s1 := (Telnet.getNextMessage
               (AlertExamples.frame "%00,01,8C08,08,03,ARMED ***STAY***$"
                                    1700000000123456789)
               AlertExamples.connected).2 in
  (Telnet.getNextMessage (AlertExamples.frame "%03,1131010030$" 1700000001123456789) s1).2.

Definition first_pass : result string * gmap string (gmap Z string) :=
  DPM.TPI cnf cid1 (Telnet.recentMsgs after_first_burglary).

Definition after_second_burglary : Telnet.TelnetEVL4 :=
  (Telnet.getNextMessage (AlertExamples.frame "%03,1131010030$" 1700000061123456789)
     {| Telnet.tn := Telnet.tn after_first_burglary;
        Telnet.retries := Telnet.retries after_first_burglary;
        Telnet.recentMsgs := first_pass.2 |}).2.

Definition second_pass : result string * gmap string (gmap Z string) :=
  DPM.TPI cnf cid1 (Telnet.recentMsgs after_second_burglary).

(** [msg['msg03txt']], as the control loop hands it to [scanSyslog]. *)
Definition msg03txt : gmap Z string := default ∅ (second_pass.2 !! "msg03txt").


End RepeatedEventExamples.

(** Histories at their capacity: a protocol engine whose CID history
    holds two entries, and the frame that brings a third; a third log
    line; a modem that has sent seventeen messages, one second apart. *)
Module CapacityExamples.

Definition two_codes : Telnet.TelnetEVL4 :=
  let s1 := (Telnet.getNextMessage
               (AlertExamples.frame "%03,1131010030$" 1700000001123456789)
               AlertExamples.connected).2 in
  (Telnet.getNextMessage (AlertExamples.frame "%03,1441010010$" 1700000061123456789) s1).2.

Definition third_code : Telnet.Env :=
  AlertExamples.frame "%03,3131010030$" 1700000121123456789.

Definition fire : result ScanLog.LogLine :=
  Ok {| ScanLog.hit1 := Some (Ok 1700000020); ScanLog.hit3 := Some "1110010010" |}.

Definition seventeen_sent : Modem.MyModem :=
  (for_each ModemExamples.others
     (fun o => Modem.sendSMS ModemExamples.cnf ModemExamples.steady_env o "5550001" ;;> ret tt)
     (Modem.sendSMS ModemExamples.cnf ModemExamples.steady_env "FIRE" "5550001"
        ModemExamples.fresh_modem).2).2.

End CapacityExamples.

(** ** Further models, predicates and examples *)

(** [d'] holds the [n] most recent entries of [d], untouched, and
    nothing else. *)
Definition newest_of {V} (n : nat) (d d' : gmap Z V) : Prop :=
  size d' = Nat.min n (size d)
  /\ (forall k, is_Some (d' !! k) -> d' !! k = d !! k)
  /\ (forall k k', is_Some (d !! k) -> d' !! k = None -> is_Some (d' !! k') -> k < k').

(** The log scanner after it has stored three lines and before it prunes. *)
Definition three_read : ScanLog.ScanEVL4Log :=
  (ScanLog.scan_lines
     [ScanExamples.burglary; CorrelatorExamples.disarmed; CapacityExamples.fire]
     None ScanLog.init).2.


(** Every history of the constructor is there. *)
Definition histories_present (msgs : gmap string (gmap Z string)) : Prop :=
  forall name, name ∈ Telnet.history_names -> is_Some (msgs !! name).

(** The history [name], empty when it is missing. *)
Definition history (msgs : gmap string (gmap Z string)) (name : string) : gmap Z string :=
  default ∅ (msgs !! name).


(** The flag histories the protocol processing resets. *)
Definition flag_names : list string :=
  ["msgflag00"; "msgflag01"; "msgflag02"; "msgflag03"; "msgflagFF"].

(** The most recent flag of the history [name] is not the flag [1] of a
    message yet to be processed. *)
Definition settled (msgs : gmap string (gmap Z string)) (name : string) : Prop :=
  exists d, msgs !! name = Some d
            /\ forall k0, head (sorted_keys_desc d) = Some k0 -> d !! k0 <> Some "1".

(** No history holds a message yet to be processed. *)
Definition quiet (msgs : gmap string (gmap Z string)) : Prop :=
  forall name, name ∈ flag_names -> settled msgs name.

(** From [s] to [s1] the history [name] became settled and no other
    history changed. *)
Definition resets (name : string) (s s1 : gmap string (gmap Z string)) : Prop :=
  settled s1 name /\ forall name', name' <> name -> s1 !! name' = s !! name'.

Module ProtocolExamples.

(** A keypad frame of an armed system, then a burglary CID. *)
Definition armed_then_burglary : gmap string (gmap Z string) :=
  let s1 := (Telnet.getNextMessage
               (AlertExamples.frame "%00,01,8C08,08,03,ARMED ***STAY***$" 10)
               AlertExamples.connected).2 in
  let s2 := (Telnet.getNextMessage (AlertExamples.frame "%03,1131010030$" 20) s1).2 in
  Telnet.recentMsgs s2.

(** A burglary CID received before any keypad frame. *)
Definition burglary_first : gmap string (gmap Z string) :=
  Telnet.recentMsgs
    (Telnet.getNextMessage (AlertExamples.frame "%03,1131010030$" 20)
                           AlertExamples.connected).2.

End ProtocolExamples.

(** The number of entries of the roster [phones] that are the phone
    [ph], and the number of the submissions [new] that went to it. *)
Definition entries (ph : string) (phones : list string) : nat :=
  count_occ string_dec phones ph.

Definition sent_to (ph : string) (new : list (string * string)) : nat :=
  count_occ string_dec (map snd new) ph.

(** From [s] to [s'] at most [n] messages were submitted to the modem,
    each of them [fullMsg] for a phone of [phones] and at most
    [per_phone ph] of them to the phone [ph], and the rosters of the
    configuration are the same. *)
Definition sends_only (fullMsg : string) (phones : list string) (n : nat)
    (per_phone : string -> nat) (s s' : DPM.Sys) : Prop :=
  (exists new,
      Modem.submitted (DPM.mdm1 s') = (new ++ Modem.submitted (DPM.mdm1 s))%list
      /\ Forall (fun p : string * string => p.1 = fullMsg /\ p.2 ∈ phones) new
      /\ (length new <= n)%nat
      /\ forall ph, (sent_to ph new <= per_phone ph)%nat)
  /\ Config.validRedAlertPhones (DPM.cnf1 s') = Config.validRedAlertPhones (DPM.cnf1 s)
  /\ Config.validYellowAlertPhones (DPM.cnf1 s') = Config.validYellowAlertPhones (DPM.cnf1 s)
  /\ Config.validRebootAlertPhones (DPM.cnf1 s') = Config.validRebootAlertPhones (DPM.cnf1 s).

(** At most two submissions for each entry of the roster. *)
Definition twice_each (phones : list string) (ph : string) : nat :=
  2 * entries ph phones.

(** No submission. *)
Definition none_each (ph : string) : nat := 0.

(** The roster [callCellPhones] uses for the three flags. *)
Definition roster (cnf : Config.Configuration) (redAlert yellowAlert rebootAlert : bool)
  : list string :=
  if redAlert then Config.validRedAlertPhones cnf
  else if yellowAlert then Config.validYellowAlertPhones cnf
  else if rebootAlert then Config.validRebootAlertPhones cnf
  else [].

(** Whatever the state, the computation submits at most [n] messages,
    each of them [fullMsg] for a phone of [phones], at most [per_phone ph]
    of them to [ph]. *)
Definition within (fullMsg : string) (phones : list string) (n : nat)
    (per_phone : string -> nat) {A} (m : M DPM.Sys A) : Prop :=
  forall s, sends_only fullMsg phones n per_phone s (m s).2.

(** [k] is the most recent key of the history. *)
Definition latest_key {V} (d : gmap Z V) (k : Z) : Prop :=
  is_Some (d !! k) /\ forall k', is_Some (d !! k') -> k' <= k.

(** The most recent protocol CID, of nanosecond timestamp [key2], has
    the code of the log entry [key1], which is recent and carries the
    given flag, and [key2] is, in whole seconds, at most
    [AdjacentSecondsEVL4] seconds away from [key1]. *)
Definition latest_matches (cnf : Config.Configuration) (msg03txt : gmap Z string)
    (nowts : Z) (slg : ScanLog.ScanEVL4Log) (flag : string) (key1 : Z) : Prop :=
  exists key2 txt code,
    latest_key msg03txt key2 /\ msg03txt !! key2 = Some txt
    /\ ScanLog.CIDs slg !! key1 = Some code
    /\ ScanLog.CIDflags slg !! key1 = Some flag
    /\ recent cnf nowts key1
    /\ Py.strip "CID=" txt = code
    /\ Z.abs (key2 / 1000000000 - key1) <= Config.AdjacentSecondsEVL4 cnf.

Module CheckExamples.

(** A scanner that holds the burglary, already reported. *)
Definition reported_burglary : ScanLog.ScanEVL4Log :=
  {| ScanLog.CIDs := {[ 1700000000 := "1131010030" ]};
     ScanLog.CIDflags := {[ 1700000000 := "1" ]} |}.

End CheckExamples.

Module BudgetExamples.

(** The configuration of the examples, with another renewal day. *)
Definition renewal_on (day : Z) : Config.Configuration :=
  {| Config.RenewalDay := day; Config.SMS_Allowance := 100;
     Config.validRedAlertPhones := ["5550001"];
     Config.validYellowAlertPhones := ["5550002"];
     Config.validRebootAlertPhones := ["5550003"];
     Config.validInboundSMSPhones := ["5550004"];
     Config.SendSMS := true; Config.SMSsize := 160;
     Config.RecentSecondsEVL4 := 120; Config.AdjacentSecondsEVL4 := 90;
     Config.RecentSecondsSMS := 60;
     Config.IgnoreTokens := []; Config.NotTheseTokens := [];
     Config.UrgentTokens := ["FIRE"]; Config.ImportantTokens := ["ARMED"];
     Config.SMS_Count := 0; Config.SMS_LatestDate := None |}.

End BudgetExamples.

(** The string has an uppercase ASCII letter. *)
Fixpoint has_upper (s : string) : bool :=
  match s with
  | EmptyString => false
  | String c s' =>
      (let n := nat_of_ascii c in (65 <=? n)%nat && (n <=? 90)%nat) || has_upper s'
  end.

Module ClassifierExamples.

(** A configuration that treats the periodic test report as no alert. *)
Definition cnf : Config.Configuration :=
  {| Config.RenewalDay := 15; Config.SMS_Allowance := 1000;
     Config.validRedAlertPhones := ["5550001"];
     Config.validYellowAlertPhones := ["5550002"];
     Config.validRebootAlertPhones := ["5550003"];
     Config.validInboundSMSPhones := ["5550004"];
     Config.SendSMS := true; Config.SMSsize := 160;
     Config.RecentSecondsEVL4 := 120; Config.AdjacentSecondsEVL4 := 90;
     Config.RecentSecondsSMS := 60;
     Config.IgnoreTokens := []; Config.NotTheseTokens := ["Periodic Test"];
     Config.UrgentTokens := ["FIRE"]; Config.ImportantTokens := ["ARMED"];
     Config.SMS_Count := 0; Config.SMS_LatestDate := None |}.

Definition sys : DPM.Sys :=
  {| DPM.cnf1 := cnf; DPM.mdm1 := ModemExamples.fresh_modem; DPM.now_reads := 0 |}.

Definition env : DPM.Env := ModemExamples.dpm_env ModemExamples.steady_env.

End ClassifierExamples.





(** ** pingone.py: the round-robin of hosts that answer a ping *)

Module PingOne.

(** The object, and the commands run so far, most recent first. *)
Record PingOne : Type := {
  pingerID : Z;
  pingers : gmap Z string;
  commands : list (list string)
}.

Definition init : PingOne :=
  {| pingerID := 0;
     pingers := list_to_map [(1, "google.com"); (2, "amazon.com"); (3, "yahoo.com");
                             (4, "facebook.com"); (5, "youtube.com"); (6, "reddit.com")];
     commands := [] |}.

(** Replace the default pingers with a custom set; the dictionary is the
    value of the expression the configuration holds. *)
Definition setPingers (myPingers : option (gmap Z string)) : M PingOne unit :=
  match myPingers with
  | Some d =>
      modify (fun self => {| pingerID := pingerID self; pingers := d;
                             commands := commands self |})
  | None => ret tt
  end.

Definition getCountHostnames : M PingOne Z :=
  self <~ get ;; ret (Z.of_nat (size (pingers self))).

(** Get the next hostname from the collection of pingers. *)
Definition getNextHostname : M PingOne string :=
  self <~ get ;;
  let len1 := Z.of_nat (size (pingers self)) in
  modify (fun self =>
    {| pingerID := if len1 <=? pingerID self then 1 else pingerID self + 1;
       pingers := pingers self; commands := commands self |}) ;;>
  self <~ get ;;
  lift (getitem (pingers self) (pingerID self)).

(** The return code of the [n]-th command run, or the failure to run it. *)
Record Env : Type := { returncode : nat -> list string -> result Z }.



End PingOne.

(** [k] successive calls of [getNextHostname], and their results. *)
Fixpoint next_hostnames (k : nat) : M PingOne.PingOne (list string) :=
  match k with
  | O => ret []
  | S k' =>
      h <~ PingOne.getNextHostname ;;
      hs <~ next_hostnames k' ;;
      ret (h :: hs)
  end.

(** The hosts are numbered from 1, as the default ones are. *)
Definition numbered (self : PingOne.PingOne) : Prop :=
  PingOne.pingers self <> ∅
  /\ forall k, 1 <= k <= Z.of_nat (size (PingOne.pingers self)) ->
               is_Some (PingOne.pingers self !! k).

(** The identifier is 0, as in a new object, or the number of a host. *)
Definition in_round (self : PingOne.PingOne) : Prop :=
  0 <= PingOne.pingerID self <= Z.of_nat (size (PingOne.pingers self)).

(** The number of the host the [i]-th next call returns. *)
Definition turn (self : PingOne.PingOne) (i : nat) : Z :=
  (PingOne.pingerID self + Z.of_nat i) mod Z.of_nat (size (PingOne.pingers self)) + 1.

Module PingExamples.



End PingExamples.

(** ** stupefy.py: the protection of cleartext passwords *)

Module Stupefy.

(** [s[-n:]]: the last [n] characters, and the whole of [s] when [n] is
    0 or more than its length. *)
Definition last_chars (n : nat) (s : string) : string :=
  if (n =? 0)%nat then s else String.substring (String.length s - n) n s.

(** [s[::-1]]. *)
Fixpoint reverse_onto (s acc : string) : string :=
  match s with
  | EmptyString => acc
  | String c s' => reverse_onto s' (String c acc)
  end.

Definition reversed (s : string) : string := reverse_onto s "".

(** The serial the constructor keeps from the lines of [/proc/cpuinfo]:
    the last eight characters of the last line, lowercased and stripped,
    that has both the word and a colon. *)
Definition cpuserial_of (lines : list string) : string :=
  fold_left (fun cpuserial line =>
               let line := Py.strip_ws (Py.lower line) in
               if Py.contains "serial" line && Py.contains ":" line
               then last_chars 8 line else cpuserial)
            lines "".

(** The constructor: [None] stands for the exit with code 16, when the
    file cannot be read ([cpuinfo] is [None]) or has no serial. *)
Definition init (cpuinfo : option (list string)) : option string :=
  match cpuinfo with
  | Some lines =>
      let cpuserial := cpuserial_of lines in
      if String.eqb cpuserial "" then None else Some cpuserial
  | None => None
  end.

(** [chr(ord(a) ^ ord(b))]. *)
Definition xor_char (a b : ascii) : ascii :=
  ascii_of_N (N.lxor (N_of_ascii a) (N_of_ascii b)).

(** Exclusive OR of two strings, over the pairs of [zip]. *)
Fixpoint sxor (str1 str2 : string) : string :=
  match str1, str2 with
  | String a s1, String b s2 => String (xor_char a b) (sxor s1 s2)
  | _, _ => EmptyString
  end.

(** [int(lenpw / lenkey)] when the key is shorter, else 0. *)
Definition repeat_count (lenpw lenkey : Z) : result Z :=
  if lenkey <? lenpw then
    q <- PyFloat.truediv_int lenpw lenkey ;;;
    PyFloat.to_int q
  else Ok 0.

(** What the interpreter can build: a string longer than [ssize_max]
    ([PY_SSIZE_T_MAX], which is [2^63 - 1] or [2^31 - 1]) is refused with
    [OverflowError], and one longer than [capacity], for which the
    memory has no room, with [MemoryError]. *)
Record Limits : Type := {
  ssize_max : Z;
  capacity : Z
}.

(** [a + b] on two strings. *)
Definition concat (lim : Limits) (a b : string) : result string :=
  let n := Z.of_nat (String.length a) + Z.of_nat (String.length b) in
  if ssize_max lim <? n then Raise OverflowError
  else if capacity lim <? n then Raise MemoryError
  else Ok (a +:+ b).

(** The loop [while repeat > 0 : tmpkey = tmpkey + tmpkey]. *)
Fixpoint doubled (lim : Limits) (repeat : nat) (tmpkey : string) : result string :=
  match repeat with
  | O => Ok tmpkey
  | S r => tmpkey <- concat lim tmpkey tmpkey ;;; doubled lim r tmpkey
  end.

(** Generate a key of the length of the cleartext password itself. *)
Definition generateKey (lim : Limits) (clearPasswd cpuserial : string) : result string :=
  let lenpw := String.length clearPasswd in
  let lenkey := String.length cpuserial in
  repeat <- repeat_count (Z.of_nat lenpw) (Z.of_nat lenkey) ;;;
  tmpkey <- doubled lim (Z.to_nat repeat) cpuserial ;;;
  let key := last_chars lenpw tmpkey in
  Ok (reversed key).

End Stupefy.

(** The lengths of passwords for which the number of doublings was
    computed. *)
Definition MAX_PASSWORD : nat := 256.

(** The number of doublings for a password of [lenpw] characters and a
    serial of [lenkey]: the quotient of the lengths when the serial is
    the shorter one. *)
Definition doublings (lenpw lenkey : Z) : Z :=
  if lenkey <? lenpw then lenpw / lenkey else 0.

(** With a serial of [lenkey] characters, [repeat_count] returns that
    number for every password of up to [MAX_PASSWORD] characters, and
    that many doublings give a key that covers the password. *)
Definition doublings_cover (lenkey : nat) : bool :=
  forallb (fun lenpw =>
             match Stupefy.repeat_count (Z.of_nat lenpw) (Z.of_nat lenkey) with
             | Ok r => (r =? doublings (Z.of_nat lenpw) (Z.of_nat lenkey))
                       && (Z.of_nat lenpw <=? Z.of_nat lenkey * 2 ^ r)
             | Raise _ => false
             end)
          (seq 0 (S MAX_PASSWORD)).

(** The longest string the limits allow. *)
Definition longest (lim : Stupefy.Limits) : Z :=
  Z.min (Stupefy.ssize_max lim) (Stupefy.capacity lim).

Module StupefyExamples.

(** Two lines of the processor information of a Raspberry Pi. *)
Definition cpuinfo : list string :=
  [ "Hardware : BCM2835" ; "Serial  : 00000000a1b2c3d4" ; "Model  : Raspberry Pi" ].

(** A 64-bit interpreter with room for strings of [2 ^ 32] characters. *)
Definition limits : Stupefy.Limits :=
  {| Stupefy.ssize_max := 2 ^ 63 - 1; Stupefy.capacity := 2 ^ 32 |}.

(** A password of 256 characters. *)
Definition long_password : string := Py.zeros 256.

End StupefyExamples.

(** ** config.py: the validation of the phone numbers *)

Module ConfigPhones.

(** [c.isnumeric()] for an 8-bit character: the ten digits, the
    superscripts two, three and one, and the three fractions. *)
Definition numeric_char (c : ascii) : bool :=
  let n := nat_of_ascii c in
  ((48 <=? n)%nat && (n <=? 57)%nat)
  || (n =? 178)%nat || (n =? 179)%nat || (n =? 185)%nat
  || ((188 <=? n)%nat && (n <=? 190)%nat).

Fixpoint all_numeric (s : string) : bool :=
  match s with
  | EmptyString => true
  | String c s' => numeric_char c && all_numeric s'
  end.

(** [s.isnumeric()]: false for the empty string. *)
Definition isnumeric (s : string) : bool :=
  negb (String.eqb s "") && all_numeric s.

(** The body of the loop over the comma-separated entries: what the
    entry appends to the valid phones. *)
Definition check_one (ph : string) : list string :=
  let tmp := ph in
  let ph := Py.replace " " "" ph in
  let ph := Py.replace "-" "" ph in
  let ph := Py.replace "+" "" ph in
  if isnumeric ph then
    [if Py.contains "+" tmp then "+" +:+ ph else ph]
  else [].

(** The four checks differ by the name of the option only;
    [option_value] is the value of the option, when the file has it. *)
Definition checkCellPhones (option_value : option string) : list string :=
  match option_value with
  | Some phones =>
      if negb (String.eqb phones "") then flat_map check_one (Py.split "," phones)
      else []
  | None => []
  end.

(** The options of a section of [DPM.ini]. *)
Definition checkRedAlertCellPhones (CellPhones : string -> option string) : list string :=
  checkCellPhones (CellPhones "RedAlertCellPhones").
Definition checkYellowAlertCellPhones (CellPhones : string -> option string) : list string :=
  checkCellPhones (CellPhones "YellowAlertCellPhones").
Definition checkRebootAlertCellPhones (CellPhones : string -> option string) : list string :=
  checkCellPhones (CellPhones "RebootAlertCellPhones").
Definition checkInboundSMSCellPhones (CellPhones : string -> option string) : list string :=
  checkCellPhones (CellPhones "InboundSMSCellPhones").

(** The first valid inbound phone the sender's number is a part of. *)
Definition checkInboundPhoneSMS (cnf : Config.Configuration) (inphone : string)
  : option string :=
  find (fun x => Py.contains inphone x) (Config.validInboundSMSPhones cnf).

End ConfigPhones.

(** [s] without the characters of [chars]. *)
Fixpoint without (chars s : string) : string :=
  match s with
  | EmptyString => EmptyString
  | String c s' =>
      if Py.mem_char c chars then without chars s' else String c (without chars s')
  end.

(** The form in which an entry is kept. *)
Definition dialled (entry : string) : string :=
  if Py.mem_char "+" entry then "+" +:+ without " -+" entry else without " -+" entry.

(** ** telnetEVL4.py: the current status *)

Module TelnetStatus.

Import Telnet.

(** One reading of the most recent keypad text:
    [msg] is replaced when the history holds more than one entry. *)
Definition read_status (msg : option string) : M TelnetEVL4 (option string) :=
  self <~ get ;;
  h <~ lift (getitem (recentMsgs self) "msg00txt") ;;
  let keys := sorted_keys_desc h in
  if (1 <? length keys)%nat then
    k0 <~ lift (Py.nth_item keys 0) ;;
    m <~ lift (getitem h k0) ;;
    ret (Some m)
  else ret msg.

(** [((msg1 != None) and (msg2 != None)) and (msg1 == msg2)]. *)
Definition consistent (msg1 msg2 : option string) : bool :=
  match msg1, msg2 with
  | Some a, Some b => String.eqb a b
  | _, _ => false
  end.

(** The loop of [getCurrentStatus] over the worlds of its pairs of
    calls of [getNextMessage], ten seconds apart. *)
Fixpoint status_loop (worlds : list (Env * Env)) (msg1 msg2 : option string)
  : M TelnetEVL4 (option string) :=
  match worlds with
  | [] => ret msg2
  | (env1, env2) :: worlds' =>
      getNextMessage env1 ;;>
      msg1 <~ read_status msg1 ;;
      getNextMessage env2 ;;>
      msg2 <~ read_status msg2 ;;
      if consistent msg1 msg2 then ret msg2
      else status_loop worlds' msg1 msg2
  end.

(** Get the current status of the security system; [world n] is what
    the call of rank [n] of [getNextMessage] observes. *)
Definition getCurrentStatus (world : nat -> Env) : M TelnetEVL4 (option string) :=
  status_loop (map (fun x => (world (2 * x)%nat, world (2 * x + 1)%nat)) (seq 0 10))
              None None.

End TelnetStatus.

(** What a reading of the keypad history of [msgs] gives when nothing
    was read before: the text under the greatest key when two entries
    are held, nothing otherwise. *)
Definition keypad_view (msgs : gmap string (gmap Z string)) (r : option string) : Prop :=
  let h := history msgs "msg00txt" in
  match r with
  | Some m => exists k, latest_key h k /\ h !! k = Some m /\ (2 <= size h)%nat
  | None => (size h <= 1)%nat
  end.

(** The computation keeps the histories and loses no keypad text. *)
Definition grows {A} (m : M Telnet.TelnetEVL4 A) : Prop :=
  forall tel,
    let tel' := (m tel).2 in
    (histories_present (Telnet.recentMsgs tel) -> histories_present (Telnet.recentMsgs tel'))
    /\ (size (history (Telnet.recentMsgs tel) "msg00txt")
        <= size (history (Telnet.recentMsgs tel') "msg00txt"))%nat.

Module StatusExamples.

(** The keypad reports the same status at every reading, one second
    after the other. *)
Definition steady (n : nat) : Telnet.Env :=
  AlertExamples.frame "%00,01,8C08,08,03,ARMED ***STAY***$" (10 + Z.of_nat n).

End StatusExamples.

(** ** DPM.py: the inbound SMS requests *)

Module Inbound.

Import Config ConfigPhones.

(** What [mdm1.getUnreadSMS()] returned: the list [['OK']] of a modem
    without unread messages, or a list of requests, each one a list of
    words (an index, the sender, the words of the text); the empty list
    stands for a modem error. *)
Inductive unread : Type :=
| JustOK
| Requests (l : list (list string)).

(** The state of the control loop and of the socket engine, the number
    of status requests made so far, and the calls of [tel1.systemArm]
    made so far, most recent first. *)
Record World : Type := {
  sys : DPM.Sys;
  tel1 : Telnet.TelnetEVL4;
  status_calls : nat;
  arm_calls : list (string * string * string)
}.

(** The outside world: that of the control loop, what the socket
    delivers to the call of rank [k] of [getNextMessage] during the
    status request of rank [n], and the outcome of each call of
    [systemArm], whose keystrokes are not modelled. *)
Record Env : Type := {
  dpm_env : DPM.Env;
  status_world : nat -> nat -> Telnet.Env;
  arm_outcome : nat -> result unit
}.

Definition on_sys {A} (m : M DPM.Sys A) : M World A :=
  fun w => match m (sys w) with
           | (r, s) => (r, {| sys := s; tel1 := tel1 w; status_calls := status_calls w;
                              arm_calls := arm_calls w |})
           end.

(** [tel1.getCurrentStatus()]. *)
Definition getCurrentStatus (env : Env) : M World (option string) :=
  fun w => match TelnetStatus.getCurrentStatus (status_world env (status_calls w)) (tel1 w) with
           | (r, t) => (r, {| sys := sys w; tel1 := t; status_calls := S (status_calls w);
                              arm_calls := arm_calls w |})
           end.

(** [tel1.systemArm(cellphone, partition, armtype)]. *)
Definition systemArm (env : Env) (cellphone partition armtype : string) : M World unit :=
  fun w => (arm_outcome env (length (arm_calls w)),
            {| sys := sys w; tel1 := tel1 w; status_calls := status_calls w;
               arm_calls := (cellphone, partition, armtype) :: arm_calls w |}).

(** [str1]: the words after the sender, each followed by a space, then
    in upper case. *)
Definition request_text (x : list string) : string :=
  Py.upper (fold_left (fun str1 word => str1 +:+ word +:+ " ") (drop 2 x) "").

Definition partition_of (str1 : string) : string :=
  if Py.contains "2" str1 || Py.contains "TWO" str1 then "2" else "1".

(** The three tests of the arming mode overwrite one another, in this
    order; the default is AWAY. *)
Definition armMode_of (str1 : string) : string :=
  let armMode := "2" in
  let armMode := if Py.contains "STAY" str1 then "3" else armMode in
  let armMode := if Py.contains "NIGHT" str1 then "33" else armMode in
  if Py.contains "INSTANT" str1 then "7" else armMode.

(** [status.replace(',', ', ')]; [None] has no such method. *)
Definition spaced (status : option string) : result string :=
  match status with
  | Some s => Ok (Py.replace "," ", " s)
  | None => Raise AttributeError
  end.

(** The body of the loop over the requests. *)
Definition do_request (env : Env) (x : list string) : M World unit :=
  x1 <~ lift (Py.nth_item x 1) ;;
  w <~ get ;;
  match checkInboundPhoneSMS (DPM.cnf1 (sys w)) x1 with
  | None => ret tt
  | Some validphone =>
      let str1 := request_text x in
      if Py.contains "STATUS" str1 then
        status <~ getCurrentStatus env ;;
        status <~ lift (spaced status) ;;
        w <~ get ;;
        if SendSMS (DPM.cnf1 (sys w)) then
          rc <~ on_sys (DPM.sendSMS (dpm_env env) status validphone) ;;
          if rc =? 0 then on_sys (DPM.updateMetrics (dpm_env env) 1) else ret tt
        else ret tt
      else if Py.contains "ARM" str1 then
        systemArm env validphone (partition_of str1) (armMode_of str1)
      else ret tt
  end.

(** Process the inbound SMS requests. *)
Definition doInboundSMS (env : Env) (SMSrequest : unread) : M World unit :=
  match SMSrequest with
  | JustOK => ret tt
  | Requests [] => ret tt
  | Requests l =>
      on_sys (DPM.updateMetrics (dpm_env env) (Z.of_nat (length l))) ;;>
      for_each l (do_request env)
  end.

End Inbound.

(** The sender of the request is known, and no valid inbound phone has
    its number as a part. *)
Definition unknown_sender (cnf : Config.Configuration) (x : list string) : Prop :=
  exists phone, Py.nth_item x 1 = Ok phone
                /\ ConfigPhones.checkInboundPhoneSMS cnf phone = None.

Module InboundExamples.

Definition world : Inbound.World :=
  {| Inbound.sys := ClassifierExamples.sys; Inbound.tel1 := AlertExamples.connected;
     Inbound.status_calls := 0; Inbound.arm_calls := [] |}.

Definition env : Inbound.Env :=
  {| Inbound.dpm_env := ClassifierExamples.env;
     Inbound.status_world := fun _ => StatusExamples.steady;
     Inbound.arm_outcome := fun _ => Ok tt |}.

End InboundExamples.

(** * Properties *)

(** ** Strings *)

Section StringFacts.

Lemma prefix_char c d s :
  String.prefix (String c "") (String d s) = Ascii.eqb c d.
Proof.
  simpl. destruct (ascii_dec c d) as [->|Hne].
  - rewrite Ascii.eqb_refl. destruct s; reflexivity.
  - symmetry. apply Ascii.eqb_neq. exact Hne.
Qed.

Lemma app_cons d (a b : string) : String d a +:+ b = String d (a +:+ b).
Proof. reflexivity. Qed.

Lemma app_nil (b : string) : "" +:+ b = b.
Proof. reflexivity. Qed.

Lemma mem_char_app c (a b : string) :
  Py.mem_char c (a +:+ b) = Py.mem_char c a || Py.mem_char c b.
Proof.
  induction a as [|d a IH]; [reflexivity|].
  rewrite app_cons. simpl. rewrite IH. apply orb_assoc.
Qed.

Lemma mem_char_lstrip c chars s :
  Py.mem_char c s = false -> Py.mem_char c (Py.lstrip chars s) = false.
Proof.
  induction s as [|d s IH]; simpl; [reflexivity|].
  intros H. apply orb_false_iff in H as [Hd Hs].
  destruct (Py.mem_char d chars); [auto|].
  simpl. rewrite Hd, Hs. reflexivity.
Qed.

Lemma mem_char_rstrip c chars s :
  Py.mem_char c s = false -> Py.mem_char c (Py.rstrip chars s) = false.
Proof.
  induction s as [|d s IH]; simpl; [reflexivity|].
  intros H. apply orb_false_iff in H as [Hd Hs].
  specialize (IH Hs).
  destruct (Py.rstrip chars s) as [|e r].
  - destruct (Py.mem_char d chars); simpl; [reflexivity|].
    rewrite Hd. reflexivity.
  - simpl in *. rewrite Hd. exact IH.
Qed.

Lemma mem_char_strip c chars s :
  Py.mem_char c s = false -> Py.mem_char c (Py.strip chars s) = false.
Proof.
  intros H. unfold Py.strip. apply mem_char_rstrip, mem_char_lstrip, H.
Qed.



(** [s.replace('!', '')] leaves no exclamation mark. *)
Lemma replace_removes_char (c : ascii) s :
  Py.mem_char c (Py.replace (String c "") "" s) = false.
Proof.
  unfold Py.replace.
  induction s as [|d s IH]; [reflexivity|].
  cbn [Py.replace_go]. rewrite prefix_char.
  destruct (Ascii.eqb_spec c d) as [->|Hne].
  - rewrite app_nil. exact IH.
  - simpl. rewrite IH.
    destruct (Ascii.eqb_spec c d); [contradiction|reflexivity].
Qed.

Lemma contains_char c s : Py.contains (String c "") s = Py.mem_char c s.
Proof.
  induction s as [|d s IH]; [reflexivity|].
  cbn [Py.contains Py.mem_char]. rewrite prefix_char, IH. reflexivity.
Qed.

Lemma split_no_sep sep s :
  Py.mem_char sep s = false -> Py.split sep s = [s].
Proof.
  induction s as [|d s IH]; simpl; [reflexivity|].
  intros H. apply orb_false_iff in H as [Hd Hs].
  rewrite Ascii.eqb_sym, Hd, (IH Hs). reflexivity.
Qed.

Lemma split_app_sep sep a b :
  Py.mem_char sep a = false ->
  Py.split sep (a +:+ String sep b) = a :: Py.split sep b.
Proof.
  induction a as [|d a IH].
  - rewrite app_nil. simpl. rewrite Ascii.eqb_refl. reflexivity.
  - rewrite app_cons. simpl. intros H. apply orb_false_iff in H as [Hd Ha].
    rewrite Ascii.eqb_sym, Hd, (IH Ha). reflexivity.
Qed.

Lemma count_char_none c s :
  Py.mem_char c s = false -> Py.count_go (String c "") 0 s = 0.
Proof.
  induction s as [|d s IH]; [reflexivity|].
  cbn [Py.count_go Py.mem_char]. rewrite prefix_char.
  intros H. apply orb_false_iff in H as [Hd Hs].
  rewrite Hd. auto.
Qed.



End StringFacts.

(** ** Occurrences of one character *)

Section SeparatorCount.

Variable c : ascii.

Lemma count_char_cons d s :
  Py.count_go (String c "") 0 (String d s)
  = (if Ascii.eqb c d then 1 else 0) + Py.count_go (String c "") 0 s.
Proof.
  cbn [Py.count_go]. rewrite prefix_char.
  destruct (Ascii.eqb c d); reflexivity.
Qed.

Lemma count_char_nonneg s : 0 <= Py.count_go (String c "") 0 s.
Proof.
  induction s as [|d s IH]; [reflexivity|].
  rewrite count_char_cons. destruct (Ascii.eqb c d); lia.
Qed.

Lemma count_char_zero s :
  Py.count_go (String c "") 0 s = 0 -> Py.mem_char c s = false.
Proof.
  induction s as [|d s IH]; [reflexivity|].
  rewrite count_char_cons. cbn [Py.mem_char].
  pose proof (count_char_nonneg s).
  destruct (Ascii.eqb c d); [lia|]. intros H0. apply IH. lia.
Qed.







Lemma mem_char_count s :
  Py.mem_char c s = false <-> Py.count_go (String c "") 0 s = 0.
Proof. split; [apply count_char_none|apply count_char_zero]. Qed.







End SeparatorCount.

(** ** The decoder *)

Section Decoder.

Import Cid.



Lemma ten_digits_index CID :
  ten_digits CID -> exists c rest, CID = String c rest /\ Py.index CID 0 = Ok (String c "").
Proof.
  intros [Hlen _]. destruct CID as [|c rest]; [discriminate Hlen|].
  exists c, rest. split; reflexivity.
Qed.


Lemma agent_of_total self kind agentid :
  exists agent, agent_of self kind agentid = Ok agent.
Proof.
  unfold agent_of, getitem.
  destruct (String.eqb kind "U").
  - destruct (users self !! agentid); simpl; eauto.
  - destruct (String.eqb kind "Z").
    + destruct (zones self !! agentid); simpl; eauto.
    + destruct (String.eqb kind "X"); simpl; eauto.
Qed.

Lemma agent_of_unknown self kind agentid :
  (kind = "U" /\ users self !! agentid = None) \/
  (kind = "Z" /\ zones self !! agentid = None) ->
  agent_of self kind agentid = Ok "Unknown user/zone/agent".
Proof.
  unfold agent_of, getitem.
  intros [[-> H] | [-> H]]; simpl; rewrite H; reflexivity.
Qed.

Lemma compose_total self q ev part rt agent :
  exists reply, compose self q ev part rt agent = Ok reply
                /\ Py.mem_char "!" reply = false.
Proof.
  unfold compose. destruct rt as [[[cat descr] kind] sel].
  destruct (String.eqb (decodeLevel self) "VERBOSE").
  { destruct (getitem CID_EventCategory cat) as [category|]; simpl;
      [|eexists; split; reflexivity].
    destruct (qualifier_text sel q) as [qual|]; simpl;
      [|eexists; split; reflexivity].
    eexists; split; [reflexivity|]. apply (replace_removes_char "!"). }
  destruct (String.eqb (decodeLevel self) "NORMAL").
  { destruct (qualifier_text sel q) as [qual|]; simpl;
      [|eexists; split; reflexivity].
    eexists; split; [reflexivity|]. apply (replace_removes_char "!"). }
  destruct (String.eqb (decodeLevel self) "TERSE"); simpl.
  - eexists; split; [reflexivity|]. apply (replace_removes_char "!").
  - eexists; split; reflexivity.
Qed.


Lemma entries_ok : forallb entry_ok CID_EventCodes_list = true.
Proof. vm_compute. reflexivity. Qed.

Lemma lookup_entry_ok ev rt : CID_EventCodes !! ev = Some rt -> entry_ok (ev, rt) = true.
Proof.
  intros H. apply elem_of_list_to_map_2 in H.
  pose proof entries_ok as Hall. rewrite forallb_forall in Hall.
  apply Hall. apply list_elem_of_In. exact H.
Qed.

Lemma qualifiers_of sel :
  (String.eqb sel "a" || String.eqb sel "b" || String.eqb sel "c" || String.eqb sel "d") = true ->
  exists new restore dup,
    CID_EventQualifiers !! sel
    = Some (<["1" := new]> (<["3" := restore]> (<["6" := dup]> ∅))).
Proof.
  intros H. repeat (apply orb_true_iff in H as [H|H]);
    apply String.eqb_eq in H; subst sel; do 3 eexists; vm_compute; reflexivity.
Qed.

Lemma qualifier_text_valid sel q :
  (String.eqb sel "a" || String.eqb sel "b" || String.eqb sel "c" || String.eqb sel "d") = true ->
  valid_qualifier q -> exists qual, qualifier_text sel q = Ok qual.
Proof.
  intros Hsel Hq. destruct (qualifiers_of sel Hsel) as (n & r & d & Heq).
  unfold qualifier_text, getitem. rewrite Heq. cbn [bind].
  destruct Hq as [-> | [-> | ->]]; eexists; reflexivity.
Qed.

Lemma qualifier_text_invalid sel q :
  (String.eqb sel "a" || String.eqb sel "b" || String.eqb sel "c" || String.eqb sel "d") = true ->
  ~ valid_qualifier q -> qualifier_text sel q = Raise KeyError.
Proof.
  intros Hsel Hq. destruct (qualifiers_of sel Hsel) as (n & r & d & Heq).
  unfold qualifier_text, getitem. rewrite Heq. cbn [bind].
  unfold valid_qualifier in Hq.
  rewrite !lookup_insert_ne, lookup_empty by (intros <-; tauto).
  reflexivity.
Qed.

End Decoder.

Section DecoderClaims.

Import Cid.

(** C3 (as the code has it). For every 10-digit code and each of the
    three decode levels, [getDescription] returns a text and raises
    nothing. An event code missing from the event table gives the fixed
    text built from that code. When the event is known, its agent is a
    user or a zone, and the agent id is missing from that table, the
    agent part is the fixed text for an unknown agent: the terse reply is
    always composed with it, the normal and verbose replies are composed
    with it when the qualifier digit is 1, 3 or 6, and for any other
    qualifier digit they are the fixed text for an undecodable code. *)
Theorem getDescription_total_with_fallbacks (self : DecodeCID) (CID : string) :
  known_level (decodeLevel self) ->
  ten_digits CID ->
  let q := Py.slice CID 0 1 in
  let ev := Py.slice CID 1 4 in
  let part := Py.slice CID 4 6 in
  let agentid := Py.slice CID 6 9 in
  exists reply,
    getDescription self CID = Ok reply
    /\ (CID_EventCodes !! ev = None ->
        reply = "No description available for CID event code " +:+ ev)
    /\ (forall cat descr kind sel,
          CID_EventCodes !! ev = Some (cat, descr, kind, sel) ->
          (kind = "U" /\ users self !! agentid = None) \/
          (kind = "Z" /\ zones self !! agentid = None) ->
          (decodeLevel self = "TERSE" ->
           reply = Py.replace "!" ""
                     ("Partition:" +:+ part +:+ ", " +:+ descr +:+ ", "
                      +:+ "Unknown user/zone/agent"))
          /\ (decodeLevel self = "NORMAL" -> valid_qualifier q ->
              exists qual,
                qualifier_text sel q = Ok qual
                /\ reply = Py.replace "!" ""
                     ("Partition:" +:+ part +:+ ", " +:+ qual +:+ ":" +:+ ev +:+ " "
                      +:+ descr +:+ ", " +:+ "Unknown user/zone/agent"))
          /\ (decodeLevel self = "VERBOSE" -> valid_qualifier q ->
              exists category qual,
                CID_EventCategory !! cat = Some category
                /\ qualifier_text sel q = Ok qual
                /\ reply = Py.replace "!" ""
                     ("Partition:" +:+ part +:+ ", " +:+ category +:+ ", " +:+ qual
                      +:+ ":" +:+ ev +:+ " " +:+ descr +:+ ", "
                      +:+ "Unknown user/zone/agent"))
          /\ (decodeLevel self <> "TERSE" -> ~ valid_qualifier q ->
              reply = "Unable to decode CID")).
Proof.
  intros Hlvl Hten q ev part agentid.
  destruct (ten_digits_index CID Hten) as (c & rest & HCID & Hidx).
  assert (Hq : q = String c "").
  { subst q CID. unfold Py.slice. simpl. destruct rest; reflexivity. }
  unfold getDescription. rewrite Hidx. cbn [bind].
  fold ev part agentid.
  destruct (CID_EventCodes !! ev) as [rt|] eqn:Hev.
  - destruct rt as [[[cat descr] kind] sel].
    pose proof (lookup_entry_ok _ _ Hev) as Hok. cbn [entry_ok] in Hok.
    apply andb_true_iff in Hok as [Hcat Hsel].
    destruct (CID_EventCategory !! cat) as [category|] eqn:Hcategory; [|discriminate].
    destruct (agent_of_total self kind agentid) as [agent Hagent].
    cbn [fst snd]. rewrite Hagent. cbn [bind].
    destruct (compose_total self (String c "") ev part (cat, descr, kind, sel) agent)
      as (reply & Hreply & _).
    exists reply. split; [exact Hreply|]. split; [discriminate|].
    intros cat' descr' kind' sel' [= <- <- <- <-] Hmiss.
    rewrite (agent_of_unknown _ _ _ Hmiss) in Hagent. injection Hagent as <-.
    unfold compose in Hreply. rewrite <- Hq in Hreply.
    repeat split.
    + intros Hl. rewrite Hl in Hreply. cbn in Hreply. injection Hreply as <-. reflexivity.
    + intros Hl Hv. destruct (qualifier_text_valid sel q Hsel Hv) as [qual Hqual].
      exists qual. split; [exact Hqual|].
      rewrite Hl, Hqual in Hreply. cbn in Hreply. injection Hreply as <-. reflexivity.
    + intros Hl Hv. destruct (qualifier_text_valid sel q Hsel Hv) as [qual Hqual].
      exists category, qual. split; [exact Hcategory|]. split; [exact Hqual|].
      unfold getitem in Hreply.
      rewrite Hl, Hcategory, Hqual in Hreply. cbn in Hreply. injection Hreply as <-. reflexivity.
    + intros Hl Hv. pose proof (qualifier_text_invalid sel q Hsel Hv) as Hqual.
      unfold getitem in Hreply. rewrite Hcategory, Hqual in Hreply.
      destruct Hlvl as [Hl'|[Hl'|Hl']]; [| |contradiction];
        rewrite Hl' in Hreply; cbn in Hreply; injection Hreply as <-; reflexivity.
  - eexists. split; [reflexivity|]. split; [reflexivity|]. discriminate.
Qed.

(** C3, at a concrete input: a normal-level decoder and the default
    tables, the burglary code of zone 099 with each valid qualifier. *)
Lemma getDescription_total_with_fallbacks_witness :
  exists reply,
    getDescription (init "NORMAL") "1131010990" = Ok reply
    /\ reply = "Partition:01, New event:131 Perimeter, Unknown user/zone/agent".
Proof.
  destruct (getDescription_total_with_fallbacks (init "NORMAL") "1131010990")
    as (reply & Hret & _ & Hagent).
  - right; left; reflexivity.
  - split; reflexivity.
  - exists reply. split; [exact Hret|].
    destruct (Hagent "D" "Perimeter" "Z" "a") as (_ & Hnormal & _).
    + vm_compute. reflexivity.
    + right. split; [reflexivity|]. vm_compute. reflexivity.
    + destruct Hnormal as (qual & Hqual & ->).
      * reflexivity.
      * left. reflexivity.
      * vm_compute in Hqual. injection Hqual as <-. vm_compute. reflexivity.
Defined.

(** C3, as stated, fails: the event 131 is in the table and the zone 099
    is in no table, yet with the qualifier digit 2 the normal-level reply
    is not composed and does not name an unknown agent. *)
Lemma getDescription_qualifier_2_not_composed :
  CID_EventCodes !! "131" = Some ("D", "Perimeter", "Z", "a")
  /\ zones (init "NORMAL") !! "099" = None
  /\ users (init "NORMAL") !! "099" = None
  /\ getDescription (init "NORMAL") "2131010990" = Ok "Unable to decode CID"
  /\ Py.contains "Unknown user/zone/agent" "Unable to decode CID" = false.
Proof. vm_compute. repeat split; reflexivity. Qed.

End DecoderClaims.

(** ** The composite alert *)

Section Composite.




Lemma composite_contains keypad decoded :
  Py.contains "!" (DPM.composite keypad decoded) = true.
Proof.
  rewrite contains_char. unfold DPM.composite.
  rewrite mem_char_app. change (Py.mem_char "!" (" ! " +:+ decoded)) with true.
  apply orb_true_r.
Qed.









End Composite.

(** ** Rolling histories *)

Section Histories.

Context {V : Type}.
Implicit Types d : gmap Z V.

Lemma sorted_keys_perm d : sorted_keys d ≡ₚ (map_to_list d).*1.
Proof. apply merge_sort_Permutation. Qed.

Lemma sorted_keys_NoDup d : NoDup (sorted_keys d).
Proof. rewrite sorted_keys_perm. apply NoDup_fst_map_to_list. Qed.

Lemma elem_of_sorted_keys d k : k ∈ sorted_keys d <-> is_Some (d !! k).
Proof.
  rewrite sorted_keys_perm, list_elem_of_fmap. split.
  - intros ([k' v] & -> & Hin). apply elem_of_map_to_list in Hin. eauto.
  - intros [v Hv]. exists (k, v). split; [reflexivity|].
    apply elem_of_map_to_list. exact Hv.
Qed.

Lemma length_sorted_keys d : length (sorted_keys d) = size d.
Proof. rewrite sorted_keys_perm, length_fmap. apply length_map_to_list. Qed.

Lemma sorted_keys_sorted d : StronglySorted Z.le (sorted_keys d).
Proof. apply (StronglySorted_merge_sort Z.le). Qed.

Lemma elem_of_sorted_keys_desc d k : k ∈ sorted_keys_desc d <-> is_Some (d !! k).
Proof. unfold sorted_keys_desc. rewrite elem_of_reverse. apply elem_of_sorted_keys. Qed.

Lemma surplus_keys_NoDup n d : NoDup (surplus_keys n d).
Proof.
  unfold surplus_keys. eapply sublist_NoDup; [apply sorted_keys_NoDup|].
  apply sublist_take.
Qed.

Lemma elem_of_surplus_keys n d k : k ∈ surplus_keys n d -> is_Some (d !! k).
Proof.
  unfold surplus_keys. intros H. apply elem_of_sorted_keys.
  eapply subseteq_take, H.
Qed.

Lemma length_surplus_keys n d :
  length (surplus_keys n d) = popLim n (size d).
Proof.
  unfold surplus_keys. rewrite length_take, length_sorted_keys.
  unfold popLim. destruct (Nat.ltb_spec n (size d)); lia.
Qed.

Lemma size_delete_all ks : forall d,
  NoDup ks -> (forall k, k ∈ ks -> is_Some (d !! k)) ->
  size (foldl (fun d k => delete k d) d ks) = (size d - length ks)%nat.
Proof.
  induction ks as [|k ks IH]; intros d Hnd Hin; simpl; [lia|].
  apply NoDup_cons in Hnd as [Hk Hnd].
  rewrite IH; [|exact Hnd|].
  - rewrite map_size_delete_Some by (apply Hin; left). lia.
  - intros k' Hk'. rewrite lookup_delete_ne by (intros ->; contradiction).
    apply Hin. right. exact Hk'.
Qed.

Lemma lookup_delete_all ks : forall d k,
  foldl (fun d k => delete k d) d ks !! k = if decide (k ∈ ks) then None else d !! k.
Proof.
  induction ks as [|k0 ks IH]; intros d k; cbn [foldl].
  - destruct (decide (k ∈ [])) as [Hin|_]; [|reflexivity].
    apply elem_of_nil in Hin. contradiction.
  - rewrite IH. destruct (decide (k ∈ ks)) as [Hin|Hnin].
    + destruct (decide (k ∈ k0 :: ks)) as [_|Hn]; [reflexivity|].
      exfalso. apply Hn. right. exact Hin.
    + destruct (decide (k = k0)) as [->|Hne].
      * destruct (decide (k0 ∈ k0 :: ks)) as [_|Hn]; [apply lookup_delete_eq|].
        exfalso. apply Hn. left.
      * destruct (decide (k ∈ k0 :: ks)) as [Hin|_].
        { apply elem_of_cons in Hin as [?|?]; contradiction. }
        apply lookup_delete_ne. congruence.
Qed.

(** After the pruning at most [n] entries are left. *)
Lemma size_pruned n d :
  (size (foldl (fun d k => delete k d) d (surplus_keys n d)) <= n)%nat.
Proof.
  rewrite size_delete_all.
  - rewrite length_surplus_keys. unfold popLim.
    destruct (Nat.ltb_spec n (size d)); lia.
  - apply surplus_keys_NoDup.
  - apply elem_of_surplus_keys.
Qed.

End Histories.

Section Capacity.

Lemma try_except_reconnect env tel :
  exists tel', try_except (Telnet.receive env) (Telnet.doReconnect env) tel = (Ok tt, tel').
Proof.
  unfold try_except. destruct (Telnet.receive env tel) as [[[]|e] tel'].
  - eauto.
  - unfold Telnet.doReconnect, modify. eauto.
Qed.

Lemma getNextMessage_histories env tel name h :
  Telnet.recentMsgs (Telnet.getNextMessage env tel).2 !! name = Some h ->
  (size h <= Telnet.MAX_HISTORY)%nat.
Proof.
  unfold Telnet.getNextMessage, mbind.
  destruct (try_except_reconnect env tel) as [tel' ->].
  unfold Telnet.pruneAll, modify, get, ret. cbn [snd Telnet.recentMsgs].
  rewrite lookup_fmap. destruct (Telnet.recentMsgs tel' !! name) as [h0|]; [|discriminate].
  intros [= <-]. apply size_pruned.
Qed.

Lemma getNextMessage_returns env tel :
  exists tel', Telnet.getNextMessage env tel = (Ok (Telnet.recentMsgs tel'), tel').
Proof.
  unfold Telnet.getNextMessage, mbind.
  destruct (try_except_reconnect env tel) as [tel' ->].
  unfold Telnet.pruneAll, modify, get, ret. eauto.
Qed.

(** The loop of the log scanner's pruning over distinct, present keys. *)
Lemma scanlog_pop_all ks : forall self,
  NoDup ks ->
  (forall k, k ∈ ks -> is_Some (ScanLog.CIDs self !! k)
                      /\ is_Some (ScanLog.CIDflags self !! k)) ->
  for_each ks (fun k => ScanLog.pop_CID k ;;> ScanLog.pop_CIDflag k) self
  = (Ok tt, {| ScanLog.CIDs := foldl (fun d k => delete k d) (ScanLog.CIDs self) ks;
               ScanLog.CIDflags := foldl (fun d k => delete k d) (ScanLog.CIDflags self) ks |}).
Proof.
  induction ks as [|k ks IH]; intros self Hnd Hin.
  - destruct self; reflexivity.
  - apply NoDup_cons in Hnd as [Hk Hnd].
    destruct (Hin k) as [[c Hc] [f Hf]]; [left|].
    cbn [for_each]. unfold mbind at 1. unfold mbind at 1.
    unfold ScanLog.pop_CID at 1, ScanLog.pop_CIDflag at 1, pop.
    rewrite Hc. cbn [ScanLog.CIDflags ScanLog.CIDs]. rewrite Hf.
    rewrite IH; [reflexivity|exact Hnd|].
    intros k' Hk'. cbn [ScanLog.CIDflags ScanLog.CIDs].
    rewrite !lookup_delete_ne by (intros ->; contradiction).
    apply Hin. right. exact Hk'.
Qed.

Lemma scanlog_doPruning self :
  scanlog_wf self ->
  let ks := surplus_keys ScanLog.MAX_HISTORY (ScanLog.CIDs self) in
  ScanLog.doPruning self
  = (Ok tt, {| ScanLog.CIDs := foldl (fun d k => delete k d) (ScanLog.CIDs self) ks;
               ScanLog.CIDflags := foldl (fun d k => delete k d) (ScanLog.CIDflags self) ks |}).
Proof.
  intros Hwf ks. unfold ScanLog.doPruning, mbind, get.
  apply scanlog_pop_all; [apply surplus_keys_NoDup|].
  intros k Hk. apply elem_of_surplus_keys in Hk. split; [exact Hk|].
  apply Hwf, Hk.
Qed.

Lemma scanlog_wf_pruned self ks :
  scanlog_wf self ->
  scanlog_wf {| ScanLog.CIDs := foldl (fun d k => delete k d) (ScanLog.CIDs self) ks;
                ScanLog.CIDflags := foldl (fun d k => delete k d) (ScanLog.CIDflags self) ks |}.
Proof.
  intros Hwf k. cbn [ScanLog.CIDs ScanLog.CIDflags].
  rewrite !lookup_delete_all. destruct (decide (k ∈ ks)); [tauto|apply Hwf].
Qed.

Lemma scanlog_wf_record ts code self :
  scanlog_wf self -> scanlog_wf (ScanLog.record ts code self).2.
Proof.
  intros Hwf k. cbn.
  destruct (decide (ts = k)) as [->|Hne].
  - rewrite !lookup_insert_eq. split; eauto.
  - rewrite !lookup_insert_ne by exact Hne. apply Hwf.
Qed.

Lemma scanlog_wf_scan_lines lines : forall ts1 self,
  scanlog_wf self -> scanlog_wf (ScanLog.scan_lines lines ts1 self).2.
Proof.
  induction lines as [|l lines IH]; intros ts1 self Hwf; [exact Hwf|].
  cbn [ScanLog.scan_lines]. unfold mbind at 1, lift at 1.
  destruct l as [line|e]; [|exact Hwf].
  unfold mbind at 1.
  destruct (ScanLog.hit1 line) as [[t|e]|]; cbn; try exact Hwf.
  - destruct (ScanLog.hit3 line) as [code|]; cbn.
    + apply IH. apply (scanlog_wf_record t code self Hwf).
    + apply IH, Hwf.
  - destruct (ScanLog.hit3 line) as [code|]; cbn.
    + destruct ts1 as [t|]; cbn; [|exact Hwf].
      apply IH. apply (scanlog_wf_record t code self Hwf).
    + apply IH, Hwf.
Qed.

Lemma select_items_flags self :
  scanlog_wf self ->
  forallb (fun kv : Z * string =>
             is_Ok (flag <- getitem (ScanLog.CIDflags self) kv.1 ;;; Ok (String.eqb flag "0")))
          (map_to_list (ScanLog.CIDs self)) = true.
Proof.
  intros Hwf. apply forallb_forall. intros [k v] Hin.
  apply list_elem_of_In, elem_of_map_to_list in Hin.
  destruct (proj1 (Hwf k)) as [f Hf]; [eauto|].
  cbn. unfold getitem. rewrite Hf. reflexivity.
Qed.

(** A log-scan pass on a well-formed window returns its candidates and
    leaves a well-formed window of at most two entries. *)
Lemma getLogRecsWithCID_window lines self :
  scanlog_wf self ->
  exists candidates self',
    ScanLog.getLogRecsWithCID lines self = (Ok candidates, self')
    /\ scanlog_wf self'
    /\ (size (ScanLog.CIDs self') <= ScanLog.MAX_HISTORY)%nat
    /\ candidates
       = filter (fun kv => ok_true (flag <- getitem (ScanLog.CIDflags self') kv.1 ;;;
                                    Ok (String.eqb flag "0")) = true)
                (ScanLog.CIDs self').
Proof.
  intros Hwf. unfold ScanLog.getLogRecsWithCID.
  unfold mbind at 1.
  assert (Hscan : exists self1,
             try_except (ScanLog.scan_lines lines None) (ret tt) self = (Ok tt, self1)
             /\ scanlog_wf self1).
  { unfold try_except.
    pose proof (scanlog_wf_scan_lines lines None self Hwf) as Hwf1.
    destruct (ScanLog.scan_lines lines None self) as [[[]|e] self1]; cbn in Hwf1;
      eexists; split; try reflexivity; exact Hwf1. }
  destruct Hscan as (self1 & -> & Hwf1).
  unfold mbind at 1. rewrite (scanlog_doPruning self1 Hwf1).
  set (self2 := {| ScanLog.CIDs := _ |}).
  assert (Hwf2 : scanlog_wf self2) by (apply scanlog_wf_pruned, Hwf1).
  unfold mbind, get, lift, select_items.
  rewrite (select_items_flags self2 Hwf2).
  exists (filter (fun kv => ok_true (flag <- getitem (ScanLog.CIDflags self2) kv.1 ;;;
                                     Ok (String.eqb flag "0")) = true)
                 (ScanLog.CIDs self2)), self2.
  split; [reflexivity|]. split; [exact Hwf2|]. split; [|reflexivity].
  apply size_pruned.
Qed.

(** The loop of the modem's pruning over distinct, present keys. *)
Lemma modem_pop_all ks : forall self,
  NoDup ks ->
  (forall k, k ∈ ks -> is_Some (Modem.alert self !! k)
                      /\ is_Some (Modem.phone self !! k)) ->
  for_each ks (fun k => Modem.pop_alert k ;;> Modem.pop_phone k) self
  = (Ok tt, Modem.set_history self
              (foldl (fun d k => delete k d) (Modem.alert self) ks)
              (foldl (fun d k => delete k d) (Modem.phone self) ks)).
Proof.
  induction ks as [|k ks IH]; intros self Hnd Hin.
  - destruct self; reflexivity.
  - apply NoDup_cons in Hnd as [Hk Hnd].
    destruct (Hin k) as [[c Hc] [f Hf]]; [left|].
    cbn [for_each]. unfold mbind at 1. unfold mbind at 1.
    unfold Modem.pop_alert at 1, Modem.pop_phone at 1, pop.
    rewrite Hc. cbn [Modem.alert Modem.phone Modem.set_history]. rewrite Hf.
    rewrite IH; [reflexivity|exact Hnd|].
    intros k' Hk'. cbn [Modem.alert Modem.phone Modem.set_history].
    rewrite !lookup_delete_ne by (intros ->; contradiction).
    apply Hin. right. exact Hk'.
Qed.

Lemma modem_doPruning self :
  modem_wf self ->
  let ks := surplus_keys Modem.MAX_HISTORY (Modem.alert self) in
  Modem.doPruning self
  = (Ok tt, Modem.set_history self
              (foldl (fun d k => delete k d) (Modem.alert self) ks)
              (foldl (fun d k => delete k d) (Modem.phone self) ks)).
Proof.
  intros Hwf ks. unfold Modem.doPruning, mbind, get.
  apply modem_pop_all; [apply surplus_keys_NoDup|].
  intros k Hk. apply elem_of_surplus_keys in Hk. split; [exact Hk|].
  apply Hwf, Hk.
Qed.

Lemma modem_wf_pruned self ks :
  modem_wf self ->
  modem_wf (Modem.set_history self
              (foldl (fun d k => delete k d) (Modem.alert self) ks)
              (foldl (fun d k => delete k d) (Modem.phone self) ks)).
Proof.
  intros Hwf k. cbn [Modem.alert Modem.phone Modem.set_history].
  rewrite !lookup_delete_all. destruct (decide (k ∈ ks)); [tauto|apply Hwf].
Qed.

(** C7. After every [getNextMessage] each history of the protocol engine
    holds at most 2 entries, whatever arrived and whatever it held
    before; after every [getLogRecsWithCID] on a log scanner whose two
    dictionaries share their keys the CID window holds at most 2
    entries; after every [doPruning] on a modem whose two dictionaries
    share their keys the SMS history holds at most 16 entries. The calls
    return, and the dictionaries still share their keys afterwards. *)
Theorem histories_within_capacity :
  (forall env tel,
      exists tel',
        Telnet.getNextMessage env tel = (Ok (Telnet.recentMsgs tel'), tel')
        /\ forall name h, Telnet.recentMsgs tel' !! name = Some h -> (size h <= 2)%nat)
  /\ (forall lines slg,
         scanlog_wf slg ->
         exists candidates slg',
           ScanLog.getLogRecsWithCID lines slg = (Ok candidates, slg')
           /\ scanlog_wf slg'
           /\ (size (ScanLog.CIDs slg') <= 2)%nat
           /\ (size (ScanLog.CIDflags slg') <= 2)%nat)
  /\ (forall mdm,
         modem_wf mdm ->
         exists mdm',
           Modem.doPruning mdm = (Ok tt, mdm')
           /\ modem_wf mdm'
           /\ (size (Modem.alert mdm') <= 16)%nat
           /\ (size (Modem.phone mdm') <= 16)%nat).
Proof.
  split; [|split].
  - intros env tel. destruct (getNextMessage_returns env tel) as [tel' Heq].
    exists tel'. split; [exact Heq|].
    intros name h Hh.
    pose proof (getNextMessage_histories env tel name h) as Hb.
    rewrite Heq in Hb. apply Hb, Hh.
  - intros lines slg Hwf.
    destruct (getLogRecsWithCID_window lines slg Hwf)
      as (cands & slg' & Heq & Hwf' & Hsize & _).
    exists cands, slg'. repeat split; try assumption; try apply Hwf'.
    rewrite <- !size_dom in *.
    assert (Hdom : dom (ScanLog.CIDflags slg') = dom (ScanLog.CIDs slg')).
    { apply set_eq. intros k. rewrite !elem_of_dom. symmetry. apply Hwf'. }
    rewrite Hdom. exact Hsize.
  - intros mdm Hwf. eexists. split; [apply (modem_doPruning mdm Hwf)|].
    pose proof (modem_wf_pruned mdm (surplus_keys Modem.MAX_HISTORY (Modem.alert mdm)) Hwf)
      as Hwf'.
    split; [exact Hwf'|].
    assert (Hsize : (size (foldl (fun d k => delete k d) (Modem.alert mdm)
                        (surplus_keys Modem.MAX_HISTORY (Modem.alert mdm))) <= 16)%nat)
      by apply size_pruned.
    split; [exact Hsize|].
    rewrite <- !size_dom in *.
    match goal with |- (size (dom ?p) <= _)%nat =>
      assert (Hdom : dom p = dom (foldl (fun d k => delete k d) (Modem.alert mdm)
                        (surplus_keys Modem.MAX_HISTORY (Modem.alert mdm)))) end.
    { apply set_eq. intros k. rewrite !elem_of_dom. symmetry. apply Hwf'. }
    rewrite Hdom. exact Hsize.
Qed.

End Capacity.

(** ** The budget gate *)

Section BudgetGate.

Import Config.

Lemma days_in_month_ge_28 y m : 28 <= Calendar.days_in_month y m.
Proof.
  unfold Calendar.days_in_month.
  repeat match goal with |- context [if ?b then _ else _] => destruct b end; lia.
Qed.

Lemma valid_date_renewal y m d r :
  Calendar.valid_date y m d = true -> 1 <= r <= 28 ->
  Calendar.valid_date y m r = true.
Proof.
  unfold Calendar.valid_date. rewrite !andb_true_iff, !Z.leb_le.
  pose proof (days_in_month_ge_28 y m). lia.
Qed.

Lemma valid_date_next_renewal y m d r :
  Calendar.valid_date y m d = true -> y < 9999 -> 1 <= r <= 28 ->
  let '(y2, m2, d2) := DPM.next_renewal y m d r in
  Calendar.valid_date y2 m2 d2 = true.
Proof.
  intros Hv Hy Hr. unfold DPM.next_renewal.
  destruct (r <? d); [|eapply valid_date_renewal; eassumption].
  revert Hv. unfold Calendar.valid_date. rewrite !andb_true_iff, !Z.leb_le.
  destruct (Z.eqb_spec m 12) as [->|Hm]; rewrite !andb_true_iff, !Z.leb_le.
  - pose proof (days_in_month_ge_28 (y + 1) 1). lia.
  - pose proof (days_in_month_ge_28 y (m + 1)). lia.
Qed.

(** The renewal check touches the two metrics only. *)
Lemma renewal_check_metrics now cnf :
  (DPM.renewal_check now cnf).2 = cnf \/ (DPM.renewal_check now cnf).2 = set_metrics cnf 0 None.
Proof.
  unfold DPM.renewal_check, mbind, get, lift.
  destruct (RenewalDay cnf <=? Calendar.day now); [|left; reflexivity].
  destruct (Calendar.strptime_date _ _ _) as [ts1|e]; [|left; reflexivity].
  destruct (match SMS_LatestDate cnf with Some _ => _ | None => _ end) as [ts2|e];
    [|left; reflexivity].
  destruct (0 <=? Calendar.days_between ts1 ts2); [right|left]; reflexivity.
Qed.

Lemma renewal_check_ok now cnf :
  well_dated now cnf -> (DPM.renewal_check now cnf).1 = Ok tt.
Proof.
  intros (Hnow & _ & Hr & Hsent).
  unfold DPM.renewal_check, mbind, get, lift.
  destruct (RenewalDay cnf <=? Calendar.day now); [|reflexivity].
  unfold Calendar.strptime_date at 1.
  rewrite (valid_date_renewal _ _ _ _ Hnow Hr).
  destruct (SMS_LatestDate cnf) as [sent|].
  - destruct (Calendar.strptime_datetime sent) as [ts2|e]; [|discriminate Hsent].
    destruct (0 <=? _); reflexivity.
  - unfold Calendar.strptime_date. rewrite (valid_date_renewal _ _ _ _ Hnow Hr).
    destruct (0 <=? _); reflexivity.
Qed.

Lemma days_to_go_ok now r :
  Calendar.valid_date (Calendar.year now) (Calendar.month now) (Calendar.day now) = true ->
  Calendar.year now < 9999 -> 1 <= r <= 28 ->
  exists n, DPM.days_to_go now r = Ok n.
Proof.
  intros Hnow Hy Hr. unfold DPM.days_to_go.
  pose proof (valid_date_next_renewal _ _ _ _ Hnow Hy Hr) as Hnext.
  destruct (DPM.next_renewal _ _ _ _) as [[y2 m2] d2].
  unfold Calendar.strptime_date. rewrite Hnow, Hnext. cbn [bind]. eauto.
Qed.

Lemma avgphonect_empty cnf :
  rosters_empty cnf -> DPM.avgphonect cnf = Ok (S754_zero false).
Proof.
  intros (Hr & Hy & Hb & Hi). unfold DPM.avgphonect.
  unfold getRedAlertCellPhoneCount, getYellowAlertCellPhoneCount,
    getRebootAlertCellPhoneCount, getInboundSMSCellPhoneCount.
  rewrite Hr, Hy, Hb, Hi. reflexivity.
Qed.

Lemma rosters_empty_metrics cnf count latest :
  rosters_empty cnf -> rosters_empty (set_metrics cnf count latest).
Proof. intros H. exact H. Qed.

Lemma optimizeSMS_unfold now cnf :
  DPM.optimizeSMS now cnf
  = match DPM.renewal_check now cnf with
    | (Ok _, cnf') =>
        match DPM.days_to_go now (RenewalDay cnf') with
        | Ok daysToGo =>
            match DPM.avgphonect cnf' with
            | Ok avg =>
                if PyFloat.eq_int avg 0 then (Ok [false; false; false], cnf')
                else
                  match DPM.riskpc (SMS_Allowance cnf') (SMS_Count cnf') daysToGo avg with
                  | Ok risk =>
                      match DPM.within_allowance (SMS_Allowance cnf') (SMS_Count cnf') avg with
                      | Ok within => (Ok (DPM.gate risk within), cnf')
                      | Raise e => (Raise e, cnf')
                      end
                  | Raise e => (Raise e, cnf')
                  end
            | Raise e => (Raise e, cnf')
            end
        | Raise e => (Raise e, cnf')
        end
    | (Raise e, cnf') => (Raise e, cnf')
    end.
Proof.
  unfold DPM.optimizeSMS, mbind, get, lift, ret.
  destruct (DPM.renewal_check now cnf) as [[[]|e] cnf']; [|reflexivity].
  destruct (DPM.days_to_go _ _); [|reflexivity].
  destruct (DPM.avgphonect cnf'); [|reflexivity].
  destruct (PyFloat.eq_int _ 0); [reflexivity|].
  destruct (DPM.riskpc _ _ _ _); [|reflexivity].
  destruct (DPM.within_allowance _ _ _); reflexivity.
Qed.

(** C2. Once the calendar part has run and at least one phone is
    configured, the decision of [optimizeSMS] is: with a risk below 100
    and the count of sent messages plus the average roster size at most
    the allowance, Red, Yellow and Reboot; with a risk of 100 or more
    under the same bound, Red only; otherwise none. A risk of exactly 100
    gives Red only, and a usage exactly equal to the allowance is still
    within the bound. *)
Theorem optimizeSMS_gate_policy
    (now : Calendar.datetime) (cnf cnf' : Configuration)
    (daysToGo risk : Z) (avg usage : spec_float) :
  DPM.renewal_check now cnf = (Ok tt, cnf') ->
  DPM.days_to_go now (RenewalDay cnf') = Ok daysToGo ->
  DPM.avgphonect cnf' = Ok avg ->
  PyFloat.eq_int avg 0 = false ->
  DPM.riskpc (SMS_Allowance cnf') (SMS_Count cnf') daysToGo avg = Ok risk ->
  PyFloat.int_add (SMS_Count cnf') avg = Ok usage ->
  exists decision,
    DPM.optimizeSMS now cnf = (Ok decision, cnf')
    /\ (risk < 100 -> PyFloat.le_int usage (SMS_Allowance cnf') = true ->
        decision = [true; true; true])
    /\ (100 <= risk -> PyFloat.le_int usage (SMS_Allowance cnf') = true ->
        decision = [true; false; false])
    /\ (PyFloat.le_int usage (SMS_Allowance cnf') = false ->
        decision = [false; false; false])
    /\ (risk = 100 -> PyFloat.le_int usage (SMS_Allowance cnf') = true ->
        decision = [true; false; false])
    /\ (PyFloat.cmp_int usage (SMS_Allowance cnf') = Some Eq ->
        decision = if risk <? 100 then [true; true; true] else [true; false; false]).
Proof.
  intros Hrenew Hdays Havg Hnz Hrisk Husage.
  rewrite optimizeSMS_unfold, Hrenew, Hdays, Havg, Hnz, Hrisk.
  unfold DPM.within_allowance. rewrite Husage. cbn [bind].
  eexists. split; [reflexivity|]. unfold DPM.gate.
  repeat split.
  - intros Hlt ->. apply Z.ltb_lt in Hlt. rewrite Hlt. reflexivity.
  - intros Hge ->. pose proof Hge as Hge'. apply Z.leb_le in Hge'.
    apply Z.ltb_ge in Hge. rewrite Hge, Hge'. reflexivity.
  - intros ->. rewrite !andb_false_r. reflexivity.
  - intros -> ->. reflexivity.
  - intros Heq. unfold PyFloat.le_int. rewrite Heq.
    destruct (Z.ltb_spec risk 100) as [Hlt|Hge]; [reflexivity|].
    apply Z.leb_le in Hge. rewrite Hge. reflexivity.
Qed.

End BudgetGate.

Section BudgetGateExamples.

Import Config Examples.

(** C2 at a concrete input: one phone per category, an allowance of
    100 of which 88 are used, twelve days before the renewal: the risk
    is exactly 100 and Red alone is authorized. *)
Lemma optimizeSMS_gate_policy_witness :
  DPM.optimizeSMS (noon 2026 11 3) (one_each 100 88)
  = (Ok [true; false; false], one_each 100 88).
Proof.
  destruct (optimizeSMS_gate_policy (noon 2026 11 3) (one_each 100 88) (one_each 100 88)
              12 100 (S754_finite false 4503599627370496 (-52))
              (S754_finite false 6262818231812096 (-46)))
    as (decision & Heq & _ & _ & _ & Hred & _).
  - vm_compute. reflexivity.
  - vm_compute. reflexivity.
  - vm_compute. reflexivity.
  - vm_compute. reflexivity.
  - vm_compute. reflexivity.
  - vm_compute. reflexivity.
  - rewrite Heq, Hred; [reflexivity|reflexivity|vm_compute; reflexivity].
Defined.

(** The usage bound is inclusive: 99 messages sent, an average roster of
    1 and an allowance of 100 still authorize (Red only, the risk being
    1200), while one message more authorizes nothing. *)
Example optimizeSMS_usage_bound_inclusive :
  (DPM.optimizeSMS (noon 2026 11 3) (one_each 100 99)).1 = Ok [true; false; false]
  /\ (DPM.optimizeSMS (noon 2026 11 3) (one_each 100 100)).1 = Ok [false; false; false]
  /\ (DPM.optimizeSMS (noon 2026 11 3) (one_each 1000 0)).1 = Ok [true; true; true].
Proof. vm_compute. repeat split; reflexivity. Qed.

(** C6 (as the code has it). With no phone configured in any of the four
    categories [optimizeSMS] authorizes nothing: every decision it
    returns is the refusal of the three categories, and it does return
    one whenever the calendar part cannot fail. *)
Theorem optimizeSMS_no_phones_hard_stop (now : Calendar.datetime) (cnf : Configuration) :
  rosters_empty cnf ->
  (forall decision cnf',
      DPM.optimizeSMS now cnf = (Ok decision, cnf') -> decision = [false; false; false])
  /\ (well_dated now cnf ->
      exists cnf', DPM.optimizeSMS now cnf = (Ok [false; false; false], cnf')).
Proof.
  intros Hempty.
  assert (Havg : forall cnf', (DPM.renewal_check now cnf).2 = cnf' ->
                              DPM.avgphonect cnf' = Ok (S754_zero false)).
  { intros cnf' <-. apply avgphonect_empty.
    destruct (renewal_check_metrics now cnf) as [-> | ->];
      [exact Hempty|apply rosters_empty_metrics, Hempty]. }
  split.
  - intros decision cnf'. rewrite optimizeSMS_unfold.
    destruct (DPM.renewal_check now cnf) as [[[]|e] cnf1] eqn:Hrenew; [|discriminate].
    destruct (DPM.days_to_go now (RenewalDay cnf1)); [|discriminate].
    rewrite (Havg cnf1) by reflexivity.
    change (PyFloat.eq_int (S754_zero false) 0) with true. congruence.
  - intros Hdated. rewrite optimizeSMS_unfold.
    pose proof (renewal_check_ok now cnf Hdated) as Hok.
    destruct (DPM.renewal_check now cnf) as [r cnf1] eqn:Hrenew.
    cbn in Hok. subst r.
    assert (Hday : RenewalDay cnf1 = RenewalDay cnf).
    { pose proof (renewal_check_metrics now cnf) as Hm. rewrite Hrenew in Hm.
      cbn in Hm. destruct Hm as [-> | ->]; reflexivity. }
    destruct Hdated as (Hnow & Hy & Hr & _).
    destruct (days_to_go_ok now (RenewalDay cnf1) Hnow Hy) as [n ->];
      [rewrite Hday; exact Hr|].
    rewrite (Havg cnf1) by reflexivity.
    change (PyFloat.eq_int (S754_zero false) 0) with true. eauto.
Qed.

(** C6 at a concrete input: no phone anywhere. *)
Lemma optimizeSMS_no_phones_hard_stop_witness :
  exists cnf', DPM.optimizeSMS (noon 2026 11 3) no_phones = (Ok [false; false; false], cnf').
Proof.
  apply (optimizeSMS_no_phones_hard_stop (noon 2026 11 3) no_phones).
  - repeat split; reflexivity.
  - repeat split; try reflexivity; vm_compute; discriminate.
Defined.

(** C6, as stated, fails: with phones for red alerts only, three
    categories are empty and yet the gate authorizes all three kinds of
    alert. *)
Lemma optimizeSMS_one_roster_suffices :
  validYellowAlertPhones red_only = []
  /\ validRebootAlertPhones red_only = []
  /\ validInboundSMSPhones red_only = []
  /\ (DPM.optimizeSMS (noon 2026 11 3) red_only).1 = Ok [true; true; true].
Proof. vm_compute. repeat split; reflexivity. Qed.

End BudgetGateExamples.

(** ** The zone bitmap *)

Section ZoneBitmapFacts.





Lemma lstrip_app_kept (c : ascii) s t :
  Py.mem_char c s = false -> s <> "" ->
  Py.lstrip (String c "") (s +:+ t) = s +:+ t.
Proof.
  destruct s as [|d s]; [contradiction|]. intros H _.
  cbn [Py.mem_char] in H. apply orb_false_iff in H as [Hd _].
  rewrite app_cons. cbn [Py.lstrip Py.mem_char].
  rewrite Ascii.eqb_sym, Hd. reflexivity.
Qed.













End ZoneBitmapFacts.

Section ZoneBitmapClaim.



End ZoneBitmapClaim.

(** ** The modem *)

Section ModemFacts.

Import Modem.

Lemma sorted_keys_desc_split {V} (d : gmap Z V) l1 k l2 :
  sorted_keys_desc d = (l1 ++ k :: l2)%list -> forall x, x ∈ l1 -> k < x.
Proof.
  unfold sorted_keys_desc. intros Hsplit x Hx.
  assert (Hs : sorted_keys d = (reverse l2 ++ k :: reverse l1)%list).
  { rewrite <- (reverse_involutive (sorted_keys d)), Hsplit.
    rewrite reverse_app, reverse_cons, <- app_assoc. reflexivity. }
  pose proof (sorted_keys_sorted d) as Hsorted.
  pose proof (sorted_keys_NoDup d) as Hnd.
  rewrite Hs in Hsorted, Hnd.
  apply StronglySorted_app_1_r, StronglySorted_cons in Hsorted as [Hall _].
  rewrite Forall_forall in Hall.
  assert (Hle : k <= x) by (apply Hall, elem_of_reverse, Hx).
  apply NoDup_app in Hnd as (_ & _ & Hnd). apply NoDup_cons in Hnd as [Hk _].
  assert (k <> x) by (intros ->; apply Hk, elem_of_reverse, Hx).
  lia.
Qed.

Lemma after_reads_0 self : after_reads self 0 = self.
Proof. destruct self. reflexivity. Qed.

(** The loop passes over the keys that hold no record of the message
    for the recipient without reading the clock. *)
Lemma isDuplicate_loop_skip env message recipient keys : forall self,
  modem_wf self ->
  (forall k, k ∈ keys -> is_Some (alert self !! k)) ->
  (forall k, k ∈ keys -> ~ has_record self k message recipient) ->
  forall rest,
    isDuplicate_loop env message recipient (keys ++ rest)%list self
    = isDuplicate_loop env message recipient rest self.
Proof.
  induction keys as [|k keys IH]; intros self Hwf Hdom Hno rest; [reflexivity|].
  cbn [app isDuplicate_loop]. unfold mbind at 1, get at 1.
  destruct (Hdom k) as [a Ha]; [left|].
  unfold mbind at 1, lift at 1, getitem at 1. rewrite Ha.
  unfold mbind at 1.
  destruct (String.eqb_spec a message) as [->|Hne].
  - destruct (proj1 (Hwf k)) as [p Hp]; [eauto|].
    unfold mbind at 1, lift at 1, getitem at 1. rewrite Hp. unfold ret at 1.
    destruct (String.eqb_spec p recipient) as [->|Hne].
    + exfalso. apply (Hno k); [left|]. split; assumption.
    + apply IH; [exact Hwf| |]; intros k' Hk'; [apply Hdom|apply Hno]; right; exact Hk'.
  - unfold ret at 1.
    apply IH; [exact Hwf| |]; intros k' Hk'; [apply Hdom|apply Hno]; right; exact Hk'.
Qed.

Lemma isDuplicate_none env message recipient self :
  modem_wf self -> no_record self message recipient ->
  isDuplicate env message recipient self = (Ok false, self).
Proof.
  intros Hwf Hno. unfold isDuplicate, mbind, get.
  rewrite <- (app_nil_r (sorted_keys_desc (alert self))).
  rewrite isDuplicate_loop_skip; [reflexivity|exact Hwf| |].
  - intros k. apply elem_of_sorted_keys_desc.
  - intros k _. apply Hno.
Qed.

Lemma isDuplicate_latest env message recipient self k :
  modem_wf self ->
  latest_record self k message recipient ->
  recent_enough (time_ns_at env (clock_reads self)) k (RECENT_SECS self) = Ok true ->
  isDuplicate env message recipient self = (Ok true, after_reads self 1).
Proof.
  intros Hwf [[Ha Hp] Hlatest] Hrecent. unfold isDuplicate, mbind at 1, get at 1.
  assert (Hin : k ∈ sorted_keys_desc (alert self))
    by (apply elem_of_sorted_keys_desc; eauto).
  apply list_elem_of_split in Hin as (l1 & l2 & Hsplit). rewrite Hsplit.
  rewrite isDuplicate_loop_skip; [|exact Hwf| |].
  - cbn [isDuplicate_loop]. unfold mbind at 1, get at 1.
    unfold mbind at 1, lift at 1, getitem at 1. rewrite Ha.
    unfold mbind at 1. rewrite String.eqb_refl.
    unfold mbind at 1, lift at 1, getitem at 1. rewrite Hp. unfold ret at 1.
    rewrite String.eqb_refl.
    unfold mbind at 1, time_ns at 1.
    unfold mbind at 1, lift at 1. cbn [RECENT_SECS]. rewrite Hrecent.
    reflexivity.
  - intros k' Hk'. apply elem_of_sorted_keys_desc. rewrite Hsplit.
    apply elem_of_app. left. exact Hk'.
  - intros k' Hk'. apply Hlatest. eapply sorted_keys_desc_split; eassumption.
Qed.

Lemma saveHistory_eq env message recipient self :
  saveHistory env message recipient self
  = (Ok tt, set_history (after_reads self 1)
              (<[time_ns_at env (clock_reads self) := message]> (alert self))
              (<[time_ns_at env (clock_reads self) := recipient]> (phone self))).
Proof.
  reflexivity.
Qed.

End ModemFacts.

Section SendSMS.

Import Modem.

Lemma doReconnect_fields env self :
  let self' := (doReconnect env self).2 in
  (doReconnect env self).1 = Ok tt
  /\ commscon self' = reconnects env self
  /\ alert self' = alert self /\ phone self' = phone self
  /\ submitted self' = submitted self /\ exchanges self' = exchanges self
  /\ clock_reads self' = clock_reads self /\ retries self' = retries self
  /\ RECENT_SECS self' = RECENT_SECS self.
Proof.
  unfold doReconnect, modify, reconnects. cbn [fst snd].
  set (attempts := map _ _).
  destruct (list_find (fun b => b = true) attempts) as [[i b]|] eqn:Hfind.
  - apply list_find_Some in Hfind as (Hi & -> & _).
    cbn. repeat split. symmetry. apply existsb_exists. exists true.
    split; [|reflexivity]. apply list_elem_of_In. eapply list_elem_of_lookup_2, Hi.
  - cbn. repeat split. symmetry. apply not_true_is_false. intros Hex.
    apply existsb_exists in Hex as (b & Hin & ->).
    apply list_elem_of_In in Hin.
    rewrite list_find_None, Forall_forall in Hfind. apply (Hfind true Hin). reflexivity.
Qed.



(** A send that is not a duplicate and whose submission the modem
    acknowledges. *)
Lemma sendSMS_sent cnf env message recipient self :
  modem_wf self -> no_record self message recipient ->
  Config.SendSMS cnf = true -> commscon self = true ->
  exchange_at env (exchanges self) = ReplyOK ->
  sendSMS cnf env message recipient self
  = (Ok 0, (saveHistory env message recipient (submit env message recipient self).2).2).
Proof.
  intros Hwf Hno Hsend Hcon Hreply. unfold sendSMS, mbind at 1.
  rewrite (isDuplicate_none env _ _ _ Hwf Hno), Hsend.
  unfold try_except, transmit, mbind at 1, get at 1. rewrite Hcon.
  unfold mbind at 1, submit at 1. rewrite Hreply.
  unfold mbind. rewrite saveHistory_eq. reflexivity.
Qed.



(** C4 (as the code has it). On a modem whose two history dictionaries
    share their keys: a send of a message that has no record for the
    recipient, with sending enabled, a connection held and the modem
    acknowledging, submits the message once, records it under the
    reading of the clock and returns 0; and a send of a message whose
    most recent record for the recipient is still in the history and
    lies within the recency window at the reading of the clock submits
    nothing, records the message again under the next reading of the
    clock, and returns 8, which differs from 0, 4 and 16. *)
Theorem sendSMS_duplicate_suppression
    (cnf : Config.Configuration) (env : Env) (message recipient : string)
    (self : MyModem) :
  modem_wf self ->
  (no_record self message recipient ->
   Config.SendSMS cnf = true -> commscon self = true ->
   exchange_at env (exchanges self) = ReplyOK ->
   exists self',
     sendSMS cnf env message recipient self = (Ok 0, self')
     /\ submitted self' = (message, recipient) :: submitted self
     /\ has_record self' (time_ns_at env (clock_reads self)) message recipient)
  /\ (forall k,
         latest_record self k message recipient ->
         recent_enough (time_ns_at env (clock_reads self)) k (RECENT_SECS self) = Ok true ->
         let fresh := time_ns_at env (S (clock_reads self)) in
         exists self',
           sendSMS cnf env message recipient self = (Ok 8, self')
           /\ submitted self' = submitted self
           /\ exchanges self' = exchanges self
           /\ alert self' = <[fresh := message]> (alert self)
           /\ phone self' = <[fresh := recipient]> (phone self)
           /\ 8 <> 0 /\ 8 <> 4 /\ 8 <> 16).
Proof.
  intros Hwf. split.
  - intros Hno Hsend Hcon Hreply. eexists.
    split; [apply sendSMS_sent; assumption|].
    rewrite saveHistory_eq. cbn. split; [reflexivity|].
    split; apply lookup_insert_eq.
  - intros k Hlatest Hrecent fresh. eexists.
    split.
    + unfold sendSMS, mbind at 1.
      rewrite (isDuplicate_latest env _ _ _ k Hwf Hlatest Hrecent).
      unfold mbind. rewrite saveHistory_eq. reflexivity.
    + cbn. subst fresh. repeat split; lia.
Qed.

End SendSMS.

Section SendSMSExamples.

Import Modem ModemExamples.

Lemma sent_once_wf : modem_wf sent_once.
Proof.
  intros k. unfold sent_once. cbn [alert phone].
  destruct (decide (t0 = k)) as [<-|Hne].
  - rewrite !lookup_singleton_eq. split; eauto.
  - rewrite !lookup_singleton_ne by exact Hne. reflexivity.
Qed.

Lemma sent_once_latest : latest_record sent_once t0 "FIRE" "5550001".
Proof.
  split; [split; apply lookup_singleton_eq|].
  intros k' Hlt [Ha _]. cbn [alert sent_once] in Ha.
  rewrite lookup_singleton_ne in Ha by lia. discriminate.
Qed.

Lemma fresh_modem_wf : modem_wf fresh_modem.
Proof. intros k. cbn [alert phone fresh_modem]. rewrite !lookup_empty. reflexivity. Qed.


(** C4 at a concrete input: FIRE was sent one second ago; the second
    send is suppressed. *)
Lemma sendSMS_duplicate_suppression_witness :
  exists self',
    sendSMS cnf steady_env "FIRE" "5550001" sent_once = (Ok 8, self')
    /\ submitted self' = [("FIRE", "5550001")].
Proof.
  destruct (sendSMS_duplicate_suppression cnf steady_env "FIRE" "5550001" sent_once
              sent_once_wf) as [_ Hdup].
  destruct (Hdup t0 sent_once_latest) as (self' & Heq & Hsub & _).
  - vm_compute. reflexivity.
  - exists self'. split; [exact Heq|exact Hsub].
Defined.

(** C4, as stated, fails: FIRE is sent, sixteen other alerts are sent
    during the next sixteen seconds and the history is pruned to its
    sixteen most recent entries; the second send of FIRE, seventeen
    seconds after the first and inside the window of sixty, is
    transmitted again. *)
Lemma sendSMS_resent_after_eviction :
  let '(rc1, rc2, m3, m4) := resend_after_eviction in
  rc1 = Ok 0
  /\ recent_enough (time_ns_at steady_env (clock_reads m3)) t0 (RECENT_SECS m3) = Ok true
  /\ rc2 = Ok 0
  /\ length (submitted m3) = 17%nat
  /\ submitted m4 = ("FIRE", "5550001") :: submitted m3
  /\ last (submitted m3) = Some ("FIRE", "5550001").
Proof. vm_compute. repeat split; reflexivity. Qed.

End SendSMSExamples.

(** ** The history invariant of the modem *)

Section ModemInvariant.

Import Modem.

Lemma mbind_keeps_wf {A B} (m : M MyModem A) (k : A -> M MyModem B) :
  keeps_wf m -> (forall a, keeps_wf (k a)) -> keeps_wf (mbind m k).
Proof.
  intros Hm Hk self Hwf. unfold mbind. specialize (Hm self Hwf).
  destruct (m self) as [[a|e] s']; [apply Hk|]; exact Hm.
Qed.

Lemma try_except_keeps_wf {A} (body handler : M MyModem A) :
  keeps_wf body -> keeps_wf handler -> keeps_wf (try_except body handler).
Proof.
  intros Hb Hh self Hwf. unfold try_except. specialize (Hb self Hwf).
  destruct (body self) as [[a|e] s']; [|apply Hh]; exact Hb.
Qed.

Lemma pure_keeps_wf {A} (m : M MyModem A) :
  (forall self, (m self).2 = self) -> keeps_wf m.
Proof. intros Hpure self Hwf. rewrite Hpure. exact Hwf. Qed.

Lemma same_history_keeps_wf {A} (m : M MyModem A) :
  (forall self, alert (m self).2 = alert self /\ phone (m self).2 = phone self) ->
  keeps_wf m.
Proof.
  intros Hsame self Hwf k. destruct (Hsame self) as [-> ->]. apply Hwf.
Qed.

Lemma saveHistory_keeps_wf env message recipient :
  keeps_wf (saveHistory env message recipient).
Proof.
  intros self Hwf k. rewrite saveHistory_eq.
  cbn [snd alert phone set_history].
  destruct (decide (time_ns_at env (clock_reads self) = k)) as [<-|Hne].
  - rewrite !lookup_insert_eq. split; eauto.
  - rewrite !lookup_insert_ne by exact Hne. apply Hwf.
Qed.

Lemma isDuplicate_loop_keeps_wf env message recipient keys :
  keeps_wf (isDuplicate_loop env message recipient keys).
Proof.
  induction keys as [|k keys IH]; cbn [isDuplicate_loop].
  - apply pure_keeps_wf. reflexivity.
  - apply mbind_keeps_wf; [apply pure_keeps_wf; reflexivity|]. intros self.
    apply mbind_keeps_wf; [apply pure_keeps_wf; reflexivity|]. intros a.
    apply mbind_keeps_wf.
    + destruct (String.eqb a message); [|apply pure_keeps_wf; reflexivity].
      apply mbind_keeps_wf; [apply pure_keeps_wf; reflexivity|]. intros p.
      apply pure_keeps_wf; reflexivity.
    + intros [|]; [|exact IH].
      apply mbind_keeps_wf.
      * apply same_history_keeps_wf. intros s. split; reflexivity.
      * intros ts1. apply mbind_keeps_wf; [apply pure_keeps_wf; reflexivity|].
        intros [|]; [apply pure_keeps_wf; reflexivity|exact IH].
Qed.

Lemma doReconnect_keeps_wf env : keeps_wf (doReconnect env).
Proof.
  apply same_history_keeps_wf. intros self.
  destruct (doReconnect_fields env self) as (_ & _ & Ha & Hp & _).
  split; assumption.
Qed.

Lemma transmit_keeps_wf env message recipient :
  keeps_wf (transmit env message recipient).
Proof.
  apply mbind_keeps_wf; [apply pure_keeps_wf; reflexivity|]. intros self.
  destruct (commscon self); [|apply pure_keeps_wf; reflexivity].
  apply mbind_keeps_wf.
  - apply same_history_keeps_wf. intros s. split; reflexivity.
  - intros [| |]; try (apply pure_keeps_wf; reflexivity).
    apply mbind_keeps_wf; [apply saveHistory_keeps_wf|].
    intros _. apply pure_keeps_wf; reflexivity.
Qed.

(** Whatever it returns, and also when the duplicate test raises,
    [sendSMS] leaves the two history dictionaries with the same keys. *)
Lemma sendSMS_keeps_wf cnf env message recipient :
  keeps_wf (sendSMS cnf env message recipient).
Proof.
  apply mbind_keeps_wf.
  - apply mbind_keeps_wf; [apply pure_keeps_wf; reflexivity|].
    intros self. apply isDuplicate_loop_keeps_wf.
  - intros [|].
    + apply mbind_keeps_wf; [apply saveHistory_keeps_wf|].
      intros _. apply pure_keeps_wf; reflexivity.
    + destruct (Config.SendSMS cnf); [|apply pure_keeps_wf; reflexivity].
      apply try_except_keeps_wf; [apply transmit_keeps_wf|].
      apply mbind_keeps_wf; [apply doReconnect_keeps_wf|].
      intros _. apply pure_keeps_wf; reflexivity.
Qed.

Lemma doPruning_keeps_wf : keeps_wf doPruning.
Proof.
  intros self Hwf. rewrite (modem_doPruning self Hwf). apply modem_wf_pruned, Hwf.
Qed.

Lemma for_each_keeps_wf {A} (l : list A) (body : A -> M Modem.MyModem unit) :
  (forall a, keeps_wf (body a)) -> keeps_wf (for_each l body).
Proof.
  intros Hbody. induction l as [|x l IH]; cbn [for_each].
  - apply pure_keeps_wf. reflexivity.
  - apply mbind_keeps_wf; [apply Hbody|intros _; exact IH].
Qed.

Lemma seventeen_sent_wf : modem_wf CapacityExamples.seventeen_sent.
Proof.
  unfold CapacityExamples.seventeen_sent. apply for_each_keeps_wf.
  - intros o. apply mbind_keeps_wf; [apply sendSMS_keeps_wf|].
    intros _. apply pure_keeps_wf. reflexivity.
  - apply sendSMS_keeps_wf, fresh_modem_wf.
Qed.

End ModemInvariant.

Section Retry.

Import Modem ModemExamples.







End Retry.

(** ** The reported flag *)

Section ReportedFlag.

Import ScanLog.

Lemma only_reports_refl s : only_reports s s.
Proof. split; [reflexivity|]. intros k. left. reflexivity. Qed.

Lemma only_reports_trans s1 s2 s3 :
  only_reports s1 s2 -> only_reports s2 s3 -> only_reports s1 s3.
Proof.
  intros [Hc1 Hf1] [Hc2 Hf2]. split; [congruence|].
  intros k. destruct (Hf2 k) as [H2|H2]; [|right; exact H2].
  rewrite H2. apply Hf1.
Qed.

Lemma only_reports_stays s s' k : only_reports s s' -> stays_reported s s' k.
Proof.
  intros [_ Hf] H1. destruct (Hf k) as [H|H]; rewrite H; [rewrite H1|]; discriminate.
Qed.

Lemma flagAsReportedCID_state tskey s :
  (flagAsReportedCID tskey s).2
  = {| CIDs := CIDs s; CIDflags := <[tskey := "1"]> (CIDflags s) |}.
Proof.
  unfold flagAsReportedCID, mbind, modify, get, lift, getitem, ret. cbn.
  destruct (CIDs s !! tskey); reflexivity.
Qed.


Lemma flagAsReportedCID_only_reports tskey s :
  only_reports s (flagAsReportedCID tskey s).2.
Proof.
  rewrite flagAsReportedCID_state. split; [reflexivity|].
  intros k. cbn. destruct (decide (tskey = k)) as [->|Hne].
  - right. apply lookup_insert_eq.
  - left. apply lookup_insert_ne, Hne.
Qed.

(** Sequencing: when each step only reports, so does the whole. *)
Lemma mbind_only_reports {A B} (m : M ScanEVL4Log A) (k : A -> M ScanEVL4Log B) s :
  only_reports s (m s).2 ->
  (forall a s1, only_reports s1 (k a s1).2) ->
  only_reports s (mbind m k s).2.
Proof.
  intros Hm Hk. unfold mbind. destruct (m s) as [[a|e] s1]; cbn in *.
  - eapply only_reports_trans; [exact Hm|apply Hk].
  - exact Hm.
Qed.

Lemma pure_only_reports {A} (r : result A) s : only_reports s (lift r s).2.
Proof. apply only_reports_refl. Qed.

Lemma correlate_only_reports msg03txt adj keyz items : forall fin s,
  only_reports s (DPM.correlate msg03txt adj keyz items fin s).2.
Proof.
  induction items as [|[key1 code] items IH]; intros fin s; [apply only_reports_refl|].
  cbn [DPM.correlate]. apply mbind_only_reports; [apply pure_only_reports|].
  intros [] s1.
  - apply mbind_only_reports; [apply flagAsReportedCID_only_reports|].
    intros _ s2. apply IH.
  - apply IH.
Qed.

Lemma correlation_pass_only_reports cnf msg03txt nowts logscan s :
  only_reports s (DPM.correlation_pass cnf msg03txt nowts logscan s).2.
Proof.
  unfold DPM.correlation_pass.
  apply mbind_only_reports; [apply correlate_only_reports|].
  intros fin s1. destruct (0 <? size fin)%nat; [|apply only_reports_refl].
  apply mbind_only_reports; [apply pure_only_reports|]. intros oldest s2.
  apply mbind_only_reports; [apply flagAsReportedCID_only_reports|]. intros _ s3.
  apply mbind_only_reports; [apply pure_only_reports|]. intros code s4.
  apply only_reports_refl.
Qed.

Lemma checkSyslog_loop_only_reports msg03txt adj keysTPI recent isReptd keysSLG : forall s,
  only_reports s (DPM.checkSyslog_loop msg03txt adj keysTPI recent isReptd keysSLG s).2.
Proof.
  induction keysSLG as [|key1 keysSLG IH]; intros s; [apply only_reports_refl|].
  cbn [DPM.checkSyslog_loop]. destruct keysTPI as [|key2 rest]; [apply IH|].
  apply mbind_only_reports; [apply pure_only_reports|]. intros txt s1.
  apply mbind_only_reports; [apply pure_only_reports|]. intros code s2.
  destruct (String.eqb _ code); [|apply IH].
  apply mbind_only_reports; [apply pure_only_reports|]. intros ts1 s3.
  destruct (Z.abs (ts1 - key1) <=? adj); [|apply IH].
  apply mbind_only_reports.
  - destruct isReptd; [apply only_reports_refl|apply flagAsReportedCID_only_reports].
  - intros _ s4. apply only_reports_refl.
Qed.

Lemma checkSyslog_only_reports cnf msg03txt isReptd nowts s :
  only_reports s (DPM.checkSyslog cnf msg03txt isReptd nowts s).2.
Proof.
  unfold DPM.checkSyslog. apply mbind_only_reports.
  - unfold getRecentCIDs, mbind, get, lift. apply only_reports_refl.
  - intros recent s1. apply checkSyslog_loop_only_reports.
Qed.

(** The scan of new lines leaves alone the flag of a timestamp that no
    new line carries. *)
Lemma scan_lines_flag lines k : forall ts1 s,
  k ∉ stamps lines -> ts1 <> Some k ->
  CIDflags (scan_lines lines ts1 s).2 !! k = CIDflags s !! k.
Proof.
  induction lines as [|l lines IH]; intros ts1 s Hk Hts; [reflexivity|].
  cbn [scan_lines]. unfold mbind at 1, lift at 1.
  destruct l as [[h1 h3]|e]; [|reflexivity].
  cbn [hit1 hit3]. unfold mbind at 1.
  destruct h1 as [[t|e]|]; cbn [stamps] in Hk.
  - apply not_elem_of_cons in Hk as [Hne Hk].
    unfold mbind at 1, lift at 1, ret at 1.
    destruct h3 as [code|]; unfold mbind at 1.
    + unfold record at 1, modify at 1. rewrite IH by (assumption || congruence).
      cbn. apply lookup_insert_ne. congruence.
    + unfold ret at 1. apply IH; [assumption|congruence].
  - reflexivity.
  - unfold ret at 1.
    destruct h3 as [code|]; unfold mbind at 1.
    + destruct ts1 as [t|]; [|reflexivity].
      unfold record at 1, modify at 1. rewrite IH by assumption.
      cbn. apply lookup_insert_ne. congruence.
    + unfold ret at 1. apply IH; assumption.
Qed.

(** Pruning only removes entries. *)
Lemma pop_step_flag k0 k s :
  let s' := ((pop_CID k0 ;;> pop_CIDflag k0) s).2 in
  CIDflags s' !! k = CIDflags s !! k \/ CIDflags s' !! k = None.
Proof.
  unfold mbind, pop_CID, pop_CIDflag, pop.
  destruct (CIDs s !! k0); cbn; [|left; reflexivity].
  destruct (CIDflags s !! k0); cbn; [|left; reflexivity].
  destruct (decide (k0 = k)) as [->|Hne].
  - right. apply lookup_delete_eq.
  - left. apply lookup_delete_ne, Hne.
Qed.

Lemma for_each_cons_state {S A} (x : A) (l : list A) (body : A -> M S unit) s :
  (for_each (x :: l) body s).2
  = match body x s with
    | (Ok _, s1) => (for_each l body s1).2
    | (Raise _, s1) => s1
    end.
Proof. cbn [for_each]. unfold mbind. destruct (body x s) as [[?|?] ?]; reflexivity. Qed.

Lemma pop_all_flag ks k : forall s,
  let s' := (for_each ks (fun k => pop_CID k ;;> pop_CIDflag k) s).2 in
  CIDflags s' !! k = CIDflags s !! k \/ CIDflags s' !! k = None.
Proof.
  induction ks as [|k0 ks IH]; intros s; [left; reflexivity|].
  cbn zeta. rewrite for_each_cons_state.
  pose proof (pop_step_flag k0 k s) as Hstep. cbn zeta in Hstep.
  destruct ((pop_CID k0 ;;> pop_CIDflag k0) s) as [[[]|e] s1]; cbn [snd] in *;
    [|exact Hstep].
  specialize (IH s1). cbn zeta in IH.
  destruct IH as [H|H]; [|right; exact H].
  rewrite H. exact Hstep.
Qed.

Lemma getLogRecsWithCID_state lines s :
  (getLogRecsWithCID lines s).2
  = (doPruning (try_except (scan_lines lines None) (ret tt) s).2).2.
Proof.
  unfold getLogRecsWithCID, mbind at 1, try_except.
  destruct (scan_lines lines None s) as [[[]|e] s1]; cbn [ret snd];
    unfold mbind at 1; destruct (doPruning s1) as [[[]|e'] s2]; reflexivity.
Qed.

Lemma getLogRecsWithCID_flag lines s k :
  k ∉ stamps lines ->
  let s' := (getLogRecsWithCID lines s).2 in
  CIDflags s' !! k = CIDflags s !! k \/ CIDflags s' !! k = None.
Proof.
  intros Hk. cbn zeta. rewrite getLogRecsWithCID_state.
  assert (Hscan : CIDflags (try_except (scan_lines lines None) (ret tt) s).2 !! k
                  = CIDflags s !! k).
  { unfold try_except.
    pose proof (scan_lines_flag lines k None s Hk) as Hf.
    destruct (scan_lines lines None s) as [[[]|e] s1]; cbn in *; apply Hf; discriminate. }
  rewrite <- Hscan.
  unfold doPruning, mbind, get. apply pop_all_flag.
Qed.

Lemma getLogRecsWithCID_stays lines s k :
  k ∉ stamps lines -> stays_reported s (getLogRecsWithCID lines s).2 k.
Proof.
  intros Hk H1. destruct (getLogRecsWithCID_flag lines s k Hk) as [H|H];
    rewrite H; [rewrite H1|]; discriminate.
Qed.

(** C9 (as the code has it). A correlation pass ([flagAsReportedCID],
    [checkSyslog], and [scanSyslog] after its scan of the log) leaves the
    codes alone and changes a flag only by making it reported, so that a
    reported entry stays reported and an entry changes at most once, from
    unreported to reported. A scan of the log ([getLogRecsWithCID], also
    as the first step of [scanSyslog]) keeps a reported entry reported,
    or evicts it, as long as no newly scanned line carries the timestamp
    of that entry. *)
Theorem reported_flag_one_way :
  (forall tskey s, only_reports s (flagAsReportedCID tskey s).2)
  /\ (forall cnf msg03txt isReptd nowts s,
         only_reports s (DPM.checkSyslog cnf msg03txt isReptd nowts s).2)
  /\ (forall cnf msg03txt nowts logscan s,
         only_reports s (DPM.correlation_pass cnf msg03txt nowts logscan s).2)
  /\ (forall s s' k, only_reports s s' -> stays_reported s s' k)
  /\ (forall lines s k,
         k ∉ stamps lines -> stays_reported s (getLogRecsWithCID lines s).2 k)
  /\ (forall cnf msg03txt lines nowts s k,
         k ∉ stamps lines ->
         stays_reported s (DPM.scanSyslog cnf msg03txt lines nowts s).2 k).
Proof.
  split; [exact flagAsReportedCID_only_reports|].
  split; [exact checkSyslog_only_reports|].
  split; [exact correlation_pass_only_reports|].
  split; [exact only_reports_stays|].
  split; [exact getLogRecsWithCID_stays|].
  intros cnf msg03txt lines nowts s k Hk H1.
  unfold DPM.scanSyslog, mbind.
  pose proof (getLogRecsWithCID_flag lines s k Hk) as Hscan. cbn zeta in Hscan.
  destruct (getLogRecsWithCID lines s) as [[logscan|e] s1]; cbn [snd] in *.
  - pose proof (correlation_pass_only_reports cnf msg03txt nowts logscan s1) as [_ Hf].
    destruct (Hf k) as [H|H]; rewrite H; [|discriminate].
    destruct Hscan as [H'|H']; rewrite H'; [rewrite H1|]; discriminate.
  - destruct Hscan as [H'|H']; rewrite H'; [rewrite H1|]; discriminate.
Qed.

End ReportedFlag.

Section ReportedFlagExamples.

Import ScanLog ScanExamples.

(** C9 at a concrete input: the entry of 1700000000 is reported, and a
    scan of a line of another second leaves it reported. *)
Lemma reported_flag_one_way_witness :
  stays_reported
    {| CIDs := {[ 1700000000 := "1131010030" ]}; CIDflags := {[ 1700000000 := "1" ]} |}
    (getLogRecsWithCID
       [Ok {| hit1 := Some (Ok 1700000050); hit3 := Some "3131010030" |}]
       {| CIDs := {[ 1700000000 := "1131010030" ]};
          CIDflags := {[ 1700000000 := "1" ]} |}).2
    1700000000.
Proof.
  destruct reported_flag_one_way as (_ & _ & _ & _ & Hscan & _).
  apply Hscan. cbn [stamps]. intros Hin. apply list_elem_of_singleton in Hin. discriminate.
Defined.

(** C9, as stated, fails: the first pass reports the burglary entry;
    the next pass reads a line of the same second, which makes the
    entry unreported again, and then reports it a second time, so that
    the flag goes from reported to unreported and changes twice within
    this pass; the code is returned as an alert by both passes. *)
Lemma reported_flag_reset_by_rescan :
  let '(r1, r2, s1, s2) := rescanned in
  r1 = Ok (Some "1131010030")
  /\ CIDflags s1 !! 1700000000 = Some "1"
  /\ CIDflags rescanned_midway !! 1700000000 = Some "0"
  /\ CIDflags s2 !! 1700000000 = Some "1"
  /\ r2 = Ok (Some "1131010030").
Proof. vm_compute. repeat split; reflexivity. Qed.

End ReportedFlagExamples.

(** ** The seconds of a nanosecond timestamp *)

Section FloatSeconds.

Lemma digits2_pos_size p : digits2_pos p = Pos.size p.
Proof. induction p as [p IH|p IH|]; cbn; rewrite ?IH; reflexivity. Qed.

Lemma Zdigits2_bounds n k :
  0 < k -> 2 ^ (k - 1) <= n < 2 ^ k -> Zdigits2 n = k.
Proof.
  intros Hk [Hlo Hhi]. assert (Hn : 0 < n) by (pose proof (Z.pow_pos_nonneg 2 (k - 1)); lia).
  destruct n as [|p|p]; try lia. cbn [Zdigits2]. rewrite digits2_pos_size.
  pose proof (Pos.size_gt p) as Hgt. pose proof (Pos.size_le p) as Hle.
  assert (Hgt' : Z.pos p < 2 ^ Z.pos (Pos.size p))
    by (change 2 with (Z.pos 2); rewrite <- Pos2Z.inj_pow; lia).
  assert (Hle' : 2 ^ Z.pos (Pos.size p) <= 2 * Z.pos p)
    by (change 2 with (Z.pos 2); rewrite <- Pos2Z.inj_pow, <- Pos2Z.inj_mul; lia).
  clear Hgt Hle. rename Hgt' into Hgt. rename Hle' into Hle.
  set (d := Z.pos (Pos.size p)) in *.
  assert (Hd : 0 < d) by (unfold d; lia).
  destruct (Z.lt_trichotomy d k) as [Hlt|[Heq|Hgt']]; [|exact Heq|].
  - assert (2 ^ d <= 2 ^ (k - 1)) by (apply Z.pow_le_mono_r; lia). lia.
  - assert (2 ^ k <= 2 ^ (d - 1)) by (apply Z.pow_le_mono_r; lia).
    replace (2 ^ d) with (2 * 2 ^ (d - 1)) in Hle
      by (rewrite <- Z.pow_succ_r by lia; f_equal; lia).
    lia.
Qed.

Lemma loc_of_record m l : loc_of_shr_record (shr_record_of_loc m l) = l.
Proof. destruct l as [|[]]; reflexivity. Qed.

Lemma round_nearest_even_range m l :
  round_nearest_even m l = m \/ round_nearest_even m l = m + 1.
Proof.
  destruct l as [|[]]; cbn [round_nearest_even]; try (left; reflexivity);
    try (right; reflexivity).
  destruct (Z.even m); [left|right]; reflexivity.
Qed.

(** The last step of the rounding: a mantissa of 53 bits is kept, the
    power 2^53 is renormalised. *)
Lemma round_finish m1 e :
  2 ^ 52 <= m1 <= 2 ^ 53 -> -30 <= e <= -10 ->
  exists m e',
    (let '(mrs, e'') := shr_fexp 53 1024 m1 e loc_Exact in
     match shr_m mrs with
     | Z0 => S754_zero false
     | Zpos m => if Z.leb e'' (1024 - 53) then S754_finite false m e''
                 else S754_infinity false
     | Zneg _ => S754_nan
     end) = S754_finite false m e'
    /\ e <= e' <= e + 1 /\ Z.pos m * 2 ^ (e' - e) = m1.
Proof.
  intros Hm He. unfold shr_fexp, fexp, emin.
  destruct (Z.eq_dec m1 (2 ^ 53)) as [->|Hne].
  - change (Zdigits2 (2 ^ 53)) with 54.
    replace (Z.max (54 + e - 53) (3 - 1024 - 53) - e) with 1 by lia.
    cbn [shr SpecFloat.iter_pos shr_record_of_loc]. 
    exists (Z.to_pos (2 ^ 52)), (e + 1).
    split.
    + change (shr_m (shr_1 {| shr_m := 2 ^ 53; shr_r := false; shr_s := false |}))
        with (Z.pos (Z.to_pos (2 ^ 52))).
      cbv iota beta. destruct (Z.leb_spec (e + 1) (1024 - 53)); [reflexivity|lia].
    + split; [lia|]. replace (e + 1 - e) with 1 by lia. reflexivity.
  - rewrite (Zdigits2_bounds m1 53) by lia.
    replace (Z.max (53 + e - 53) (3 - 1024 - 53) - e) with 0 by lia.
    cbn [shr shr_record_of_loc shr_m].
    destruct m1 as [|p|p]; try lia.
    exists p, e. destruct (Z.leb_spec e (1024 - 53)); [|lia].
    split; [reflexivity|]. split; [lia|]. rewrite Z.sub_diag. cbn. lia.
Qed.

Lemma shr_1_div2 m r s : 0 < m -> shr_m (shr_1 {| shr_m := m; shr_r := r; shr_s := s |}) = m / 2.
Proof.
  intros Hm. destruct m as [|[p|p|]|]; try lia; cbn [shr_1 shr_m].
  - rewrite Pos2Z.inj_xI. apply Z.div_unique with (r := 1); lia.
  - rewrite Pos2Z.inj_xO. apply Z.div_unique with (r := 0); lia.
  - reflexivity.
Qed.

(** The rounding of a quotient of 53 or 54 bits with exponent -22, as
    a value on the grid of 2^-22. *)
Lemma round_quotient q l :
  2 ^ 52 <= q < 2 ^ 54 ->
  exists m e,
    binary_round_aux 53 1024 false q (-22) l = S754_finite false m e
    /\ -22 <= e <= -20
    /\ q / 2 * 2 <= Z.pos m * 2 ^ (e + 22) <= q + 2.
Proof.
  intros Hq. unfold binary_round_aux.
  destruct (Z.lt_ge_cases q (2 ^ 53)) as [Hlt|Hge].
  - unfold shr_fexp at 1, fexp, emin. rewrite (Zdigits2_bounds q 53) by lia.
    change (Z.max (53 + -22 - 53) (3 - 1024 - 53) - -22) with 0.
    cbn [shr]. rewrite loc_of_record. cbn [shr_m].
    assert (Hshm : forall l0, shr_m (shr_record_of_loc q l0) = q)
      by (intros [|[]]; reflexivity).
    rewrite Hshm.
    destruct (round_finish (round_nearest_even q l) (-22)) as (m & e & Heq & He & Hval);
      [destruct (round_nearest_even_range q l) as [-> | ->]; lia|lia|].
    exists m, e. split; [exact Heq|]. split; [lia|].
    replace (e + 22) with (e - -22) by lia. rewrite Hval.
    pose proof (Z.div_mod q 2 ltac:(lia)) as Hdm.
    pose proof (Z.mod_pos_bound q 2 ltac:(lia)) as Hmod.
    destruct (round_nearest_even_range q l) as [-> | ->]; lia.
  - unfold shr_fexp at 1, fexp, emin. rewrite (Zdigits2_bounds q 54) by lia.
    change (Z.max (54 + -22 - 53) (3 - 1024 - 53) - -22) with 1.
    cbn [shr SpecFloat.iter_pos]. change (-22 + 1) with (-21).
    set (mrs := shr_1 (shr_record_of_loc q l)).
    assert (Hm : shr_m mrs = q / 2).
    { unfold mrs. destruct l as [|[]]; cbn [shr_record_of_loc]; apply shr_1_div2; lia. }
    rewrite Hm.
    assert (Hhalf : 2 ^ 52 <= q / 2 < 2 ^ 53).
    { change (2 ^ 53) with (2 * 2 ^ 52) in Hge. change (2 ^ 54) with (2 * 2 ^ 53) in Hq.
      split; [apply Z.div_le_lower_bound; lia|apply Z.div_lt_upper_bound; lia]. }
    destruct (round_finish (round_nearest_even (q / 2) (loc_of_shr_record mrs)) (-21))
      as (m & e & Heq & He & Hval);
      [destruct (round_nearest_even_range (q / 2) (loc_of_shr_record mrs)) as [-> | ->]; lia
      |lia|].
    exists m, e. split; [exact Heq|]. split; [lia|].
    replace (e + 22) with (e - -21 + 1) by lia.
    rewrite Z.pow_add_r by lia. rewrite Z.mul_assoc, Hval. change (2 ^ 1) with 2.
    pose proof (Z.div_mod q 2 ltac:(lia)) as Hdm.
    pose proof (Z.mod_pos_bound q 2 ltac:(lia)) as Hmod.
    destruct (round_nearest_even_range (q / 2) (loc_of_shr_record mrs)) as [-> | ->]; lia.
Qed.

(** [int(key2 / 1000000000)] is the whole number of seconds of a
    nanosecond timestamp of 61 bits (from 2006 to 2043), but for the last
    microsecond of a second, where the float quotient may round up. *)
Lemma tpi_seconds_exact key2 :
  2 ^ 60 <= key2 < 2 ^ 61 -> key2 mod 1000000000 < 999999000 ->
  DPM.tpi_seconds key2 = Ok (key2 / 1000000000).
Proof.
  intros Hk Hmod. unfold DPM.tpi_seconds, PyFloat.truediv_int.
  destruct key2 as [|p|p]; try lia.
  change (Z.pos p <? 0) with false. change (1000000000 <? 0) with false.
  change (Z.to_pos (Z.abs (Z.pos p))) with p.
  change (Z.to_pos (Z.abs 1000000000)) with 1000000000%positive.
  unfold PyFloat.prec, PyFloat.emax, SFdiv, SFdiv_core_binary.
  rewrite (Zdigits2_bounds (Z.pos p) 61) by lia.
  change (Zdigits2 1000000000) with 30.
  change (Z.min (fexp 53 1024 (61 + 0 - (30 + 0))) (0 - 0)) with (-22).
  change (0 - 0 - -22) with 22. cbv iota beta zeta.
  rewrite Z.shiftl_mul_pow2 by lia.
  pose proof (Z_div_mod (Z.pos p * 2 ^ 22) 1000000000 ltac:(lia)) as Hdiv.
  destruct (Z.div_eucl (Z.pos p * 2 ^ 22) 1000000000) as [q r]. destruct Hdiv as [Hq Hr].
  assert (Hqb : 2 ^ 52 <= q < 2 ^ 54).
  { change (2 ^ 22) with 4194304 in Hq. change (2 ^ 60) with 1152921504606846976 in Hk.
    change (2 ^ 61) with 2305843009213693952 in Hk.
    change (2 ^ 52) with 4503599627370496. change (2 ^ 54) with 18014398509481984. lia. }
  change (xorb false false) with false.
  destruct (round_quotient q (new_location 1000000000 r) Hqb) as (m & e & -> & He & Hval).
  cbn [PyFloat.finite_or_overflow bind PyFloat.to_int].
  destruct (Z.leb_spec 0 e) as [|_]; [lia|]. f_equal.
  rewrite Z.mul_1_l.
  assert (Hm : Z.pos m / 2 ^ (- e) = (Z.pos m * 2 ^ (e + 22)) / 2 ^ 22).
  { replace (2 ^ 22) with (2 ^ (- e) * 2 ^ (e + 22))
      by (rewrite <- Z.pow_add_r by lia; f_equal; lia).
    rewrite Z.div_mul_cancel_r; [reflexivity| |];
      apply Z.pow_nonzero; lia. }
  rewrite Hm. set (v := Z.pos m * 2 ^ (e + 22)) in *.
  change (2 ^ 22) with 4194304 in *.
  Z.div_mod_to_equations. lia.
Qed.

Lemma tpi_seconds_stamp key2 :
  nanosecond_stamp key2 -> DPM.tpi_seconds key2 = Ok (key2 / 1000000000).
Proof. intros [Hk Hmod]. apply tpi_seconds_exact; assumption. Qed.

End FloatSeconds.

(** ** The correlator *)

Section Correlator.

Import ScanLog.

Variable cnf : Config.Configuration.
Variable msg03txt : gmap Z string.
Hypothesis Hsecs : nanosecond_stamps msg03txt.

Let adj := Config.AdjacentSecondsEVL4 cnf.
Let keyz := sorted_keys_desc msg03txt.




End Correlator.

Section Election.

Import ScanLog.



(** The text of a protocol CID entry reduces to its ten digits. *)
Lemma strip_CID_digits code :
  ten_digits code -> Py.strip "CID=" ("CID=" +:+ code) = code.
Proof.
  intros [Hlen Hdig].
  assert (Hno : forall c, is_digit c = true -> Py.mem_char c "CID=" = false).
  { intros c Hc. unfold is_digit in Hc. apply andb_true_iff in Hc as [H1 H2].
    apply Nat.leb_le in H1, H2. cbn [Py.mem_char].
    repeat match goal with
           | |- context [Ascii.eqb c ?d] =>
               destruct (Ascii.eqb_spec c d) as [->|_]; [vm_compute in H1, H2; lia|]
           end. reflexivity. }
  destruct code as [|c code]; [discriminate Hlen|].
  cbn [all_digits] in Hdig. apply andb_true_iff in Hdig as [Hc Hrest].
  unfold Py.strip.
  change (Py.lstrip "CID=" ("CID=" +:+ String c code))
    with (Py.lstrip "CID=" (String c code)).
  cbn [Py.lstrip]. rewrite (Hno c Hc).
  clear Hlen. revert c Hc. induction code as [|d code IH]; intros c Hc.
  - cbn [Py.rstrip]. rewrite (Hno c Hc). reflexivity.
  - cbn [all_digits] in Hrest. apply andb_true_iff in Hrest as [Hd Hrest].
    specialize (IH Hrest d Hd).
    change (Py.rstrip "CID=" (String c (String d code)))
      with (match Py.rstrip "CID=" (String d code) with
            | EmptyString => if Py.mem_char c "CID=" then EmptyString else String c EmptyString
            | r => String c r
            end).
    rewrite IH. reflexivity.
Qed.


End Election.

(** ** Further concrete runs *)

Section Runs.

Import ScanLog ScanExamples CorrelatorExamples.

Lemma init_wf : scanlog_wf ScanLog.init.
Proof. intros k. cbn [CIDs CIDflags ScanLog.init]. rewrite !lookup_empty. reflexivity. Qed.

Lemma tpi_history_stamps : nanosecond_stamps tpi_history.
Proof.
  intros key2 [v Hv]. unfold tpi_history in Hv.
  apply lookup_singleton_Some in Hv as [<- _].
  split; [split; [vm_compute; discriminate|reflexivity]|reflexivity].
Qed.

(** C7 at concrete inputs, each history at its capacity before the
    call: the protocol engine holds two CIDs and receives a third, the
    oldest is dropped; the log scanner reads three lines with a CID and
    keeps the two newest; the modem has sent seventeen messages, and the
    oldest leaves its history. *)
Lemma histories_within_capacity_witness :
  (Telnet.recentMsgs CapacityExamples.two_codes !! "msg03txt"
   = Some {[ 1700000001123456789 := "CID=1131010030";
             1700000061123456789 := "CID=1441010010" ]}
   /\ exists tel',
        Telnet.getNextMessage CapacityExamples.third_code CapacityExamples.two_codes
        = (Ok (Telnet.recentMsgs tel'), tel')
        /\ Telnet.recentMsgs tel' !! "msg03txt"
           = Some {[ 1700000061123456789 := "CID=1441010010";
                     1700000121123456789 := "CID=3131010030" ]}
        /\ forall name h, Telnet.recentMsgs tel' !! name = Some h -> (size h <= 2)%nat)
  /\ (exists candidates slg',
         getLogRecsWithCID [burglary; disarmed; CapacityExamples.fire] ScanLog.init
         = (Ok candidates, slg')
         /\ candidates = {[ 1700000010 := "1441010010"; 1700000020 := "1110010010" ]}
         /\ scanlog_wf slg'
         /\ (size (CIDs slg') <= 2)%nat
         /\ (size (CIDflags slg') <= 2)%nat)
  /\ (size (Modem.alert CapacityExamples.seventeen_sent) = 17%nat
      /\ exists mdm',
           Modem.doPruning CapacityExamples.seventeen_sent = (Ok tt, mdm')
           /\ Modem.alert mdm' !! ModemExamples.t0 = None
           /\ modem_wf mdm'
           /\ (size (Modem.alert mdm') <= 16)%nat
           /\ (size (Modem.phone mdm') <= 16)%nat).
Proof.
  destruct histories_within_capacity as (Htel & Hlog & Hsms).
  split; [|split].
  - split; [vm_compute; reflexivity|].
    destruct (Htel CapacityExamples.third_code CapacityExamples.two_codes)
      as (tel' & Heq & Hsize).
    exists tel'. split; [exact Heq|]. split; [|exact Hsize].
    replace tel'
      with (Telnet.getNextMessage CapacityExamples.third_code CapacityExamples.two_codes).2
      by (rewrite Heq; reflexivity).
    vm_compute. reflexivity.
  - destruct (Hlog [burglary; disarmed; CapacityExamples.fire] ScanLog.init init_wf)
      as (cands & slg' & Heq & Hrest).
    exists cands, slg'. split; [exact Heq|]. split; [|exact Hrest].
    pose proof (f_equal fst Heq) as Hc. cbn [fst] in Hc.
    vm_compute in Hc. injection Hc as <-. vm_compute. reflexivity.
  - split; [vm_compute; reflexivity|].
    destruct (Hsms CapacityExamples.seventeen_sent seventeen_sent_wf)
      as (mdm' & Heq & Hrest).
    exists mdm'. split; [exact Heq|]. split; [|exact Hrest].
    replace mdm' with (Modem.doPruning CapacityExamples.seventeen_sent).2
      by (rewrite Heq; reflexivity).
    vm_compute. reflexivity.
Defined.



(** A protocol entry whose text is [CID=] followed by the ten digits of
    the log entry, and that is close enough in time, is a match. *)
Lemma adjacent_match_same_code cnf msg03txt key1 key2 code :
  ten_digits code ->
  msg03txt !! key2 = Some ("CID=" +:+ code) ->
  Z.abs (key2 / 1000000000 - key1) <= Config.AdjacentSecondsEVL4 cnf ->
  adjacent_match cnf msg03txt key1 code.
Proof.
  intros Hten Htxt Hadj. exists key2, ("CID=" +:+ code).
  split; [exact Htxt|]. split; [apply strip_CID_digits, Hten|exact Hadj].
Qed.

(** The hypothesis of ten digits in C10 is needed: an event code that
    holds exclamation marks comes back in the fallback text. *)
Example getDescription_non_digit_keeps_separator :
  Cid.getDescription (Cid.init "NORMAL") "1!!!010010"
  = Ok "No description available for CID event code !!!".
Proof. vm_compute. reflexivity. Qed.


End Runs.

(** * Further properties of the code *)

Section PruningOrder.

Context {V : Type}.
Implicit Types d : gmap Z V.

Lemma surplus_keys_oldest n d k k' :
  k ∈ surplus_keys n d -> is_Some (d !! k') -> k' ∉ surplus_keys n d -> k < k'.
Proof.
  unfold surplus_keys. set (p := popLim n (length (sorted_keys d))).
  intros Hk Hk' Hnot.
  apply elem_of_sorted_keys in Hk'.
  pose proof (sorted_keys_sorted d) as Hsorted.
  pose proof (sorted_keys_NoDup d) as Hnd.
  rewrite <- (take_drop p (sorted_keys d)) in Hk', Hsorted, Hnd.
  apply elem_of_app in Hk' as [Hk'|Hk']; [contradiction|].
  apply NoDup_app in Hnd as (_ & Hdisj & _).
  assert (k <> k') by (intros ->; apply (Hdisj k'); assumption).
  assert (k <= k'); [|lia].
  clear Hdisj Hnot H.
  induction (take p (sorted_keys d)) as [|x l IH]; [apply elem_of_nil in Hk; contradiction|].
  cbn [app] in Hsorted. apply StronglySorted_cons in Hsorted as [Hall Hsorted].
  apply elem_of_cons in Hk as [->|Hk]; [|apply IH; assumption].
  rewrite Forall_forall in Hall. apply Hall, elem_of_app. right. exact Hk'.
Qed.

Lemma surplus_keys_within n d : (size d <= n)%nat -> surplus_keys n d = [].
Proof.
  intros Hle. unfold surplus_keys, popLim. rewrite length_sorted_keys.
  destruct (Nat.ltb_spec n (size d)); [lia|reflexivity].
Qed.

Lemma size_pruned_exact n d :
  size (foldl (fun d k => delete k d) d (surplus_keys n d)) = Nat.min n (size d).
Proof.
  rewrite size_delete_all.
  - rewrite length_surplus_keys. unfold popLim.
    destruct (Nat.ltb_spec n (size d)); lia.
  - apply surplus_keys_NoDup.
  - apply elem_of_surplus_keys.
Qed.

(** What the pruning of one history to [n] entries leaves: the [n] most
    recent entries, untouched. *)
Lemma pruned_newest n d :
  let d' := foldl (fun d k => delete k d) d (surplus_keys n d) in
  size d' = Nat.min n (size d)
  /\ (forall k, is_Some (d' !! k) -> d' !! k = d !! k)
  /\ (forall k k', is_Some (d !! k) -> d' !! k = None -> is_Some (d' !! k') -> k < k').
Proof.
  intros d'. split; [apply size_pruned_exact|]. split.
  - intros k. unfold d'. rewrite lookup_delete_all.
    destruct (decide (k ∈ surplus_keys n d)); [intros [? ?]; discriminate|reflexivity].
  - intros k k' Hk Hgone Hkept. unfold d' in Hgone, Hkept.
    rewrite lookup_delete_all in Hgone, Hkept.
    destruct (decide (k ∈ surplus_keys n d)) as [Hin|Hnin].
    + destruct (decide (k' ∈ surplus_keys n d)) as [Hin'|Hnin'];
        [destruct Hkept; discriminate|].
      eapply surplus_keys_oldest; eassumption.
    + rewrite Hgone in Hk. destruct Hk; discriminate.
Qed.

End PruningOrder.

Section PruningKeepsNewest.

(** X1. The three prunings evict the oldest entries only. [pruneAll]
    leaves in every history of the protocol engine its 2 most recent
    entries, untouched; on a log scanner and on a modem whose two
    dictionaries share their keys, [doPruning] returns and leaves the 2
    (respectively 16) most recent entries, each with the value it had in
    both dictionaries. A history within its capacity is not changed. *)
Theorem pruning_keeps_newest :
  (forall tel,
      exists tel',
        Telnet.pruneAll tel = (Ok tt, tel')
        /\ Telnet.tn tel' = Telnet.tn tel
        /\ forall name,
             match Telnet.recentMsgs tel !! name with
             | Some h => exists h', Telnet.recentMsgs tel' !! name = Some h'
                                    /\ newest_of 2 h h'
                                    /\ ((size h <= 2)%nat -> h' = h)
             | None => Telnet.recentMsgs tel' !! name = None
             end)
  /\ (forall slg,
         scanlog_wf slg ->
         exists slg',
           ScanLog.doPruning slg = (Ok tt, slg')
           /\ scanlog_wf slg'
           /\ newest_of 2 (ScanLog.CIDs slg) (ScanLog.CIDs slg')
           /\ (forall k, is_Some (ScanLog.CIDs slg' !! k) ->
                         ScanLog.CIDflags slg' !! k = ScanLog.CIDflags slg !! k)
           /\ ((size (ScanLog.CIDs slg) <= 2)%nat -> slg' = slg))
  /\ (forall mdm,
         modem_wf mdm ->
         exists mdm',
           Modem.doPruning mdm = (Ok tt, mdm')
           /\ modem_wf mdm'
           /\ newest_of 16 (Modem.alert mdm) (Modem.alert mdm')
           /\ (forall k, is_Some (Modem.alert mdm' !! k) ->
                         Modem.phone mdm' !! k = Modem.phone mdm !! k)
           /\ ((size (Modem.alert mdm) <= 16)%nat -> mdm' = mdm)).
Proof.
  split; [|split].
  - intros tel. eexists. split; [reflexivity|]. split; [reflexivity|].
    intros name. cbn [Telnet.recentMsgs]. rewrite lookup_fmap.
    destruct (Telnet.recentMsgs tel !! name) as [h|]; [|reflexivity].
    eexists. split; [reflexivity|]. split; [apply pruned_newest|].
    intros Hle. unfold Telnet.prune.
    rewrite (surplus_keys_within Telnet.MAX_HISTORY h Hle). reflexivity.
  - intros slg Hwf. eexists. split; [apply (scanlog_doPruning slg Hwf)|].
    split; [apply scanlog_wf_pruned, Hwf|].
    split; [apply pruned_newest|]. cbn [ScanLog.CIDs ScanLog.CIDflags]. split.
    + intros k. rewrite !lookup_delete_all.
      destruct (decide (k ∈ _)); [intros [? ?]; discriminate|reflexivity].
    + intros Hle.
      rewrite (surplus_keys_within ScanLog.MAX_HISTORY (ScanLog.CIDs slg) Hle).
      destruct slg; reflexivity.
  - intros mdm Hwf. eexists. split; [apply (modem_doPruning mdm Hwf)|].
    split; [apply modem_wf_pruned, Hwf|].
    split; [apply pruned_newest|].
    cbn [Modem.alert Modem.phone Modem.set_history]. split.
    + intros k. rewrite !lookup_delete_all.
      destruct (decide (k ∈ _)); [intros [? ?]; discriminate|reflexivity].
    + intros Hle.
      rewrite (surplus_keys_within Modem.MAX_HISTORY (Modem.alert mdm) Hle).
      destruct mdm; reflexivity.
Qed.

Lemma three_read_wf : scanlog_wf three_read.
Proof.
  assert (Hdom : dom (ScanLog.CIDs three_read) = dom (ScanLog.CIDflags three_read))
    by (vm_compute; reflexivity).
  intros k. rewrite <- !elem_of_dom, Hdom. reflexivity.
Qed.

(** X1 where entries are evicted: the log scanner holds three entries
    and keeps the two newest; the modem has sent seventeen messages and
    drops the oldest, FIRE, from both dictionaries. *)
Lemma pruning_keeps_newest_witness :
  (ScanLog.CIDs three_read
   = {[ 1700000000 := "1131010030"; 1700000010 := "1441010010";
        1700000020 := "1110010010" ]}
   /\ exists slg',
        ScanLog.doPruning three_read = (Ok tt, slg')
        /\ ScanLog.CIDs slg' = {[ 1700000010 := "1441010010"; 1700000020 := "1110010010" ]}
        /\ newest_of 2 (ScanLog.CIDs three_read) (ScanLog.CIDs slg'))
  /\ (size (Modem.alert CapacityExamples.seventeen_sent) = 17%nat
      /\ Modem.alert CapacityExamples.seventeen_sent !! ModemExamples.t0 = Some "FIRE"
      /\ exists mdm',
           Modem.doPruning CapacityExamples.seventeen_sent = (Ok tt, mdm')
           /\ Modem.alert mdm' !! ModemExamples.t0 = None
           /\ size (Modem.alert mdm') = 16%nat
           /\ newest_of 16 (Modem.alert CapacityExamples.seventeen_sent) (Modem.alert mdm')
           /\ forall k, is_Some (Modem.alert mdm' !! k) ->
                        Modem.phone mdm' !! k = Modem.phone CapacityExamples.seventeen_sent !! k).
Proof.
  destruct pruning_keeps_newest as (_ & Hlog & Hsms).
  split.
  - split; [vm_compute; reflexivity|].
    destruct (Hlog three_read three_read_wf) as (slg' & Heq & _ & Hnew & _).
    exists slg'. split; [exact Heq|]. split; [|exact Hnew].
    replace slg' with (ScanLog.doPruning three_read).2 by (rewrite Heq; reflexivity).
    vm_compute. reflexivity.
  - split; [vm_compute; reflexivity|]. split; [vm_compute; reflexivity|].
    destruct (Hsms CapacityExamples.seventeen_sent seventeen_sent_wf)
      as (mdm' & Heq & _ & Hnew & Hphone & _).
    exists mdm'. split; [exact Heq|].
    split; [|split; [|split; [exact Hnew|exact Hphone]]].
    + replace mdm' with (Modem.doPruning CapacityExamples.seventeen_sent).2
        by (rewrite Heq; reflexivity).
      vm_compute. reflexivity.
    + destruct Hnew as [-> _]. vm_compute. reflexivity.
Defined.

End PruningKeepsNewest.

Section Frames.

Import Telnet.







Lemma history_insert_eq msgs name h : history (<[name := h]> msgs) name = h.
Proof. unfold history. rewrite lookup_insert_eq. reflexivity. Qed.

Lemma history_insert_ne msgs name name' h :
  name <> name' -> history (<[name := h]> msgs) name' = history msgs name'.
Proof. intros Hne. unfold history. rewrite lookup_insert_ne by exact Hne. reflexivity. Qed.

Lemma histories_present_insert msgs name h :
  histories_present msgs -> histories_present (<[name := h]> msgs).
Proof.
  intros Hp n Hn. destruct (decide (name = n)) as [->|Hne].
  - rewrite lookup_insert_eq. eauto.
  - rewrite lookup_insert_ne by exact Hne. apply Hp, Hn.
Qed.

Lemma histories_present_pruned msgs :
  histories_present msgs -> histories_present (prune <$> msgs).
Proof.
  intros Hp n Hn. rewrite lookup_fmap. destruct (Hp n Hn) as [h ->]. cbn. eauto.
Qed.

Lemma history_pruned msgs name : history (prune <$> msgs) name = prune (history msgs name).
Proof.
  unfold history. rewrite lookup_fmap.
  destruct (msgs !! name); reflexivity.
Qed.



End Frames.

Section FrameTheorems.

Import Telnet.



End FrameTheorems.

Section FrameExamples.

Import Telnet AlertExamples.

Lemma init_histories_present : histories_present init_recentMsgs.
Proof.
  intros name Hn. unfold history_names in Hn.
  repeat (apply elem_of_cons in Hn as [->|Hn]; [vm_compute; eauto|]).
  apply elem_of_nil in Hn. contradiction.
Qed.





End FrameExamples.

Section ProtocolOnce.

Import DPM.

Lemma sorted_keys_same_dom {V W} (d : gmap Z V) (d' : gmap Z W) :
  (forall k, is_Some (d !! k) <-> is_Some (d' !! k)) -> sorted_keys d = sorted_keys d'.
Proof.
  intros Hdom. apply (StronglySorted_unique Z.le); try apply sorted_keys_sorted.
  apply NoDup_Permutation; try apply sorted_keys_NoDup.
  intros k. rewrite !elem_of_sorted_keys. apply Hdom.
Qed.

Lemma sorted_keys_desc_insert_present {V} (d : gmap Z V) k v :
  is_Some (d !! k) -> sorted_keys_desc (<[k := v]> d) = sorted_keys_desc d.
Proof.
  intros Hk. unfold sorted_keys_desc. f_equal. apply sorted_keys_same_dom.
  intros k'. destruct (decide (k = k')) as [<-|Hne].
  - rewrite lookup_insert_eq. split; eauto.
  - rewrite lookup_insert_ne by exact Hne. reflexivity.
Qed.

Lemma head_sorted_keys_desc {V} (d : gmap Z V) k0 :
  head (sorted_keys_desc d) = Some k0 -> is_Some (d !! k0).
Proof.
  intros Hh. apply elem_of_sorted_keys_desc.
  destruct (sorted_keys_desc d) as [|k rest]; [discriminate|].
  injection Hh as ->. left.
Qed.

Lemma msg_keys_spec name s :
  msg_keys name s
  = (match s !! name with Some d => Ok (sorted_keys_desc d) | None => Raise KeyError end, s).
Proof.
  unfold msg_keys, mbind, get, lift, getitem. destruct (s !! name); reflexivity.
Qed.

Lemma msg_get_spec name k s :
  msg_get name k s
  = (match s !! name with
     | Some d => match d !! k with Some v => Ok v | None => Raise KeyError end
     | None => Raise KeyError
     end, s).
Proof.
  unfold msg_get, mbind, get, lift, getitem. destruct (s !! name) as [d|]; [|reflexivity].
  cbn [bind]. destruct (d !! k); reflexivity.
Qed.

Lemma msg_get_state name k s : (msg_get name k s).2 = s.
Proof. rewrite msg_get_spec. reflexivity. Qed.

(** Resetting a flag of a history leaves it settled when the flag is the
    most recent one, and leaves every other history as it was. *)
Lemma settled_reset s name d k0 :
  s !! name = Some d -> head (sorted_keys_desc d) = Some k0 ->
  settled (<[name := <[k0 := "0"]> d]> s) name.
Proof.
  intros Hd Hh. exists (<[k0 := "0"]> d). split; [apply lookup_insert_eq|].
  intros k. rewrite sorted_keys_desc_insert_present by (eapply head_sorted_keys_desc, Hh).
  rewrite Hh. intros [= <-]. rewrite lookup_insert_eq. discriminate.
Qed.

Lemma settled_other s name name' h :
  name <> name' -> settled s name' -> settled (<[name := h]> s) name'.
Proof.
  intros Hne (d & Hd & Hs). exists d. split; [|exact Hs].
  rewrite lookup_insert_ne by exact Hne. exact Hd.
Qed.

End ProtocolOnce.

Section ProtocolBlocks.

Import DPM.

Lemma resets_same s name d :
  s !! name = Some d ->
  (forall k0, head (sorted_keys_desc d) = Some k0 -> d !! k0 <> Some "1") ->
  resets name s s.
Proof. intros Hd Hs. split; [exists d; split; assumption|reflexivity]. Qed.

Lemma resets_insert s name d k0 :
  s !! name = Some d -> head (sorted_keys_desc d) = Some k0 ->
  resets name s (<[name := <[k0 := "0"]> d]> s).
Proof.
  intros Hd Hh. split; [apply settled_reset; assumption|].
  intros name' Hne. apply lookup_insert_ne. congruence.
Qed.

Lemma msg_set_spec name k v s d :
  s !! name = Some d -> msg_set name k v s = (Ok tt, <[name := <[k := v]> d]> s).
Proof. intros Hd. unfold msg_set. rewrite Hd. reflexivity. Qed.

Lemma eqb_flag_false (f : string) : String.eqb f "1" = false -> f <> "1".
Proof. intros H ->. discriminate. Qed.

(** The blocks for the types 01, 02 and FF. *)
Lemma mark_processed_effect name d s :
  s !! name = Some d ->
  exists s1, mark_processed name (sorted_keys_desc d) s = (Ok tt, s1) /\ resets name s s1.
Proof.
  intros Hd. unfold mark_processed.
  destruct (sorted_keys_desc d) as [|k0 rest] eqn:Hkeys.
  - exists s. split; [reflexivity|]. apply (resets_same s name d Hd).
    rewrite Hkeys. discriminate.
  - assert (Hh : head (sorted_keys_desc d) = Some k0) by (rewrite Hkeys; reflexivity).
    destruct (head_sorted_keys_desc d k0 Hh) as [f Hf].
    unfold mbind at 1. rewrite msg_get_spec, Hd, Hf.
    destruct (String.eqb f "1") eqn:Ef.
    + rewrite (msg_set_spec name k0 "0" s d Hd). eexists. split; [reflexivity|].
      apply resets_insert; assumption.
    + exists s. split; [reflexivity|]. apply (resets_same s name d Hd).
      intros k. rewrite Hh. intros [= <-]. rewrite Hf. intros [= ->]. discriminate.
Qed.

End ProtocolBlocks.

Section ProtocolBlocks2.

Import DPM.

Lemma mbind_reads_only {S A B} (m : M S A) (k : A -> M S B) :
  (forall s, (m s).2 = s) -> (forall a s, (k a s).2 = s) ->
  forall s, (mbind m k s).2 = s.
Proof.
  intros Hm Hk s. unfold mbind. specialize (Hm s).
  destruct (m s) as [[a|e] s']; cbn in Hm; subst; [apply Hk|reflexivity].
Qed.

Lemma collate_state cid1 keys00 keys03 s : (collate cid1 keys00 keys03 s).2 = s.
Proof.
  unfold collate.
  repeat (apply mbind_reads_only; [first [reflexivity|apply msg_get_state]|intros ?]).
  reflexivity.
Qed.

(** The block for the keypad messages. *)
Lemma block00_effect d s s1 :
  s !! "msgflag00" = Some d ->
  (match sorted_keys_desc d with
   | k0 :: k1 :: _ =>
       flag <~ msg_get "msgflag00" k0 ;;
       if String.eqb flag "1" then
         newest <~ msg_get "msg00txt" k0 ;;
         previous <~ msg_get "msg00txt" k1 ;;
         msg_set "msgflag00" k0 "0"
       else ret tt
   | [k0] =>
       flag <~ msg_get "msgflag00" k0 ;;
       if String.eqb flag "1" then
         newest <~ msg_get "msg00txt" k0 ;;
         msg_set "msgflag00" k0 "0"
       else ret tt
   | [] => ret tt
   end) s = (Ok tt, s1) ->
  resets "msgflag00" s s1.
Proof.
  intros Hd.
  destruct (sorted_keys_desc d) as [|k0 rest] eqn:Hkeys.
  - intros [= <-]. apply (resets_same s _ d Hd). rewrite Hkeys. discriminate.
  - assert (Hh : head (sorted_keys_desc d) = Some k0) by (rewrite Hkeys; reflexivity).
    destruct (head_sorted_keys_desc d k0 Hh) as [f Hf].
    assert (Hquiet : String.eqb f "1" = false -> resets "msgflag00" s s).
    { intros Ef. apply (resets_same s _ d Hd).
      intros k. rewrite Hh. intros [= <-]. rewrite Hf. intros [= ->]. discriminate. }
    destruct rest as [|k1 rest]; unfold mbind at 1; rewrite msg_get_spec, Hd, Hf;
      destruct (String.eqb f "1") eqn:Ef;
      try (intros [= <-]; apply Hquiet; reflexivity).
    + unfold mbind at 1. rewrite msg_get_spec.
      destruct (s !! "msg00txt") as [d0|]; [|discriminate].
      destruct (d0 !! k0); [|discriminate].
      rewrite (msg_set_spec _ k0 "0" s d Hd). intros [= <-].
      apply resets_insert; assumption.
    + unfold mbind at 1. rewrite msg_get_spec.
      destruct (s !! "msg00txt") as [d0|]; [|discriminate].
      destruct (d0 !! k0); [|discriminate].
      unfold mbind at 1. rewrite msg_get_spec.
      destruct (s !! "msg00txt") as [d0'|]; [|discriminate].
      destruct (d0' !! k1); [|discriminate].
      rewrite (msg_set_spec _ k0 "0" s d Hd). intros [= <-].
      apply resets_insert; assumption.
Qed.

(** The block for the CID messages: the most recent flag is reset
    before the collation, which may still fail. *)
Lemma block03_effect cid1 keys00 d s theMsg s1 :
  s !! "msgflag03" = Some d ->
  (match sorted_keys_desc d with
   | k0 :: rest =>
       flag <~ msg_get "msgflag03" k0 ;;
       if String.eqb flag "1" then
         newest <~ msg_get "msg03txt" k0 ;;
         msg_set "msgflag03" k0 "0" ;;>
         match rest with
         | k1 :: _ =>
             previous <~ msg_get "msg03txt" k1 ;;
             repeated <~ (if String.eqb newest previous
                          then f1 <~ msg_get "msgflag03" k1 ;;
                               ret (String.eqb f1 "0")
                          else ret false) ;;
             if (repeated : bool) then ret ""
             else collate cid1 keys00 (sorted_keys_desc d)
         | [] => collate cid1 keys00 (sorted_keys_desc d)
         end
       else ret ""
   | [] => ret ""
   end) s = (Ok theMsg, s1) ->
  resets "msgflag03" s s1
  /\ ((forall k0, head (sorted_keys_desc d) = Some k0 -> d !! k0 <> Some "1") ->
      theMsg = "" /\ s1 = s).
Proof.
  intros Hd.
  destruct (sorted_keys_desc d) as [|k0 rest] eqn:Hkeys.
  - intros [= <- <-]. split; [|intros _; split; reflexivity].
    apply (resets_same s _ d Hd). rewrite Hkeys. discriminate.
  - assert (Hh : head (sorted_keys_desc d) = Some k0) by (rewrite Hkeys; reflexivity).
    destruct (head_sorted_keys_desc d k0 Hh) as [f Hf].
    unfold mbind at 1. rewrite msg_get_spec, Hd, Hf.
    destruct (String.eqb f "1") eqn:Ef.
    + apply String.eqb_eq in Ef. subst f.
      unfold mbind at 1. rewrite msg_get_spec.
      destruct (s !! "msg03txt") as [d3|] eqn:Hd3; [|discriminate].
      destruct (d3 !! k0) as [newest|]; [|discriminate].
      unfold mbind at 1. rewrite (msg_set_spec _ k0 "0" s d Hd).
      set (s' := <["msgflag03" := <[k0 := "0"]> d]> s).
      intros Hrest.
      assert (Hs1 : s1 = s').
      { destruct rest as [|k1 rest].
        - pose proof (collate_state cid1 keys00 (k0 :: []) s') as Hc.
          rewrite Hrest in Hc. exact Hc.
        - revert Hrest. unfold mbind at 1. rewrite msg_get_spec.
          destruct (s' !! "msg03txt") as [d3'|]; [|discriminate].
          destruct (d3' !! k1) as [previous|]; [|discriminate].
          unfold mbind at 1.
          destruct (String.eqb newest previous).
          + unfold mbind at 1. rewrite msg_get_spec.
            destruct (s' !! "msgflag03") as [d'|]; [|discriminate].
            destruct (d' !! k1) as [f1|]; [|discriminate].
            unfold ret at 1. destruct (String.eqb f1 "0").
            * intros [= _ <-]. reflexivity.
            * intros Hrest.
              pose proof (collate_state cid1 keys00 (k0 :: k1 :: rest) s') as Hc.
              rewrite Hrest in Hc. exact Hc.
          + unfold ret at 1. intros Hrest.
            pose proof (collate_state cid1 keys00 (k0 :: k1 :: rest) s') as Hc.
            rewrite Hrest in Hc. exact Hc. }
      subst s1. split; [apply resets_insert; assumption|].
      intros Hsettled. exfalso. apply (Hsettled k0); [reflexivity|exact Hf].
    + intros [= <- <-]. split; [|intros _; split; reflexivity].
      apply (resets_same s _ d Hd).
      intros k. rewrite Hh. intros [= <-]. rewrite Hf. intros [= ->]. discriminate.
Qed.

End ProtocolBlocks2.

Section ProtocolOnceTheorem.

Import DPM.

Lemma settled_frame s s' name : s' !! name = s !! name -> settled s name -> settled s' name.
Proof. intros Heq (d & Hd & Hs). exists d. split; [congruence|exact Hs]. Qed.

Lemma settled_flag s name d k0 rest :
  settled s name -> s !! name = Some d -> sorted_keys_desc d = k0 :: rest ->
  exists f, d !! k0 = Some f /\ String.eqb f "1" = false.
Proof.
  intros (d' & Hd' & Hs) Hd Hkeys. assert (d' = d) as -> by congruence.
  assert (Hh : head (sorted_keys_desc d) = Some k0) by (rewrite Hkeys; reflexivity).
  destruct (head_sorted_keys_desc d k0 Hh) as [f Hf]. exists f. split; [exact Hf|].
  apply String.eqb_neq. intros ->. apply (Hs k0 Hh). exact Hf.
Qed.

Lemma mark_processed_quiet s name d :
  settled s name -> s !! name = Some d ->
  mark_processed name (sorted_keys_desc d) s = (Ok tt, s).
Proof.
  intros Hs Hd. unfold mark_processed.
  destruct (sorted_keys_desc d) as [|k0 rest] eqn:Hkeys; [reflexivity|].
  destruct (settled_flag s name d k0 rest Hs Hd Hkeys) as (f & Hf & Ef).
  unfold mbind at 1. rewrite msg_get_spec, Hd, Hf, Ef. reflexivity.
Qed.

(** With no message yet to be processed, the processing returns the
    empty text and changes no flag. *)
Lemma TPI_quiet cnf cid1 msg : quiet msg -> TPI cnf cid1 msg = (Ok "", msg).
Proof.
  intros Hq.
  assert (H00 : settled msg "msgflag00") by (apply Hq; unfold flag_names; left).
  assert (H01 : settled msg "msgflag01") by (apply Hq; unfold flag_names; do 1 right; left).
  assert (H02 : settled msg "msgflag02") by (apply Hq; unfold flag_names; do 2 right; left).
  assert (H03 : settled msg "msgflag03") by (apply Hq; unfold flag_names; do 3 right; left).
  assert (HFF : settled msg "msgflagFF") by (apply Hq; unfold flag_names; do 4 right; left).
  destruct H00 as (d00 & E00 & S00). destruct H01 as (d01 & E01 & S01).
  destruct H02 as (d02 & E02 & S02). destruct H03 as (d03 & E03 & S03).
  destruct HFF as (dFF & EFF & SFF).
  unfold TPI.
  unfold mbind at 1. rewrite msg_keys_spec, E00.
  unfold mbind at 1. rewrite msg_keys_spec, E01.
  unfold mbind at 1. rewrite msg_keys_spec, E02.
  unfold mbind at 1. rewrite msg_keys_spec, E03.
  unfold mbind at 1. rewrite msg_keys_spec, EFF.
  unfold mbind at 1.
  assert (B00 : forall k0 rest, sorted_keys_desc d00 = k0 :: rest ->
                  exists f, d00 !! k0 = Some f /\ String.eqb f "1" = false).
  { intros k0 rest. apply (settled_flag msg "msgflag00"); [|exact E00].
    exists d00. split; assumption. }
  assert (B03 : forall k0 rest, sorted_keys_desc d03 = k0 :: rest ->
                  exists f, d03 !! k0 = Some f /\ String.eqb f "1" = false).
  { intros k0 rest. apply (settled_flag msg "msgflag03"); [|exact E03].
    exists d03. split; assumption. }
  destruct (sorted_keys_desc d00) as [|k0 [|k1 rest]] eqn:K00.
  3: destruct (B00 k0 (k1 :: rest) eq_refl) as (f & Hf & Ef);
     unfold mbind at 1; rewrite msg_get_spec, E00, Hf, Ef; unfold ret at 1.
  2: destruct (B00 k0 [] eq_refl) as (f & Hf & Ef);
     unfold mbind at 1; rewrite msg_get_spec, E00, Hf, Ef; unfold ret at 1.
  1: unfold ret at 1.
  all: unfold mbind at 1;
    rewrite (mark_processed_quiet msg "msgflag01" d01) by (try exists d01; auto);
    unfold mbind at 1;
    rewrite (mark_processed_quiet msg "msgflag02" d02) by (try exists d02; auto);
    unfold mbind at 1.
  all: destruct (sorted_keys_desc d03) as [|k3 rest3] eqn:K03.
  all: try (destruct (B03 k3 rest3 eq_refl) as (f3 & Hf3 & Ef3);
            unfold mbind at 1; rewrite msg_get_spec, E03, Hf3, Ef3).
  all: unfold ret at 1; unfold mbind at 1;
    rewrite (mark_processed_quiet msg "msgflagFF" dFF) by (try exists dFF; auto);
    reflexivity.
Qed.

End ProtocolOnceTheorem.

Section ProtocolOnceTheorem2.

Import DPM.

Lemma length_substring_le s : forall n m, (String.length (String.substring n m s) <= m)%nat.
Proof.
  induction s as [|c s IH]; intros n m.
  - destruct n, m; cbn; lia.
  - destruct n as [|n]; destruct m as [|m]; cbn; try lia.
    + specialize (IH 0%nat m). lia.
    + apply IH.
    + apply IH.
Qed.

(** The compression leaves room for the date-time prefix. *)
Lemma compress_length cnf theMsg r :
  compress cnf theMsg = Ok r -> 20 <= Config.SMSsize cnf ->
  Z.of_nat (String.length r) <= Config.SMSsize cnf - 20.
Proof.
  unfold compress. intros H Hsize.
  destruct (0 <? Py.count "!" theMsg); [|injection H as <-; cbn; lia].
  destruct (Py.nth_item (Py.split "!" theMsg) 0) as [part0|]; [|discriminate].
  cbn [bind] in H.
  destruct (Py.nth_item (Py.split "!" theMsg) 1) as [part1|]; [|discriminate].
  cbn [bind] in H. revert H.
  change (Z.of_nat (String.length "yyyy-mm-dd hh:mm:ss ")) with 20.
  set (full := Py.replace "  " " " _).
  destruct (Z.ltb_spec (Config.SMSsize cnf - 20) (Z.of_nat (String.length full)));
    intros [= <-]; [|lia].
  unfold prefix_to. destruct (Z.leb_spec 0 (Config.SMSsize cnf - 20)); [|lia].
  unfold Py.slice. pose proof (length_substring_le full 0 (Z.to_nat (Config.SMSsize cnf - 20) - 0)).
  lia.
Qed.

(** What a call that returns leaves behind, and the size of what it
    returns. *)
Lemma TPI_returns cnf cid1 msg r msg' :
  TPI cnf cid1 msg = (Ok r, msg') ->
  quiet msg'
  /\ (20 <= Config.SMSsize cnf -> Z.of_nat (String.length r) <= Config.SMSsize cnf - 20).
Proof.
  unfold TPI. intros H.
  unfold mbind at 1 in H. rewrite msg_keys_spec in H.
  destruct (msg !! "msgflag00") as [d00|] eqn:E00; [|discriminate].
  unfold mbind at 1 in H. rewrite msg_keys_spec in H.
  destruct (msg !! "msgflag01") as [d01|] eqn:E01; [|discriminate].
  unfold mbind at 1 in H. rewrite msg_keys_spec in H.
  destruct (msg !! "msgflag02") as [d02|] eqn:E02; [|discriminate].
  unfold mbind at 1 in H. rewrite msg_keys_spec in H.
  destruct (msg !! "msgflag03") as [d03|] eqn:E03; [|discriminate].
  unfold mbind at 1 in H. rewrite msg_keys_spec in H.
  destruct (msg !! "msgflagFF") as [dFF|] eqn:EFF; [|discriminate].
  unfold mbind at 1 in H.
  match type of H with
  | match ?x with _ => _ end = _ => destruct x as [[[]|e] s1] eqn:B00; [|discriminate]
  end.
  apply (block00_effect d00 msg s1 E00) in B00. destruct B00 as [S1 F1].
  unfold mbind at 1 in H.
  destruct (mark_processed_effect "msgflag01" d01 s1) as (s2 & B01 & S2 & F2).
  { rewrite F1 by discriminate. exact E01. }
  rewrite B01 in H. unfold mbind at 1 in H.
  destruct (mark_processed_effect "msgflag02" d02 s2) as (s3 & B02 & S3 & F3).
  { rewrite F2, F1 by discriminate. exact E02. }
  rewrite B02 in H. unfold mbind at 1 in H.
  match type of H with
  | match ?x with _ => _ end = _ => destruct x as [[theMsg|e] s4] eqn:B03; [|discriminate]
  end.
  apply (block03_effect cid1 (sorted_keys_desc d00) d03 s3 theMsg s4) in B03;
    [|rewrite F3, F2, F1 by discriminate; exact E03].
  destruct B03 as [[S4 F4] _].
  unfold mbind at 1 in H.
  destruct (mark_processed_effect "msgflagFF" dFF s4) as (s5 & BFF & S5 & F5).
  { rewrite F4, F3, F2, F1 by discriminate. exact EFF. }
  rewrite BFF in H. unfold lift in H.
  injection H as Hr <-. split; [|intros Hsize; eapply compress_length; eassumption].
  intros name Hn. unfold flag_names in Hn.
  repeat (apply elem_of_cons in Hn as [->|Hn]).
  - apply (settled_frame s1); [|exact S1].
    rewrite F5, F4, F3, F2 by discriminate. reflexivity.
  - apply (settled_frame s2); [|exact S2].
    rewrite F5, F4, F3 by discriminate. reflexivity.
  - apply (settled_frame s3); [|exact S3].
    rewrite F5, F4 by discriminate. reflexivity.
  - apply (settled_frame s4); [|exact S4].
    rewrite F5 by discriminate. reflexivity.
  - exact S5.
  - apply elem_of_nil in Hn. contradiction.
Qed.

(** X4. A message is processed once: after a call of [TPI] that
    returns, whatever it returned, the most recent flag of each of the
    five kinds is no longer [1], and the next call on the same histories
    returns the empty text and changes nothing; so a CID gives rise to a
    composite alert in one call only. *)
Theorem TPI_processes_once cnf cid1 msg r msg' :
  TPI cnf cid1 msg = (Ok r, msg') ->
  quiet msg' /\ TPI cnf cid1 msg' = (Ok "", msg').
Proof.
  intros H. apply TPI_returns in H as [Hq _].
  split; [exact Hq|]. apply TPI_quiet, Hq.
Qed.

(** X5. The text [TPI] returns leaves room for the date-time prefix of
    20 characters within the configured size of an SMS. *)
Theorem TPI_fits_SMS cnf cid1 msg r msg' :
  TPI cnf cid1 msg = (Ok r, msg') ->
  20 <= Config.SMSsize cnf ->
  Z.of_nat (String.length r) <= Config.SMSsize cnf - 20.
Proof.
  intros H. apply TPI_returns in H as [_ Hlen]. exact Hlen.
Qed.

End ProtocolOnceTheorem2.

Section ProtocolExamplesFacts.

Import DPM ProtocolExamples.

(** The second call after a burglary was collated. *)
Lemma TPI_processes_once_witness :
  exists r msg',
    TPI (Examples.one_each 1000 0) (Cid.init "NORMAL") armed_then_burglary = (Ok r, msg')
    /\ Py.contains "Perimeter" r = true
    /\ TPI (Examples.one_each 1000 0) (Cid.init "NORMAL") msg' = (Ok "", msg').
Proof.
  destruct (TPI (Examples.one_each 1000 0) (Cid.init "NORMAL") armed_then_burglary)
    as [r msg'] eqn:E.
  assert (Hr : r = Ok "ARMED STAY, AC PRESENT ! Partition:01, New event:131 Perimeter, Zone:zone-3").
  { pose proof (f_equal fst E) as E1. vm_compute in E1. symmetry. exact E1. }
  subst r.
  destruct (TPI_processes_once _ _ _ _ _ E) as [_ Hagain].
  eexists _, msg'. split; [reflexivity|]. split; [vm_compute; reflexivity|exact Hagain].
Defined.

Lemma TPI_fits_SMS_witness :
  exists r,
    (TPI (Examples.one_each 1000 0) (Cid.init "NORMAL")
         AlertExamples.all_flags_then_burglary).1 = Ok r
    /\ Z.of_nat (String.length r) <= 140.
Proof.
  destruct (TPI (Examples.one_each 1000 0) (Cid.init "NORMAL")
                AlertExamples.all_flags_then_burglary) as [[r|e] msg'] eqn:E.
  - exists r. split; [reflexivity|].
    apply (TPI_fits_SMS _ _ _ _ _ E). vm_compute. discriminate.
  - apply (f_equal fst) in E. vm_compute in E. discriminate E.
Defined.

End ProtocolExamplesFacts.

Section CIDWithoutStatus.

Import DPM.

(** The only exception [getDescription] raises is the [IndexError] of
    an empty code. *)
Lemma getDescription_raises self CID e :
  Cid.getDescription self CID = Raise e -> e = IndexError /\ CID = "".
Proof.
  unfold Cid.getDescription, Py.index. destruct CID as [|c CID].
  - cbn. intros [= <-]. split; reflexivity.
  - cbn [String.get bind]. 
    destruct (Cid.CID_EventCodes !! _) as [[[[cat descr] kind] sel]|]; [|discriminate].
    unfold Cid.agent_of, except_KeyError.
    cbn [fst snd].
    assert (Hcompose : forall agent q ev part,
               Cid.compose self q ev part (cat, descr, kind, sel) agent <> Raise e).
    { intros agent q ev part. unfold Cid.compose, except_Exception.
      repeat match goal with
             | |- context [if ?b then _ else _] => destruct b
             | |- context [getitem ?m ?k] => destruct (getitem m k)
             | |- context [Cid.qualifier_text ?a ?b] => destruct (Cid.qualifier_text a b)
             end; cbn [bind]; discriminate. }
    unfold getitem.
    repeat match goal with
           | |- context [if ?b then _ else _] => destruct b
           | |- context [match ?m !! ?k with _ => _ end] => destruct (m !! k)
           end; cbn [bind]; intros H; exfalso; eapply Hcompose; exact H.
Qed.

End CIDWithoutStatus.

Section CIDWithoutStatus2.

Import DPM.

Lemma sorted_keys_desc_singleton {V} (k : Z) (v : V) :
  sorted_keys_desc ({[ k := v ]} : gmap Z V) = [k].
Proof.
  unfold sorted_keys_desc.
  assert (Hs : sorted_keys ({[ k := v ]} : gmap Z V) = [k]).
  { apply (StronglySorted_unique Z.le); [apply sorted_keys_sorted|repeat constructor|].
    apply NoDup_Permutation; [apply sorted_keys_NoDup|apply NoDup_singleton|].
    intros k'. rewrite elem_of_sorted_keys, list_elem_of_singleton.
    rewrite <- elem_of_dom, dom_singleton_L, elem_of_singleton. reflexivity. }
  rewrite Hs. reflexivity.
Qed.

Lemma sorted_keys_desc_empty {V} : sorted_keys_desc (∅ : gmap Z V) = [].
Proof.
  unfold sorted_keys_desc.
  assert (Hs : length (sorted_keys (∅ : gmap Z V)) = 0%nat)
    by (rewrite length_sorted_keys; apply map_size_empty).
  destruct (sorted_keys _); [reflexivity|discriminate].
Qed.

(** Without a keypad status the collation fails. *)
Lemma collate_no_keypad cid1 keys03 s :
  exists e, collate cid1 [] keys03 s = (Raise e, s) /\ (e = IndexError \/ e = KeyError).
Proof.
  unfold collate. unfold mbind at 1, lift at 1.
  destruct (Py.nth_item keys03 0) as [k03|e] eqn:E03.
  2: { exists e. split; [reflexivity|]. left.
       unfold Py.nth_item in E03. destruct (keys03 !! 0%nat); congruence. }
  unfold mbind at 1. rewrite msg_get_spec.
  destruct (s !! "msg03txt") as [d3|]; [|exists KeyError; split; [reflexivity|right; reflexivity]].
  destruct (d3 !! k03) as [CID|]; [|exists KeyError; split; [reflexivity|right; reflexivity]].
  unfold mbind at 1, lift at 1.
  destruct (Py.nth_item (Py.split "=" CID) 1) as [numeric|e] eqn:En.
  2: { exists e. split; [reflexivity|]. left.
       unfold Py.nth_item in En. destruct (_ !! 1%nat); congruence. }
  unfold mbind at 1, lift at 1.
  destruct (Cid.getDescription cid1 numeric) as [tmpstr|e] eqn:Ed.
  2: { exists e. split; [reflexivity|]. left. apply getDescription_raises in Ed. tauto. }
  unfold mbind at 1, lift at 1. cbn. exists IndexError. split; [reflexivity|left; reflexivity].
Qed.

(** X6. A first CID that arrives while no keypad message is held is
    lost: with an empty keypad history and a CID history whose only
    entry is flagged [1], [TPI] raises [IndexError] at the collation, and
    the flag of the CID has been reset to [0] before. *)
Theorem TPI_CID_without_keypad_status cnf cid1 msg d3 k0 txt :
  msg !! "msgflag00" = Some ∅ ->
  is_Some (msg !! "msgflag01") -> is_Some (msg !! "msgflag02") ->
  is_Some (msg !! "msgflagFF") ->
  msg !! "msgflag03" = Some {[ k0 := "1" ]} ->
  msg !! "msg03txt" = Some d3 -> d3 !! k0 = Some txt ->
  exists msg',
    TPI cnf cid1 msg = (Raise IndexError, msg')
    /\ msg' !! "msgflag03" = Some {[ k0 := "0" ]}
    /\ msg' !! "msg03txt" = Some d3.
Proof.
  intros E00 [d01 E01] [d02 E02] [dFF EFF] E03 E3 Htxt.
  unfold TPI.
  unfold mbind at 1. rewrite msg_keys_spec, E00.
  unfold mbind at 1. rewrite msg_keys_spec, E01.
  unfold mbind at 1. rewrite msg_keys_spec, E02.
  unfold mbind at 1. rewrite msg_keys_spec, E03.
  unfold mbind at 1. rewrite msg_keys_spec, EFF.
  rewrite sorted_keys_desc_empty, sorted_keys_desc_singleton.
  unfold mbind at 1, ret at 1.
  unfold mbind at 1.
  destruct (mark_processed_effect "msgflag01" d01 msg E01) as (s2 & B01 & S2 & F2).
  rewrite B01. unfold mbind at 1.
  destruct (mark_processed_effect "msgflag02" d02 s2) as (s3 & B02 & S3 & F3).
  { rewrite F2 by discriminate. exact E02. }
  rewrite B02. unfold mbind at 1.
  assert (E03' : s3 !! "msgflag03" = Some {[ k0 := "1" ]})
    by (rewrite F3, F2 by discriminate; exact E03).
  assert (E3' : s3 !! "msg03txt" = Some d3)
    by (rewrite F3, F2 by discriminate; exact E3).
  unfold mbind at 1. rewrite msg_get_spec, E03', lookup_singleton_eq.
  cbn [String.eqb Ascii.eqb Bool.eqb].
  unfold mbind at 1. rewrite msg_get_spec, E3', Htxt.
  unfold mbind at 1. rewrite (msg_set_spec _ k0 "0" s3 _ E03').
  rewrite insert_singleton_eq.
  set (s4 := <["msgflag03" := {[ k0 := "0" ]}]> s3).
  destruct (collate_no_keypad cid1 [k0] s4) as (e & Hc & He).
  assert (e = IndexError) as ->.
  { destruct He as [->| ->]; [reflexivity|]. exfalso. revert Hc.
    unfold collate, mbind at 1, lift at 1. cbn [Py.nth_item lookup list_lookup].
    unfold mbind at 1. rewrite msg_get_spec.
    unfold s4. rewrite lookup_insert_ne by discriminate. rewrite E3', Htxt.
    unfold mbind at 1, lift at 1.
    destruct (Py.nth_item (Py.split "=" txt) 1) as [numeric|e] eqn:En.
    2: { unfold Py.nth_item in En. destruct (_ !! 1%nat); [discriminate|].
         injection En as <-. discriminate. }
    unfold mbind at 1, lift at 1.
    destruct (Cid.getDescription cid1 numeric) as [tmpstr|e] eqn:Ed.
    2: { apply getDescription_raises in Ed as [-> _]. discriminate. }
    unfold mbind at 1, lift at 1. cbn. discriminate. }
  rewrite Hc. exists s4.
  split; [reflexivity|]. split; [apply lookup_insert_eq|].
  unfold s4. rewrite lookup_insert_ne by discriminate. exact E3'.
Qed.

(** The burglary CID received by a fresh engine before any keypad
    frame. *)
Lemma TPI_CID_without_keypad_status_witness :
  exists msg',
    TPI (Examples.one_each 1000 0) (Cid.init "NORMAL") ProtocolExamples.burglary_first
    = (Raise IndexError, msg')
    /\ msg' !! "msgflag03" = Some {[ 20 := "0" ]}.
Proof.
  destruct (TPI_CID_without_keypad_status (Examples.one_each 1000 0) (Cid.init "NORMAL")
              ProtocolExamples.burglary_first {[ 20 := "CID=1131010030" ]} 20
              "CID=1131010030")
    as (msg' & Heq & Hflag & _).
  - vm_compute. reflexivity.
  - vm_compute. eauto.
  - vm_compute. eauto.
  - vm_compute. eauto.
  - vm_compute. reflexivity.
  - vm_compute. reflexivity.
  - apply lookup_singleton_eq.
  - exists msg'. split; [exact Heq|exact Hflag].
Defined.


End CIDWithoutStatus2.

Section SendContract.

Import Modem.

Lemma after_reads_add self a b :
  after_reads (after_reads self a) b = after_reads self (b + a).
Proof. unfold after_reads. cbn. f_equal. lia. Qed.

Lemma time_ns_reads env self : time_ns env self = (Ok (time_ns_at env (clock_reads self)), after_reads self 1).
Proof. reflexivity. Qed.

(** The duplicate test only reads the clock. *)
Lemma isDuplicate_loop_reads env message recipient keys : forall self,
  exists n, (isDuplicate_loop env message recipient keys self).2 = after_reads self n.
Proof.
  induction keys as [|k keys IH]; intros self.
  - exists 0%nat. cbn. symmetry. apply after_reads_0.
  - cbn [isDuplicate_loop]. unfold mbind at 1, get at 1.
    unfold mbind at 1, lift at 1.
    destruct (getitem (alert self) k) as [a|e];
      [|exists 0%nat; cbn; symmetry; apply after_reads_0].
    unfold mbind at 1.
    assert (Hsame : exists same,
               (if String.eqb a message
                then p <~ lift (getitem (phone self) k) ;; ret (String.eqb p recipient)
                else ret false) self = (same, self)).
    { destruct (String.eqb a message); [|eexists; reflexivity].
      unfold mbind, lift, ret. destruct (getitem (phone self) k); eexists; reflexivity. }
    destruct Hsame as [same ->].
    destruct same as [[|]|e]; [| |exists 0%nat; cbn; symmetry; apply after_reads_0].
    + unfold mbind at 1. rewrite time_ns_reads.
      unfold mbind at 1, lift at 1. cbn [RECENT_SECS].
      destruct (recent_enough _ _ _) as [[|]|e].
      * exists 1%nat. reflexivity.
      * destruct (IH (after_reads self 1)) as [n Hn]. exists (n + 1)%nat.
        rewrite Hn. apply after_reads_add.
      * exists 1%nat. reflexivity.
    + apply IH.
Qed.

Lemma isDuplicate_reads env message recipient self :
  exists n, (isDuplicate env message recipient self).2 = after_reads self n.
Proof. unfold isDuplicate, mbind, get. apply isDuplicate_loop_reads. Qed.

End SendContract.

Section SendContractTheorem.

Import Modem.

(** The six ways a call of [sendSMS] ends, after [n] readings of the
    clock by the duplicate test. *)
Lemma sendSMS_cases cnf env message recipient self :
  exists n r self',
    let s1 := after_reads self n in
    sendSMS cnf env message recipient self = (r, self')
    /\ ((exists e, r = Raise e /\ self' = s1)
        \/ (r = Ok 8 /\ self' = (saveHistory env message recipient s1).2)
        \/ (Config.SendSMS cnf = false /\ r = Ok 4 /\ self' = s1)
        \/ (Config.SendSMS cnf = true /\ commscon self = false
            /\ r = Ok 16 /\ self' = (doReconnect env s1).2)
        \/ (Config.SendSMS cnf = true /\ commscon self = true
            /\ exchange_at env (exchanges self) = ReplyOK
            /\ r = Ok 0
            /\ self' = (saveHistory env message recipient
                          (submit env message recipient s1).2).2)
        \/ (Config.SendSMS cnf = true /\ commscon self = true
            /\ exchange_at env (exchanges self) <> ReplyOK
            /\ r = Ok 16
            /\ self' = (doReconnect env (submit env message recipient s1).2).2)).
Proof.
  destruct (isDuplicate_reads env message recipient self) as [n Hn].
  exists n. cbv zeta. unfold sendSMS, mbind at 1.
  destruct (isDuplicate env message recipient self) as [[[|]|e] s1];
    cbn [snd] in Hn; subst s1.
  - eexists _, _. split; [reflexivity|]. right. left. split; reflexivity.
  - destruct (Config.SendSMS cnf) eqn:Hs;
      [|eexists _, _; split; [reflexivity|]; right; right; left; repeat split; reflexivity].
    unfold try_except, transmit, mbind at 1, get at 1.
    cbn [commscon after_reads].
    destruct (commscon self) eqn:Hc.
    + unfold mbind at 1, submit at 1. cbn [exchanges after_reads].
      destruct (exchange_at env (exchanges self)) eqn:Hr.
      * eexists _, _. split; [reflexivity|]. do 4 right. left. repeat split; reflexivity.
      * eexists _, _. split; [reflexivity|]. do 5 right.
        repeat split; try reflexivity. discriminate.
      * eexists _, _. split; [reflexivity|]. do 5 right.
        repeat split; try reflexivity. discriminate.
    + eexists _, _. split; [reflexivity|]. do 3 right. left. repeat split; reflexivity.
  - eexists _, _. split; [reflexivity|]. left. exists e. split; reflexivity.
Qed.

Lemma doReconnect_submitted env self :
  submitted (doReconnect env self).2 = submitted self.
Proof. destruct (doReconnect_fields env self) as (_ & _ & _ & _ & H & _). exact H. Qed.

(** One call submits the message once at most. *)
Lemma sendSMS_submits_once cnf env message recipient self :
  submitted (sendSMS cnf env message recipient self).2 = submitted self
  \/ submitted (sendSMS cnf env message recipient self).2
     = (message, recipient) :: submitted self.
Proof.
  destruct (sendSMS_cases cnf env message recipient self)
    as (n & r & self' & -> &
        [(e & -> & ->)|[(-> & ->)|[(Hs & -> & ->)|[(Hs & Hc & -> & ->)|
         [(Hs & Hc & Hr & -> & ->)|(Hs & Hc & Hr & -> & ->)]]]]]); cbn [fst snd];
    rewrite ?doReconnect_submitted;
    first [left; reflexivity | right; reflexivity].
Qed.

(** X7. What one call of [sendSMS] may do, in any state of the modem
    and whatever the port answers. It submits at most one message, and
    that one is the message for the recipient it was given; a return
    code is one of 0, 4, 8 and 16; the code 0 is returned only when
    sending is enabled, after one submission, and the message is then in
    the history; with sending disabled nothing is submitted and the
    code is neither 0 nor 16; and two history dictionaries that share
    their keys still do so afterwards. *)
Theorem sendSMS_contract cnf env message recipient self :
  let r := (sendSMS cnf env message recipient self).1 in
  let self' := (sendSMS cnf env message recipient self).2 in
  (submitted self' = submitted self
   \/ submitted self' = (message, recipient) :: submitted self)
  /\ (forall rc, r = Ok rc -> rc = 0 \/ rc = 4 \/ rc = 8 \/ rc = 16)
  /\ (r = Ok 0 ->
      Config.SendSMS cnf = true
      /\ submitted self' = (message, recipient) :: submitted self
      /\ exists k, has_record self' k message recipient)
  /\ (Config.SendSMS cnf = false ->
      submitted self' = submitted self /\ r <> Ok 0 /\ r <> Ok 16)
  /\ (modem_wf self -> modem_wf self').
Proof.
  intros r self'. subst r self'.
  split; [|split; [|split; [|split]]]; [| | | |apply sendSMS_keeps_wf].
  all: destruct (sendSMS_cases cnf env message recipient self)
         as (n & r & self' & -> &
             [(e & -> & ->)|[(-> & ->)|[(Hs & -> & ->)|[(Hs & Hc & -> & ->)|
              [(Hs & Hc & Hr & -> & ->)|(Hs & Hc & Hr & -> & ->)]]]]]); cbn [fst snd];
         rewrite ?doReconnect_submitted.
  (* at most one submission *)
  - left. reflexivity.
  - left. reflexivity.
  - left. reflexivity.
  - left. reflexivity.
  - right. reflexivity.
  - right. reflexivity.
  (* the return codes *)
  - intros rc [=].
  - intros rc [= <-]. tauto.
  - intros rc [= <-]. tauto.
  - intros rc [= <-]. tauto.
  - intros rc [= <-]. tauto.
  - intros rc [= <-]. tauto.
  (* the code 0 *)
  - intros [=].
  - intros [=].
  - intros [=].
  - intros [=].
  - intros _. split; [exact Hs|]. split; [reflexivity|].
    eexists. split; cbn; apply lookup_insert_eq.
  - intros [=].
  (* sending disabled *)
  - intros _. split; [reflexivity|]. split; discriminate.
  - intros _. split; [reflexivity|]. split; discriminate.
  - intros _. split; [reflexivity|]. split; discriminate.
  - intros H. congruence.
  - intros H. congruence.
  - intros H. congruence.
Qed.

(** A first send on a fresh modem that acknowledges. *)
Lemma sendSMS_contract_witness :
  (sendSMS ModemExamples.cnf ModemExamples.steady_env "FIRE" "5550001"
           ModemExamples.fresh_modem).1 = Ok 0
  /\ submitted (sendSMS ModemExamples.cnf ModemExamples.steady_env "FIRE" "5550001"
                        ModemExamples.fresh_modem).2 = [("FIRE", "5550001")].
Proof.
  destruct (sendSMS_contract ModemExamples.cnf ModemExamples.steady_env "FIRE" "5550001"
              ModemExamples.fresh_modem) as (_ & _ & Hzero & _ & _).
  assert (Hr : (sendSMS ModemExamples.cnf ModemExamples.steady_env "FIRE" "5550001"
                        ModemExamples.fresh_modem).1 = Ok 0) by (vm_compute; reflexivity).
  destruct (Hzero Hr) as (_ & Hsub & _).
  split; [exact Hr|exact Hsub].
Defined.

End SendContractTheorem.

Section Roster.

Import DPM.

Variables (fullMsg : string) (phones : list string).

Lemma sends_nothing s s' :
  Modem.submitted (mdm1 s') = Modem.submitted (mdm1 s) ->
  Config.validRedAlertPhones (cnf1 s') = Config.validRedAlertPhones (cnf1 s) ->
  Config.validYellowAlertPhones (cnf1 s') = Config.validYellowAlertPhones (cnf1 s) ->
  Config.validRebootAlertPhones (cnf1 s') = Config.validRebootAlertPhones (cnf1 s) ->
  sends_only fullMsg phones 0 none_each s s'.
Proof.
  intros Hsub HR HY HB. split; [|repeat split; assumption].
  exists []. split; [exact Hsub|]. split; [constructor|].
  split; [reflexivity|]. intros ph. reflexivity.
Qed.

Lemma sends_only_refl s : sends_only fullMsg phones 0 none_each s s.
Proof. apply sends_nothing; reflexivity. Qed.

Lemma sends_only_trans a b pa pb s s1 s2 :
  sends_only fullMsg phones a pa s s1 -> sends_only fullMsg phones b pb s1 s2 ->
  sends_only fullMsg phones (a + b) (fun ph => pa ph + pb ph)%nat s s2.
Proof.
  intros [(new1 & E1 & F1 & L1 & P1) (R1 & Y1 & B1)]
         [(new2 & E2 & F2 & L2 & P2) (R2 & Y2 & B2)].
  split; [|repeat split; congruence].
  exists (new2 ++ new1)%list. split; [rewrite E2, E1, app_assoc; reflexivity|].
  split; [apply Forall_app; split; assumption|].
  split; [rewrite length_app; lia|].
  intros ph. unfold sent_to. rewrite map_app, count_occ_app.
  specialize (P1 ph). specialize (P2 ph). unfold sent_to in P1, P2. lia.
Qed.

Lemma sends_only_weaken a b pa pb s s' :
  (a <= b)%nat -> (forall ph, (pa ph <= pb ph)%nat) ->
  sends_only fullMsg phones a pa s s' -> sends_only fullMsg phones b pb s s'.
Proof.
  intros Hle Hp [(new & E & F & L & P) HR]. split; [|exact HR].
  exists new. split; [exact E|]. split; [exact F|]. split; [lia|].
  intros ph. specialize (P ph). specialize (Hp ph). lia.
Qed.

Lemma within_bind {A B} a b pa pb (m : M Sys A) (k : A -> M Sys B) :
  within fullMsg phones a pa m -> (forall x, within fullMsg phones b pb (k x)) ->
  within fullMsg phones (a + b) (fun ph => pa ph + pb ph)%nat (mbind m k).
Proof.
  intros Hm Hk s. unfold mbind. specialize (Hm s).
  destruct (m s) as [[x|e] s1]; cbn [snd] in *.
  - eapply sends_only_trans; [exact Hm|apply Hk].
  - eapply sends_only_weaken; [| |exact Hm]; [lia|intros ph; lia].
Qed.

Lemma within_weaken {A} a b pa pb (m : M Sys A) :
  (a <= b)%nat -> (forall ph, (pa ph <= pb ph)%nat) ->
  within fullMsg phones a pa m -> within fullMsg phones b pb m.
Proof. intros Hle Hp Hm s. eapply sends_only_weaken; [exact Hle|exact Hp|apply Hm]. Qed.

Lemma within_none {A} b pb (m : M Sys A) :
  within fullMsg phones 0 none_each m -> within fullMsg phones b pb m.
Proof. apply within_weaken; [lia|intros ph; unfold none_each; lia]. Qed.

Lemma within_pure {A} (m : M Sys A) :
  (forall s, (m s).2 = s) -> within fullMsg phones 0 none_each m.
Proof. intros Hp s. rewrite Hp. apply sends_only_refl. Qed.

Lemma within_updateMetrics env count :
  within fullMsg phones 0 none_each (updateMetrics env count).
Proof. intros s. apply sends_nothing; reflexivity. Qed.

Lemma within_sendSMS env ph :
  ph ∈ phones -> within fullMsg phones 1 (fun q => entries q [ph]) (sendSMS env fullMsg ph).
Proof.
  intros Hph s. unfold sendSMS, mbind, get, on_mdm.
  pose proof (sendSMS_submits_once (cnf1 s) (modem_env env) fullMsg ph (mdm1 s)) as Hsub.
  destruct (Modem.sendSMS (cnf1 s) (modem_env env) fullMsg ph (mdm1 s)) as [r d].
  cbn [fst snd] in Hsub. unfold sends_only. cbn [snd cnf1 mdm1].
  split; [|repeat split; reflexivity].
  destruct Hsub as [Hsub|Hsub]; rewrite Hsub.
  - exists []. split; [reflexivity|]. split; [constructor|].
    split; [cbn; lia|]. intros q. unfold sent_to. cbn [map count_occ]. lia.
  - exists [(fullMsg, ph)]. split; [reflexivity|].
    split; [repeat constructor; exact Hph|]. split; [cbn; lia|].
    intros q. unfold sent_to, entries. cbn [map snd]. reflexivity.
Qed.

Lemma within_call_one env ph :
  ph ∈ phones -> within fullMsg phones 2 (twice_each [ph]) (call_one env fullMsg ph).
Proof.
  intros Hph. unfold call_one.
  apply (within_weaken (1 + 1) 2 (fun q => entries q [ph] + entries q [ph])%nat);
    [lia|intros q; unfold twice_each; lia|].
  apply within_bind; [apply within_sendSMS, Hph|].
  intros rc.
  destruct (rc =? 0); [apply within_none, within_updateMetrics|].
  destruct (rc =? 4); [apply within_none, within_pure; reflexivity|].
  destruct (rc =? 8); [apply within_none, within_pure; reflexivity|].
  destruct (rc =? 16); [|apply within_none, within_pure; reflexivity].
  apply (within_weaken (1 + 0) 1 (fun q => entries q [ph] + none_each q)%nat);
    [lia|intros q; unfold none_each; lia|].
  apply within_bind; [apply within_sendSMS, Hph|].
  intros rc'. destruct (rc' =? 0); [apply within_updateMetrics|apply within_pure; reflexivity].
Qed.

Lemma within_for_each env (l : list string) :
  (forall ph, ph ∈ l -> ph ∈ phones) ->
  within fullMsg phones (2 * length l) (twice_each l) (for_each l (call_one env fullMsg)).
Proof.
  induction l as [|ph l IH]; intros Hin.
  - apply within_none, within_pure. reflexivity.
  - cbn [for_each length].
    apply (within_weaken (2 + 2 * length l) _
             (fun q => twice_each [ph] q + twice_each l q)%nat).
    + lia.
    + intros q. unfold twice_each, entries.
      change (ph :: l) with ([ph] ++ l)%list. rewrite count_occ_app. lia.
    + apply within_bind; [apply within_call_one, Hin; left|].
      intros _. apply IH. intros ph' Hph'. apply Hin. right. exact Hph'.
Qed.

End Roster.

Section RosterTheorem.

Import DPM.

Lemma optimizeSMS_state now cnf :
  (optimizeSMS now cnf).2 = (renewal_check now cnf).2.
Proof.
  rewrite optimizeSMS_unfold.
  destruct (renewal_check now cnf) as [[[]|e] cnf']; [|reflexivity].
  repeat match goal with
         | |- context [match ?x with _ => _ end] => destruct x
         end; reflexivity.
Qed.

Lemma optimizeSMS_rosters now cnf c' :
  (optimizeSMS now cnf).2 = c' ->
  Config.validRedAlertPhones c' = Config.validRedAlertPhones cnf
  /\ Config.validYellowAlertPhones c' = Config.validYellowAlertPhones cnf
  /\ Config.validRebootAlertPhones c' = Config.validRebootAlertPhones cnf.
Proof.
  intros <-. rewrite optimizeSMS_state.
  destruct (renewal_check_metrics now cnf) as [-> | ->]; repeat split; reflexivity.
Qed.

Lemma pops_submitted ks : forall m,
  Modem.submitted (for_each ks (fun k => Modem.pop_alert k ;;> Modem.pop_phone k) m).2
  = Modem.submitted m.
Proof.
  induction ks as [|k ks IH]; intros m; [reflexivity|].
  cbn [for_each]. unfold mbind at 1. unfold mbind at 1.
  unfold Modem.pop_alert at 1, pop at 1.
  destruct (Modem.alert m !! k); [|reflexivity].
  unfold Modem.pop_phone at 1, pop at 1. cbn [Modem.phone Modem.set_history].
  destruct (Modem.phone m !! k); [|reflexivity].
  rewrite IH. reflexivity.
Qed.

Lemma doPruning_submitted m : Modem.submitted (Modem.doPruning m).2 = Modem.submitted m.
Proof. unfold Modem.doPruning, mbind, get. apply pops_submitted. Qed.

(** [callCellPhones], step by step. *)
Lemma callCellPhones_unfold env fullMsg redAlert yellowAlert rebootAlert s :
  callCellPhones env fullMsg redAlert yellowAlert rebootAlert s
  = match optimizeSMS (now_at env (now_reads s)) (cnf1 s) with
    | (Raise e, c') =>
        (Raise e, {| cnf1 := c'; mdm1 := mdm1 s; now_reads := S (now_reads s) |})
    | (Ok resultList, c') =>
        let s1 := {| cnf1 := c'; mdm1 := mdm1 s; now_reads := S (now_reads s) |} in
        match (r0 <- Py.nth_item resultList 0 ;;;
               if (r0 : bool) && redAlert then Ok true
               else r1 <- Py.nth_item resultList 1 ;;;
                    if (r1 : bool) && yellowAlert then Ok true
                    else r2 <- Py.nth_item resultList 2 ;;;
                         Ok ((r2 : bool) && rebootAlert)) with
        | Raise e => (Raise e, s1)
        | Ok false => (Ok tt, s1)
        | Ok true =>
            (for_each (roster c' redAlert yellowAlert rebootAlert) (call_one env fullMsg) ;;>
             on_mdm Modem.doPruning) s1
        end
    end.
Proof.
  unfold callCellPhones, mbind at 1, datetime_now.
  unfold mbind at 1, on_cnf at 1. cbn [cnf1 mdm1 now_reads].
  destruct (optimizeSMS (now_at env (now_reads s)) (cnf1 s)) as [[resultList|e] c'];
    [|reflexivity].
  cbv zeta. unfold mbind at 1, lift at 1.
  destruct (Py.nth_item resultList 0) as [r0|e]; [|reflexivity]. cbn [bind].
  unfold mbind at 1.
  destruct (r0 && redAlert); [reflexivity|].
  unfold mbind at 1, lift at 1.
  destruct (Py.nth_item resultList 1) as [r1|e]; [|reflexivity]. cbn [bind].
  destruct (r1 && yellowAlert); [reflexivity|].
  unfold mbind at 1, lift at 1.
  destruct (Py.nth_item resultList 2) as [r2|e]; [|reflexivity]. cbn [bind].
  unfold ret at 1. destruct (r2 && rebootAlert); reflexivity.
Qed.

(** The submissions of [callCellPhones] stay within the roster of the
    category: two at most for each entry of the roster. *)
Lemma callCellPhones_within_roster env fullMsg redAlert yellowAlert rebootAlert s :
  sends_only fullMsg (roster (cnf1 s) redAlert yellowAlert rebootAlert)
    (2 * length (roster (cnf1 s) redAlert yellowAlert rebootAlert))
    (twice_each (roster (cnf1 s) redAlert yellowAlert rebootAlert)) s
    (callCellPhones env fullMsg redAlert yellowAlert rebootAlert s).2.
Proof.
  set (phones := roster (cnf1 s) redAlert yellowAlert rebootAlert).
  rewrite callCellPhones_unfold.
  pose proof (optimizeSMS_rosters (now_at env (now_reads s)) (cnf1 s) _ eq_refl)
    as (HR & HY & HB).
  destruct (optimizeSMS (now_at env (now_reads s)) (cnf1 s)) as [[resultList|e] c'];
    cbn [snd] in HR, HY, HB.
  2: { cbn [snd].
       apply (sends_only_weaken fullMsg phones 0 _ none_each);
         [lia|intros ph; unfold none_each; lia|].
       apply sends_nothing; [reflexivity|assumption..]. }
  cbv zeta.
  set (s1 := {| cnf1 := c'; mdm1 := mdm1 s; now_reads := S (now_reads s) |}).
  assert (H01 : sends_only fullMsg phones 0 none_each s s1)
    by (apply sends_nothing; [reflexivity|assumption..]).
  assert (Hphones : roster c' redAlert yellowAlert rebootAlert = phones).
  { unfold phones, roster. rewrite HR, HY, HB. reflexivity. }
  rewrite Hphones.
  match goal with |- context [match ?g with Ok _ => _ | Raise _ => _ end] =>
    destruct g as [[|]|e] end; cbn [snd].
  - apply (sends_only_weaken fullMsg phones (0 + 2 * length phones) _
             (fun ph => none_each ph + twice_each phones ph)%nat);
      [lia|intros ph; unfold none_each; lia|].
    apply (sends_only_trans fullMsg phones 0 (2 * length phones) _ _ s s1); [exact H01|].
    unfold mbind at 1.
    pose proof (within_for_each fullMsg phones env phones (fun ph H => H) s1) as Hloop.
    destruct (for_each phones (call_one env fullMsg) s1) as [[[]|e] s2]; cbn [snd] in Hloop.
    + unfold on_mdm. pose proof (doPruning_submitted (mdm1 s2)) as Hd.
      destruct (Modem.doPruning (mdm1 s2)) as [r d]. cbn [snd mdm1] in *.
      destruct Hloop as [(new & E & F & L & P) HRs]. split; [|exact HRs].
      exists new. cbn [mdm1]. rewrite Hd. split; [exact E|]. split; [exact F|].
      split; [exact L|exact P].
    + exact Hloop.
  - eapply sends_only_weaken; [| |exact H01]; [lia|intros ph; unfold none_each; lia].
  - eapply sends_only_weaken; [| |exact H01]; [lia|intros ph; unfold none_each; lia].
Qed.

(** X8. Whatever the state and whatever the modem answers,
    [callCellPhones] submits nothing but the given message, to phones of
    the roster of the alert's category only (red before yellow before
    reboot); it submits at most two messages to a phone for each entry
    the phone has in that roster, hence at most twice the length of the
    roster in all; and it submits nothing at all when the budget gate
    authorizes no category. *)
Theorem callCellPhones_sends_to_roster env fullMsg redAlert yellowAlert rebootAlert s :
  let phones := roster (cnf1 s) redAlert yellowAlert rebootAlert in
  let s' := (callCellPhones env fullMsg redAlert yellowAlert rebootAlert s).2 in
  sends_only fullMsg phones (2 * length phones) (twice_each phones) s s'
  /\ (forall cnf',
         optimizeSMS (now_at env (now_reads s)) (cnf1 s) = (Ok [false; false; false], cnf') ->
         Modem.submitted (mdm1 s') = Modem.submitted (mdm1 s)).
Proof.
  intros phones s'.
  split; [apply callCellPhones_within_roster|].
  intros cnf' Hgate. subst s'. rewrite callCellPhones_unfold, Hgate. cbv zeta.
  destruct redAlert, yellowAlert, rebootAlert; reflexivity.
Qed.

End RosterTheorem.

Section RosterExamples.

Import DPM ModemExamples.

(** X8 where messages are sent. A red alert with one phone in the red
    roster and a serial port that fails: the message is submitted twice
    to that phone, which is the bound. With no phone configured at all,
    the gate authorizes nothing and nothing is submitted. *)
Lemma callCellPhones_sends_to_roster_witness :
  (let s' := (callCellPhones (dpm_env failing_env) "FIRE" true false false
                (sys fresh_modem)).2 in
   Modem.submitted (mdm1 s') = [("FIRE", "5550001"); ("FIRE", "5550001")]
   /\ exists new,
        Modem.submitted (mdm1 s') = (new ++ [])%list
        /\ Forall (fun p : string * string => p.1 = "FIRE" /\ p.2 ∈ ["5550001"]) new
        /\ (length new <= 2)%nat
        /\ forall ph, (sent_to ph new <= 2 * entries ph ["5550001"])%nat)
  /\ Modem.submitted
       (mdm1 (callCellPhones (dpm_env steady_env) "FIRE" true false false
                {| cnf1 := Examples.no_phones; mdm1 := fresh_modem; now_reads := 0 |}).2)
     = [].
Proof.
  split.
  - split; [vm_compute; reflexivity|].
    pose proof (proj1 (callCellPhones_sends_to_roster (dpm_env failing_env) "FIRE"
                         true false false (sys fresh_modem))) as Hsends.
    exact (proj1 Hsends).
  - eapply (proj2 (callCellPhones_sends_to_roster (dpm_env steady_env) "FIRE"
                     true false false
                     {| cnf1 := Examples.no_phones; mdm1 := fresh_modem;
                        now_reads := 0 |})).
    vm_compute. reflexivity.
Defined.

End RosterExamples.

Section CheckSyslog.

Import ScanLog.

Lemma sorted_keys_desc_head {V} (d : gmap Z V) k rest :
  sorted_keys_desc d = k :: rest -> latest_key d k.
Proof.
  intros Hs. split.
  - apply elem_of_sorted_keys_desc. rewrite Hs. left.
  - intros k' Hk'. apply elem_of_sorted_keys_desc in Hk'. rewrite Hs in Hk'.
    apply elem_of_cons in Hk' as [->|Hk']; [lia|].
    apply list_elem_of_split in Hk' as (l1 & l2 & ->).
    assert (k' < k); [|lia].
    apply (sorted_keys_desc_split d (k :: l1) k' l2 Hs). left.
Qed.

Lemma latest_key_unique {V} (d : gmap Z V) k k' :
  latest_key d k -> latest_key d k' -> k = k'.
Proof. intros [H1 H2] [H1' H2']. specialize (H2 k' H1'). specialize (H2' k H1). lia. Qed.

(** The recent entries with the wanted flag, on a scanner whose two
    dictionaries share their keys: the scanner is only read. *)
Lemma getRecentCIDs_spec nowts RECENT_SECS isReptd self :
  scanlog_wf self ->
  exists recentCIDs,
    getRecentCIDs nowts RECENT_SECS isReptd self = (Ok recentCIDs, self)
    /\ forall k c,
         recentCIDs !! k = Some c <->
         CIDs self !! k = Some c /\ Z.abs (nowts - k) <= RECENT_SECS
         /\ CIDflags self !! k = Some (if isReptd then "1" else "0").
Proof.
  intros Hwf. unfold getRecentCIDs, mbind, get, lift, select_items. cbv zeta.
  set (flag := if isReptd then "1" else "0").
  match goal with |- context [forallb ?f ?l] => assert (Hok : forallb f l = true) end.
  { apply forallb_forall. intros [k v] Hin.
    apply list_elem_of_In, elem_of_map_to_list in Hin.
    destruct (proj1 (Hwf k)) as [f Hf]; [eauto|].
    cbn [fst snd]. destruct (_ <=? _); [|reflexivity].
    unfold getitem. rewrite Hf. reflexivity. }
  rewrite Hok. eexists. split; [reflexivity|].
  intros k c. rewrite map_lookup_filter_Some. cbn [fst snd].
  split.
  - intros [Hc Ht]. split; [exact Hc|].
    destruct (Z.leb_spec (Z.abs (nowts - k)) RECENT_SECS); [|discriminate].
    split; [assumption|]. unfold getitem in Ht.
    destruct (CIDflags self !! k) as [f|]; [|discriminate].
    cbn [bind ok_true] in Ht. destruct (String.eqb f flag) eqn:E; [|discriminate].
    apply String.eqb_eq in E. subst f. reflexivity.
  - intros (Hc & Hr & Hf). split; [exact Hc|].
    destruct (Z.leb_spec (Z.abs (nowts - k)) RECENT_SECS); [|lia].
    unfold getitem. rewrite Hf. cbn [bind ok_true]. fold flag.
    rewrite String.eqb_refl. reflexivity.
Qed.

(** The loop of [checkSyslog] for the reported entries: nothing is
    flagged, and the answer says whether some entry of the list matches
    the most recent protocol CID. *)
Lemma checkSyslog_loop_reported msg03txt adj key2 rest txt ts1 recentCIDs :
  msg03txt !! key2 = Some txt -> DPM.tpi_seconds key2 = Ok ts1 ->
  forall l self,
    (forall k, k ∈ l -> is_Some (recentCIDs !! k)) ->
    exists b,
      DPM.checkSyslog_loop msg03txt adj (key2 :: rest) recentCIDs true l self = (Ok b, self)
      /\ (b = true <->
          exists key1, key1 ∈ l /\ recentCIDs !! key1 = Some (Py.strip "CID=" txt)
                       /\ Z.abs (ts1 - key1) <= adj).
Proof.
  intros Htxt Hts l self. induction l as [|key1 l IH]; intros Hin.
  - exists false. split; [reflexivity|]. split; [discriminate|].
    intros (k & Hk & _). apply elem_of_nil in Hk. contradiction.
  - destruct IH as (b & Hb & Hspec); [intros k Hk; apply Hin; right; exact Hk|].
    destruct (Hin key1) as [code Hcode]; [left|].
    cbn [DPM.checkSyslog_loop]. unfold mbind at 1, lift at 1, getitem at 1.
    rewrite Htxt. unfold mbind at 1, lift at 1, getitem at 1. rewrite Hcode.
    assert (Hrest : b = true <->
                    exists key0, key0 ∈ l /\ recentCIDs !! key0 = Some (Py.strip "CID=" txt)
                                 /\ Z.abs (ts1 - key0) <= adj) by exact Hspec.
    destruct (String.eqb_spec (Py.strip "CID=" txt) code) as [Hc|Hc].
    + unfold mbind at 1, lift at 1. rewrite Hts.
      destruct (Z.leb_spec (Z.abs (ts1 - key1)) adj) as [Hle|Hgt].
      * exists true. split; [reflexivity|]. split; [|reflexivity].
        intros _. exists key1. split; [left|]. split; [congruence|exact Hle].
      * exists b. split; [exact Hb|]. rewrite Hrest. split.
        -- intros (k & Hk & H). exists k. split; [right; exact Hk|exact H].
        -- intros (k & Hk & Hk1 & Hk2). apply elem_of_cons in Hk as [->|Hk]; [lia|].
           exists k. repeat split; assumption.
    + exists b. split; [exact Hb|]. rewrite Hrest. split.
      * intros (k & Hk & H). exists k. split; [right; exact Hk|exact H].
      * intros (k & Hk & Hk1 & Hk2). apply elem_of_cons in Hk as [->|Hk].
        -- rewrite Hcode in Hk1. injection Hk1 as ->. contradiction.
        -- exists k. repeat split; assumption.
Qed.

Lemma checkSyslog_loop_no_tpi msg03txt adj recentCIDs isReptd l self :
  DPM.checkSyslog_loop msg03txt adj [] recentCIDs isReptd l self = (Ok false, self).
Proof. induction l as [|k l IH]; [reflexivity|exact IH]. Qed.

(** X9. The check of a composite alert against the log, as the control
    loop calls it (for the reported entries): on a scanner whose two
    dictionaries share their keys, and with a protocol history whose
    keys are nanosecond readings of the clock (of 61 bits, and not in the
    last microsecond of a second), [checkSyslog] returns, changes
    nothing in the scanner, and answers true exactly when some recent,
    reported log entry has the code of the most recent protocol CID, the
    whole seconds of the nanosecond key of that CID being at most
    [AdjacentSecondsEVL4] seconds away from the key of the log entry.
    Older protocol CIDs are not looked at. *)
Theorem checkSyslog_reported cnf msg03txt nowts slg :
  scanlog_wf slg -> nanosecond_stamps msg03txt ->
  exists b,
    DPM.checkSyslog cnf msg03txt true nowts slg = (Ok b, slg)
    /\ (b = true <-> exists key1, latest_matches cnf msg03txt nowts slg "1" key1).
Proof.
  intros Hwf Hsecs. unfold DPM.checkSyslog, mbind at 1.
  destruct (getRecentCIDs_spec nowts (Config.RecentSecondsEVL4 cnf) true slg Hwf)
    as (recentCIDs & -> & Hrecent).
  cbv zeta.
  destruct (sorted_keys_desc msg03txt) as [|key2 rest] eqn:Hkeys.
  - rewrite checkSyslog_loop_no_tpi. exists false. split; [reflexivity|].
    split; [discriminate|].
    intros (key1 & key2 & txt & code & [Hk _] & _).
    apply elem_of_sorted_keys_desc in Hk. rewrite Hkeys in Hk.
    apply elem_of_nil in Hk. contradiction.
  - pose proof (sorted_keys_desc_head msg03txt key2 rest Hkeys) as Hlatest.
    destruct Hlatest as [[txt Htxt] Hmax].
    pose proof (tpi_seconds_stamp key2 (Hsecs key2 (mk_is_Some _ _ Htxt))) as Hts.
    destruct (checkSyslog_loop_reported msg03txt (Config.AdjacentSecondsEVL4 cnf)
                key2 rest txt (key2 / 1000000000) recentCIDs Htxt Hts
                (sorted_keys_desc recentCIDs) slg)
      as (b & Hb & Hspec).
    { intros k. apply elem_of_sorted_keys_desc. }
    exists b. split; [exact Hb|]. rewrite Hspec. split.
    + intros (key1 & _ & Hk1 & Hadj). apply Hrecent in Hk1 as (Hc & Hr & Hf).
      exists key1, key2, txt, (Py.strip "CID=" txt).
      repeat split; try assumption. eauto.
    + intros (key1 & k2 & t & code & Hl & Ht & Hc & Hf & Hr & Hcode & Hadj).
      assert (k2 = key2) as -> by (eapply latest_key_unique; [exact Hl|split; eauto]).
      assert (t = txt) as -> by congruence.
      exists key1. split; [|split; [|exact Hadj]].
      * apply elem_of_sorted_keys_desc. exists code. apply Hrecent.
        repeat split; assumption.
      * apply Hrecent. rewrite Hcode. repeat split; assumption.
Qed.

End CheckSyslog.

Section CheckSyslogExamples.

Import ScanLog CheckExamples CorrelatorExamples.

Lemma reported_burglary_wf : scanlog_wf reported_burglary.
Proof.
  intros k. cbn [CIDs CIDflags reported_burglary].
  destruct (decide (k = 1700000000)) as [->|Hne].
  - rewrite !lookup_singleton_eq. split; eauto.
  - rewrite !lookup_singleton_ne by congruence. reflexivity.
Qed.

(** The protocol channel reports the burglary the log had reported two
    seconds before: the composite alert is recognised as a repetition. *)
Lemma checkSyslog_reported_witness :
  DPM.checkSyslog ScanExamples.cnf tpi_history true 1700000003 reported_burglary
  = (Ok true, reported_burglary).
Proof.
  destruct (checkSyslog_reported ScanExamples.cnf tpi_history 1700000003 reported_burglary
              reported_burglary_wf tpi_history_stamps) as (b & Heq & Hspec).
  rewrite Heq. replace b with true; [reflexivity|]. symmetry. apply Hspec.
  exists 1700000000, 1700000002123456789, "CID=1131010030", "1131010030".
  unfold latest_key, recent, tpi_history.
  split; [split|].
  { rewrite lookup_singleton_eq. eauto. }
  { intros k' [v Hv]. apply lookup_singleton_Some in Hv as [<- _]. lia. }
  split; [apply lookup_singleton_eq|].
  split; [apply lookup_singleton_eq|].
  split; [apply lookup_singleton_eq|].
  split; [vm_compute; discriminate|].
  split; [vm_compute; reflexivity|vm_compute; discriminate].
Defined.

End CheckSyslogExamples.

Section RenewalDay.

Import Config.

Lemma strptime_date_raises y m d e :
  Calendar.strptime_date y m d = Raise e -> e = ValueError.
Proof. unfold Calendar.strptime_date. destruct (Calendar.valid_date y m d); congruence. Qed.

Lemma strptime_datetime_raises t e :
  Calendar.strptime_datetime t = Raise e -> e = ValueError.
Proof. unfold Calendar.strptime_datetime. destruct (_ && _); congruence. Qed.

Lemma renewal_check_raises now cnf e :
  (DPM.renewal_check now cnf).1 = Raise e -> e = ValueError.
Proof.
  unfold DPM.renewal_check, mbind, get, lift.
  destruct (RenewalDay cnf <=? Calendar.day now); [|discriminate].
  destruct (Calendar.strptime_date _ _ _) as [ts1|e1] eqn:E1.
  2: { cbn. intros [= <-]. eapply strptime_date_raises, E1. }
  destruct (SMS_LatestDate cnf) as [sent|].
  - destruct (Calendar.strptime_datetime sent) as [ts2|e2] eqn:E2.
    + destruct (0 <=? _); discriminate.
    + cbn. intros [= <-]. eapply strptime_datetime_raises, E2.
  - destruct (0 <=? _); discriminate.
Qed.

Lemma renewal_check_day now cnf :
  RenewalDay (DPM.renewal_check now cnf).2 = RenewalDay cnf.
Proof. destruct (renewal_check_metrics now cnf) as [-> | ->]; reflexivity. Qed.

(** X10. The budget gate fails on the days for which the next renewal
    date does not exist: when today is a valid date and the date
    [optimizeSMS] builds for the next renewal is not (a renewal day 31
    in a month of 30 days, or 29 to 31 with February ahead),
    [optimizeSMS] raises [ValueError], and so does every
    [callCellPhones], which then submits nothing. *)
Theorem optimizeSMS_missing_renewal_date now cnf :
  Calendar.valid_date (Calendar.year now) (Calendar.month now) (Calendar.day now) = true ->
  (let '(y2, m2, d2) := DPM.next_renewal (Calendar.year now) (Calendar.month now)
                                         (Calendar.day now) (RenewalDay cnf) in
   Calendar.valid_date y2 m2 d2 = false) ->
  (exists cnf', DPM.optimizeSMS now cnf = (Raise ValueError, cnf'))
  /\ (forall env fullMsg red yellow reboot s,
         DPM.now_at env (DPM.now_reads s) = now -> DPM.cnf1 s = cnf ->
         (DPM.callCellPhones env fullMsg red yellow reboot s).1 = Raise ValueError
         /\ Modem.submitted (DPM.mdm1 (DPM.callCellPhones env fullMsg red yellow reboot s).2)
            = Modem.submitted (DPM.mdm1 s)).
Proof.
  intros Hnow Hnext.
  assert (Hopt : exists cnf', DPM.optimizeSMS now cnf = (Raise ValueError, cnf')).
  { rewrite optimizeSMS_unfold.
    pose proof (renewal_check_raises now cnf) as Hraise.
    pose proof (renewal_check_day now cnf) as Hday.
    destruct (DPM.renewal_check now cnf) as [[[]|e] cnf']; cbn [fst snd] in *.
    2: { rewrite (Hraise e eq_refl). eauto. }
    rewrite Hday. unfold DPM.days_to_go.
    destruct (DPM.next_renewal _ _ _ _) as [[y2 m2] d2].
    unfold Calendar.strptime_date. rewrite Hnow, Hnext. cbn [bind]. eauto. }
  split; [exact Hopt|].
  intros env fullMsg red yellow reboot s Hat Hcnf.
  rewrite callCellPhones_unfold, Hat, Hcnf.
  destruct Hopt as [cnf' ->]. split; reflexivity.
Qed.

(** The tenth of April with a renewal on the 31st. *)
Lemma optimizeSMS_missing_renewal_date_witness :
  exists cnf',
    DPM.optimizeSMS (Examples.noon 2026 4 10) (BudgetExamples.renewal_on 31)
    = (Raise ValueError, cnf').
Proof.
  apply (optimizeSMS_missing_renewal_date (Examples.noon 2026 4 10)
           (BudgetExamples.renewal_on 31)).
  - vm_compute. reflexivity.
  - vm_compute. reflexivity.
Defined.

End RenewalDay.

Section DecoderEdges.

Import Cid.

Lemma init_level lvl : known_level (decodeLevel (init lvl)).
Proof.
  unfold known_level, init. cbn [decodeLevel].
  destruct (String.eqb_spec (Py.upper lvl) "VERBOSE") as [->|_]; [cbn; tauto|].
  destruct (String.eqb_spec (Py.upper lvl) "NORMAL") as [->|_]; [cbn; tauto|].
  destruct (String.eqb_spec (Py.upper lvl) "TERSE") as [->|_]; cbn; tauto.
Qed.

Lemma setZones_level self z : decodeLevel (setZones self z) = decodeLevel self.
Proof. unfold setZones. destruct (negb _); reflexivity. Qed.

Lemma setUsers_level self u : decodeLevel (setUsers self u) = decodeLevel self.
Proof. unfold setUsers. destruct (negb _); reflexivity. Qed.

Lemma replace_bang_first (c : ascii) s :
  c <> "!"%char -> exists t, Py.replace "!" "" (String c s) = String c t.
Proof.
  intros Hc. unfold Py.replace. cbn [Py.replace_go]. rewrite prefix_char.
  destruct (Ascii.eqb_spec "!" c) as [<-|_]; [contradiction|]. eauto.
Qed.

(** The replies of the composition start with [P] or [U] when the
    level is one of the three. *)
Lemma compose_first self q ev part rt agent reply :
  known_level (decodeLevel self) ->
  compose self q ev part rt agent = Ok reply ->
  exists c t, reply = String c t /\ (c = "P" \/ c = "U")%char.
Proof.
  intros Hlvl. unfold compose, except_Exception. destruct rt as [[[cat descr] kind] sel].
  assert (HP : forall s, exists c t,
             Py.replace "!" "" ("Partition:" +:+ s) = String c t /\ (c = "P" \/ c = "U")%char).
  { intros s. destruct (replace_bang_first "P" ("artition:" +:+ s)) as [t Ht]; [discriminate|].
    exists "P"%char, t. split; [exact Ht|left; reflexivity]. }
  assert (HU : exists c t, "Unable to decode CID" = String c t /\ (c = "P" \/ c = "U")%char)
    by (eexists _, _; split; [reflexivity|right; reflexivity]).
  destruct Hlvl as [-> | [-> | ->]]; cbn [String.eqb Ascii.eqb Bool.eqb].
  - destruct (getitem CID_EventCategory cat) as [category|]; cbn [bind];
      [|intros [= <-]; exact HU].
    destruct (qualifier_text sel q) as [qual|]; cbn [bind]; intros [= <-];
      [apply HP|exact HU].
  - destruct (qualifier_text sel q) as [qual|]; cbn [bind]; intros [= <-];
      [apply HP|exact HU].
  - intros [= <-]. apply HP.
Qed.

(** X11. The decoder outside the ten digits. For a decoder built by
    the constructor, whatever the level asked for and whatever the
    custom zones and users, [getDescription] raises [IndexError] on the
    empty code and on no other input; on every other input it returns a
    reply, which is never the text of the invalid-level branch. *)
Theorem getDescription_raises_only_on_empty lvl myZones myUsers CID :
  let self := setUsers (setZones (init lvl) myZones) myUsers in
  getDescription self "" = Raise IndexError
  /\ (CID <> "" ->
      exists reply,
        getDescription self CID = Ok reply
        /\ reply <> "CID-003E Invalid input - unable to decode CID").
Proof.
  intros self. split; [reflexivity|]. intros Hne.
  assert (Hlvl : known_level (decodeLevel self)).
  { unfold self. rewrite setUsers_level, setZones_level. apply init_level. }
  destruct (getDescription self CID) as [reply|e] eqn:E.
  - exists reply. split; [reflexivity|]. intros ->. revert E.
    unfold getDescription, Py.index. destruct CID as [|c CID]; [contradiction|].
    cbn [String.get bind].
    destruct (CID_EventCodes !! _) as [rt|]; [|discriminate].
    destruct (agent_of_total self (rt.1.2) (Py.slice (String c CID) 6 9)) as [agent ->].
    cbn [bind]. intros E. apply (compose_first self _ _ _ _ _ _ Hlvl) in E.
    destruct E as (c0 & t & [= <- _] & [H|H]); discriminate.
  - apply getDescription_raises in E as [_ ->]. contradiction.
Qed.

(** The burglary code with custom zones. *)
Lemma getDescription_raises_only_on_empty_witness :
  exists reply,
    getDescription (setUsers (setZones (init "terse") {[ "003" := "Back door" ]}) ∅)
                   "1131010030" = Ok reply
    /\ reply <> "CID-003E Invalid input - unable to decode CID".
Proof.
  apply (proj2 (getDescription_raises_only_on_empty "terse" {[ "003" := "Back door" ]} ∅
                  "1131010030")).
  discriminate.
Defined.

End DecoderEdges.

Section Classifier.

Import DPM Config.

Lemma split_cons sep s : exists h t, Py.split sep s = h :: t.
Proof.
  induction s as [|c s (h & t & IH)]; cbn [Py.split]; [eauto|].
  destruct (Ascii.eqb c sep); [eauto|]. rewrite IH. eauto.
Qed.

Lemma split_two sep s :
  Py.mem_char sep s = true -> exists a b rest, Py.split sep s = a :: b :: rest.
Proof.
  induction s as [|c s IH]; cbn [Py.split Py.mem_char]; [discriminate|].
  rewrite Ascii.eqb_sym. destruct (Ascii.eqb c sep); cbn [orb].
  - intros _. destruct (split_cons sep s) as (h & t & ->). eauto.
  - intros H. destruct (IH H) as (a & b & rest & ->). eauto.
Qed.

Lemma keypad_fragment_total msg :
  exists frag, keypad_fragment msg = Ok frag /\ frag ∈ Py.split "!" msg.
Proof.
  unfold keypad_fragment. destruct (split_cons "!" msg) as (h & t & ->).
  exists h. split; [reflexivity|left].
Qed.

Lemma code_fragment_total msg :
  exists frag, code_fragment msg = Ok frag /\ frag ∈ Py.split "!" msg.
Proof.
  unfold code_fragment. rewrite (contains_char "!" msg).
  destruct (Py.mem_char "!" msg) eqn:E.
  - destruct (split_two _ _ E) as (a & b & rest & ->).
    exists b. split; [reflexivity|right; left].
  - destruct (split_cons "!" msg) as (h & t & ->).
    exists h. split; [reflexivity|left].
Qed.

Lemma lower_char_not_upper c :
  (let n := nat_of_ascii (Py.lower_char c) in (65 <=? n)%nat && (n <=? 90)%nat) = false.
Proof. destruct c as [[] [] [] [] [] [] [] []]; reflexivity. Qed.

Lemma has_upper_lower s : has_upper (Py.lower s) = false.
Proof.
  induction s as [|c s IH]; [reflexivity|].
  change (Py.lower (String c s)) with (String (Py.lower_char c) (Py.lower s)).
  cbn [has_upper]. rewrite IH, orb_false_r. apply lower_char_not_upper.
Qed.

Lemma has_upper_split sep s p :
  has_upper s = false -> p ∈ Py.split sep s -> has_upper p = false.
Proof.
  revert p. induction s as [|c s IH]; intros p; cbn [Py.split has_upper].
  - intros _ ->%list_elem_of_singleton. reflexivity.
  - intros [Hc Hs]%orb_false_elim. destruct (Ascii.eqb c sep).
    + intros [->|Hp]%elem_of_cons; [reflexivity|exact (IH p Hs Hp)].
    + destruct (split_cons sep s) as (h & t & E). rewrite E in IH |- *.
      intros [->|Hp]%elem_of_cons.
      * cbn [has_upper]. rewrite (IH h Hs (proj2 (elem_of_cons t h h) (or_introl eq_refl))), orb_false_r. exact Hc.
      * apply (IH p Hs). right. exact Hp.
Qed.

Lemma has_upper_prefix tok s :
  String.prefix tok s = true -> has_upper s = false -> has_upper tok = false.
Proof.
  revert s. induction tok as [|c tok IH]; intros s; [reflexivity|].
  destruct s as [|d s]; cbn [String.prefix has_upper]; [discriminate|].
  destruct (ascii_dec c d) as [->|_]; [|discriminate].
  intros Hp [Hd Hs]%orb_false_elim. rewrite (IH s Hp Hs), orb_false_r. exact Hd.
Qed.

Lemma has_upper_contains tok s :
  Py.contains tok s = true -> has_upper s = false -> has_upper tok = false.
Proof.
  induction s as [|d s IH]; cbn [Py.contains].
  - rewrite orb_false_r. apply has_upper_prefix.
  - intros [Hp|Hc]%orb_true_iff Hs; [exact (has_upper_prefix _ _ Hp Hs)|].
    apply IH; [exact Hc|]. cbn [has_upper] in Hs. apply orb_false_elim in Hs. tauto.
Qed.

(** A token with an uppercase letter is in no half of a lowercased
    message. *)
Lemma upper_token_unmatched tokens msg frag :
  (forall tok, tok ∈ tokens -> has_upper tok = true) ->
  frag ∈ Py.split "!" (Py.lower msg) ->
  existsb (fun tok => Py.contains tok frag) tokens = false.
Proof.
  intros Hup Hfrag. apply not_true_is_false. intros (tok & Hin & Hc)%existsb_exists.
  apply list_elem_of_In in Hin.
  pose proof (has_upper_split _ _ _ (has_upper_lower msg) Hfrag) as Hf.
  specialize (Hup tok Hin). rewrite (has_upper_contains _ _ Hc Hf) in Hup. discriminate.
Qed.

Lemma checkNonAlert_total cnf msg : exists b, checkNonAlert cnf msg = Ok b.
Proof.
  unfold checkNonAlert. destruct (code_fragment_total msg) as (frag & -> & _).
  cbn [bind]. eauto.
Qed.

Lemma checkRedAlert_total cnf msg : exists b, checkRedAlert cnf msg = Ok b.
Proof.
  unfold checkRedAlert. destruct (keypad_fragment_total msg) as (frag & -> & _).
  cbn [bind]. eauto.
Qed.

Lemma checkYellowAlert_total cnf msg : exists b, checkYellowAlert cnf msg = Ok b.
Proof.
  unfold checkYellowAlert. destruct (keypad_fragment_total msg) as (frag & -> & _).
  cbn [bind]. eauto.
Qed.

Lemma doAlerts_unfold env inetAlive msg doLowerCase s :
  doAlerts env inetAlive msg doLowerCase s
  = match checkNonAlert (cnf1 s) (Py.lower msg) with
    | Raise e => (Raise e, s)
    | Ok true => (Ok tt, s)
    | Ok false =>
        match checkRedAlert (cnf1 s) (if doLowerCase then Py.lower msg else msg) with
        | Raise e => (Raise e, s)
        | Ok true => callCellPhones env msg true false false s
        | Ok false =>
            match checkYellowAlert (cnf1 s)
                    (if doLowerCase then Py.lower msg else msg) with
            | Raise e => (Raise e, s)
            | Ok true =>
                if inetAlive then (Ok tt, s)
                else callCellPhones env msg false true false s
            | Ok false => (Ok tt, s)
            end
        end
    end.
Proof.
  unfold doAlerts, mbind, get, lift.
  destruct (checkNonAlert _ _) as [[|]|e]; try reflexivity.
  destruct (checkRedAlert _ _) as [[|]|e]; try reflexivity.
  destruct (checkYellowAlert _ _) as [[|]|e]; try reflexivity.
  destruct inetAlive; reflexivity.
Qed.

(** X12. The routing of [doAlerts], whatever the message and the state.
    A token of [NotTheseTokens] found (in lower case) in the decoded
    half of the lowercased message ends the call with nothing done,
    urgent tokens or not. Otherwise the call submits nothing but the
    message itself, either to the red roster or, and then only when the
    connectivity probe failed, to the yellow roster; a phone receives at
    most two submissions for each entry it has in that roster. *)
Theorem doAlerts_routing env inetAlive msg doLowerCase s :
  let r := doAlerts env inetAlive msg doLowerCase s in
  (forall frag tok,
      code_fragment (Py.lower msg) = Ok frag -> tok ∈ NotTheseTokens (cnf1 s) ->
      Py.contains (Py.lower tok) frag = true -> r = (Ok tt, s))
  /\ (sends_only msg (validRedAlertPhones (cnf1 s))
        (2 * length (validRedAlertPhones (cnf1 s)))
        (twice_each (validRedAlertPhones (cnf1 s))) s r.2
      \/ (inetAlive = false
          /\ sends_only msg (validYellowAlertPhones (cnf1 s))
               (2 * length (validYellowAlertPhones (cnf1 s)))
               (twice_each (validYellowAlertPhones (cnf1 s))) s r.2)).
Proof.
  intros r. subst r. rewrite doAlerts_unfold. split.
  - intros frag tok Hfrag Hin Hc. unfold checkNonAlert. rewrite Hfrag. cbn [bind].
    replace (existsb _ _) with true; [reflexivity|].
    symmetry. apply existsb_exists. exists tok. split; [apply list_elem_of_In, Hin|exact Hc].
  - assert (Hnone : sends_only msg (validRedAlertPhones (cnf1 s))
                      (2 * length (validRedAlertPhones (cnf1 s)))
                      (twice_each (validRedAlertPhones (cnf1 s))) s s).
    { eapply sends_only_weaken; [| |apply sends_only_refl];
        [lia|intros ph; unfold none_each; lia]. }
    destruct (checkNonAlert_total (cnf1 s) (Py.lower msg)) as [[|] ->];
      [left; exact Hnone|].
    destruct (checkRedAlert_total (cnf1 s) (if doLowerCase then Py.lower msg else msg))
      as [[|] ->].
    + left. apply (callCellPhones_within_roster env msg true false false s).
    + destruct (checkYellowAlert_total (cnf1 s) (if doLowerCase then Py.lower msg else msg))
        as [[|] ->]; [|left; exact Hnone].
      destruct inetAlive; [left; exact Hnone|right].
      split; [reflexivity|].
      apply (callCellPhones_within_roster env msg false true false s).
Qed.

(** A fire status with the periodic test report is no alert; a fire
    status with a fire alarm, while the serial port fails, is submitted
    twice to the phone of the red roster. *)
Lemma doAlerts_routing_witness :
  doAlerts ClassifierExamples.env false "FIRE ! Partition:01, Periodic test report" false
    ClassifierExamples.sys
  = (Ok tt, ClassifierExamples.sys)
  /\ (let r := doAlerts (ModemExamples.dpm_env ModemExamples.failing_env) false
                 "FIRE ! Partition:01, Fire alarm" false ClassifierExamples.sys in
      Modem.submitted (mdm1 r.2)
      = [("FIRE ! Partition:01, Fire alarm", "5550001");
         ("FIRE ! Partition:01, Fire alarm", "5550001")]
      /\ (sends_only "FIRE ! Partition:01, Fire alarm" ["5550001"] 2
            (twice_each ["5550001"]) ClassifierExamples.sys r.2
          \/ (false = false
              /\ sends_only "FIRE ! Partition:01, Fire alarm" ["5550002"] 2
                   (twice_each ["5550002"]) ClassifierExamples.sys r.2))).
Proof.
  split.
  - apply (proj1 (doAlerts_routing ClassifierExamples.env false
                    "FIRE ! Partition:01, Periodic test report" false ClassifierExamples.sys)
                 " partition:01, periodic test report" "Periodic Test").
    + reflexivity.
    + apply list_elem_of_singleton. reflexivity.
    + reflexivity.
  - split; [vm_compute; reflexivity|].
    exact (proj2 (doAlerts_routing (ModemExamples.dpm_env ModemExamples.failing_env) false
                    "FIRE ! Partition:01, Fire alarm" false ClassifierExamples.sys)).
Defined.

(** X13. The log path of the control loop calls [doAlerts] with the
    lowercase matching: the message is lowercased, the tokens of
    [UrgentTokens] and [ImportantTokens] are not. So when each of
    these tokens has an uppercase letter, that call does nothing,
    whatever the message. *)
Theorem doAlerts_lowercase_matching env inetAlive msg s :
  (forall tok, tok ∈ (UrgentTokens (cnf1 s) ++ ImportantTokens (cnf1 s))%list ->
               has_upper tok = true) ->
  doAlerts env inetAlive msg true s = (Ok tt, s).
Proof.
  intros Hup. rewrite doAlerts_unfold.
  destruct (checkNonAlert_total (cnf1 s) (Py.lower msg)) as [[|] ->]; [reflexivity|].
  unfold checkRedAlert, checkYellowAlert.
  destruct (keypad_fragment_total (Py.lower msg)) as (frag & Hfrag & Hin).
  rewrite Hfrag. cbn [bind].
  rewrite (upper_token_unmatched (UrgentTokens (cnf1 s)) msg frag);
    [|intros tok Ht; apply Hup, elem_of_app; left; exact Ht|exact Hin].
  rewrite (upper_token_unmatched (ImportantTokens (cnf1 s)) msg frag);
    [|intros tok Ht; apply Hup, elem_of_app; right; exact Ht|exact Hin].
  reflexivity.
Qed.

(** A fire found in the log while the internet is down: no SMS. *)
Lemma doAlerts_lowercase_matching_witness :
  doAlerts ClassifierExamples.env false "FIRE ! Partition:01, Fire alarm" true
    ClassifierExamples.sys
  = (Ok tt, ClassifierExamples.sys).
Proof.
  apply (doAlerts_lowercase_matching ClassifierExamples.env false
           "FIRE ! Partition:01, Fire alarm" ClassifierExamples.sys).
  intros tok [->%list_elem_of_singleton | ->%list_elem_of_singleton]%elem_of_app;
    reflexivity.
Defined.

End Classifier.

Section DaysToGo.

Import Calendar.

Lemma days_before_next_month y m :
  1 <= m <= 11 -> days_before_month y (m + 1) = days_before_month y m + days_in_month y m.
Proof.
  intros Hm.
  assert (m = 1 \/ m = 2 \/ m = 3 \/ m = 4 \/ m = 5 \/ m = 6 \/ m = 7 \/ m = 8 \/ m = 9
          \/ m = 10 \/ m = 11) as Hcases by lia.
  unfold days_before_month.
  repeat (destruct Hcases as [-> | Hcases]); try subst m;
    repeat match goal with
           | |- context [Z.to_nat ?e] =>
               let v := eval vm_compute in (Z.to_nat e) in change (Z.to_nat e) with v
           end;
    cbn [seq map fold_right];
    repeat match goal with
           | |- context [Z.of_nat ?e] =>
               let v := eval vm_compute in (Z.of_nat e) in change (Z.of_nat e) with v
           end;
    lia.
Qed.

Lemma days_before_december y : days_before_month y 12 = 334 + (if is_leap y then 1 else 0).
Proof.
  unfold days_before_month. change (Z.to_nat (12 - 1)) with 11%nat.
  cbn [seq map fold_right].
  repeat match goal with
         | |- context [Z.of_nat ?e] =>
             let v := eval vm_compute in (Z.of_nat e) in change (Z.of_nat e) with v
         end.
  unfold days_in_month. cbn [Z.eqb Pos.eqb orb]. destruct (is_leap y); lia.
Qed.

Lemma days_before_january y : days_before_month y 1 = 0.
Proof. reflexivity. Qed.

(** The days before the first of January of the next year. *)
Lemma toordinal_next_year y d r :
  toordinal (y + 1) 1 r - toordinal y 12 d = 31 - d + r.
Proof.
  unfold toordinal. rewrite days_before_december, days_before_january.
  replace (y + 1 - 1) with y by lia. cbv zeta.
  unfold is_leap.
  destruct (Z.eqb_spec (y mod 4) 0), (Z.eqb_spec (y mod 100) 0), (Z.eqb_spec (y mod 400) 0);
    cbn [andb orb negb]; Z.div_mod_to_equations; lia.
Qed.

Lemma toordinal_next_month y m d r :
  1 <= m <= 11 -> toordinal y (m + 1) r - toordinal y m d = days_in_month y m - d + r.
Proof.
  intros Hm. unfold toordinal. rewrite (days_before_next_month y m Hm). cbv zeta. lia.
Qed.

Lemma toordinal_same_month y m d r : toordinal y m r - toordinal y m d = r - d.
Proof. unfold toordinal. cbv zeta. lia. Qed.

Lemma days_between_dates a b : days_between (a * 86400) (b * 86400) = a - b.
Proof.
  unfold days_between. replace (a * 86400 - b * 86400) with ((a - b) * 86400) by lia.
  apply Z.div_mul. lia.
Qed.

(** X14. The days to the next renewal, as [optimizeSMS] computes them
    for an existing date and a renewal day from 1 to 28: after the
    renewal day of the month, what is left of the month plus the
    renewal day; before it, the difference of the two days; on the
    renewal day itself, 30. The result is always between 1 and 30. *)
Theorem days_to_go_range now r :
  valid_date (year now) (month now) (day now) = true ->
  year now < 9999 -> 1 <= r <= 28 ->
  exists n,
    DPM.days_to_go now r = Ok n
    /\ n = (if r <? day now then days_in_month (year now) (month now) - day now + r
            else if r =? day now then 30 else r - day now)
    /\ 1 <= n <= 30.
Proof.
  intros Hnow Hy Hr. unfold DPM.days_to_go.
  pose proof (valid_date_next_renewal _ _ _ _ Hnow Hy Hr) as Hnext.
  assert (Hdim : days_in_month (year now) (month now) <= 31).
  { unfold days_in_month.
    repeat match goal with |- context [if ?b then _ else _] => destruct b end; lia. }
  pose proof Hnow as Hv. unfold valid_date in Hv.
  rewrite !andb_true_iff, !Z.leb_le in Hv.
  revert Hnext. unfold DPM.next_renewal.
  destruct (Z.ltb_spec r (day now)) as [Hlt|Hge].
  - destruct (Z.eqb_spec (month now) 12) as [Hm|Hm]; intros Hnext;
      unfold strptime_date; rewrite Hnow, Hnext; cbn [bind]; rewrite days_between_dates.
    + rewrite Hm in *. rewrite toordinal_next_year.
      change (days_in_month (year now) 12) with 31 in *.
      eexists. split; [reflexivity|].
      destruct (Z.eqb_spec (Z.abs (31 - day now + r)) 0); lia.
    + rewrite toordinal_next_month by lia.
      eexists. split; [reflexivity|].
      destruct (Z.eqb_spec (Z.abs (days_in_month (year now) (month now) - day now + r)) 0);
        lia.
  - intros Hnext. unfold strptime_date. rewrite Hnow, Hnext. cbn [bind].
    rewrite days_between_dates, toordinal_same_month.
    eexists. split; [reflexivity|].
    destruct (Z.eqb_spec (Z.abs (r - day now)) 0), (Z.eqb_spec r (day now)); lia.
Qed.

(** The third of November with a renewal on the fifteenth: 12 days. *)
Lemma days_to_go_range_witness :
  exists n,
    DPM.days_to_go (Examples.noon 2026 11 3) 15 = Ok n
    /\ n = 12 /\ 1 <= n <= 30.
Proof.
  apply (days_to_go_range (Examples.noon 2026 11 3) 15); [reflexivity|reflexivity|lia].
Defined.

End DaysToGo.

Section PartitionStates.

Import Telnet.












End PartitionStates.

Section ContactIdFrame.

Import Telnet.

(** X16. The code of a Contact ID frame, from the socket to the decoder.
    A frame without a comma makes [doType03] raise [IndexError]. For
    any other frame, with no equals sign in its second field, the text
    [doType03] returns is split by [TPI] at the equals sign into two
    parts, and the second, which goes to the decoder, is the second
    field of the frame without its dollar signs at the ends. *)
Theorem doType03_code_recovered msg :
  (Py.mem_char "," msg = false -> doType03 msg = Raise IndexError)
  /\ (forall field,
         Py.nth_item (Py.split "," msg) 1 = Ok field -> Py.mem_char "=" field = false ->
         exists txt,
           doType03 msg = Ok txt
           /\ Py.split "=" txt = ["CID"; Py.strip "$" field]).
Proof.
  unfold doType03. split.
  - intros H. rewrite (split_no_sep _ _ H). reflexivity.
  - intros field -> Hfield. cbn [bind]. eexists. split; [reflexivity|].
    change ("CID=" +:+ Py.strip "$" field) with ("CID" +:+ String "=" (Py.strip "$" field)).
    rewrite split_app_sep by reflexivity.
    rewrite split_no_sep by (apply mem_char_strip, Hfield). reflexivity.
Qed.

(** The burglary frame. *)
Lemma doType03_code_recovered_witness :
  exists txt,
    doType03 "%03,1131010030$" = Ok txt /\ Py.split "=" txt = ["CID"; "1131010030"].
Proof.
  apply (proj2 (doType03_code_recovered "%03,1131010030$") "1131010030$");
    reflexivity.
Defined.

End ContactIdFrame.

Section RoundRobin.

Import PingOne.

Lemma numbered_size self : numbered self -> 1 <= Z.of_nat (size (pingers self)).
Proof.
  intros [Hne _]. destruct (size (pingers self)) eqn:E; [|lia].
  apply map_size_empty_inv in E. contradiction.
Qed.

Lemma getNextHostname_step self :
  numbered self -> in_round self ->
  exists host,
    getNextHostname self
    = (Ok host, {| pingerID := turn self 0; pingers := pingers self;
                   commands := commands self |})
    /\ pingers self !! turn self 0 = Some host
    /\ 1 <= turn self 0 <= Z.of_nat (size (pingers self)).
Proof.
  intros Hnum Hin. pose proof (numbered_size self Hnum) as Hn.
  destruct Hnum as [_ Hkeys]. unfold in_round in Hin.
  assert (Hid : (if Z.of_nat (size (pingers self)) <=? pingerID self then 1
                 else pingerID self + 1) = turn self 0).
  { unfold turn. rewrite Z.add_0_r.
    destruct (Z.leb_spec (Z.of_nat (size (pingers self))) (pingerID self)) as [Hge|Hlt].
    - replace (pingerID self) with (Z.of_nat (size (pingers self))) by lia.
      rewrite Z.mod_same by lia. reflexivity.
    - rewrite Z.mod_small by lia. reflexivity. }
  assert (Hrange : 1 <= turn self 0 <= Z.of_nat (size (pingers self))).
  { unfold turn. pose proof (Z.mod_pos_bound (pingerID self + Z.of_nat 0)
                               (Z.of_nat (size (pingers self)))). lia. }
  destruct (Hkeys _ Hrange) as [host Hhost]. exists host.
  split; [|split; assumption].
  unfold getNextHostname, mbind, get, modify, lift, getitem.
  cbn [pingerID pingers commands]. rewrite Hid, Hhost. reflexivity.
Qed.

Lemma turn_next self i :
  numbered self -> in_round self ->
  turn {| pingerID := turn self 0; pingers := pingers self; commands := commands self |} i
  = turn self (S i).
Proof.
  intros Hnum Hin. pose proof (numbered_size self Hnum) as Hn.
  unfold turn. cbn [pingerID pingers]. change (Z.of_nat 0) with 0. rewrite Z.add_0_r.
  f_equal.
  replace (pingerID self mod Z.of_nat (size (pingers self)) + 1 + Z.of_nat i)
    with (pingerID self mod Z.of_nat (size (pingers self)) + (1 + Z.of_nat i)) by lia.
  rewrite Zplus_mod_idemp_l. f_equal. lia.
Qed.

Lemma next_hostnames_spec k : forall self,
  numbered self -> in_round self ->
  exists hs self',
    next_hostnames k self = (Ok hs, self')
    /\ length hs = k
    /\ (forall i, (i < k)%nat -> hs !! i = pingers self !! turn self i)
    /\ pingers self' = pingers self /\ commands self' = commands self
    /\ in_round self'.
Proof.
  induction k as [|k IH]; intros self Hnum Hin.
  - exists [], self. split; [reflexivity|]. split; [reflexivity|].
    split; [intros i Hi; lia|]. split; [reflexivity|]. split; [reflexivity|exact Hin].
  - destruct (getNextHostname_step self Hnum Hin) as (host & Hstep & Hhost & Hrange).
    set (self1 := {| pingerID := turn self 0; pingers := pingers self;
                     commands := commands self |}) in *.
    assert (Hnum1 : numbered self1) by exact Hnum.
    assert (Hin1 : in_round self1) by (unfold in_round; cbn [pingerID pingers self1]; lia).
    destruct (IH self1 Hnum1 Hin1) as (hs & self' & Hrest & Hlen & Hnth & Hp & Hc & Hin').
    exists (host :: hs), self'.
    split; [cbn [next_hostnames]; unfold mbind at 1; rewrite Hstep;
            unfold mbind at 1; rewrite Hrest; reflexivity|].
    split; [cbn; lia|]. split; [|split; [exact Hp|split; [exact Hc|exact Hin']]].
    intros [|i] Hi; [cbn; symmetry; exact Hhost|].
    change ((host :: hs) !! S i) with (hs !! i). rewrite (Hnth i) by lia.
    unfold self1. rewrite (turn_next self i Hnum Hin). reflexivity.
Qed.

(** X17. The round-robin of [getNextHostname]. With hosts numbered from
    1 to [n] (as the default six are) and an identifier from 0 to [n],
    any number of successive calls return without an exception, and the
    call of rank [i] (from 0) returns the host numbered
    [(pingerID + i) mod n + 1]: the hosts are taken in turn, and after
    the last one comes the first. With no host at all, the call raises
    [KeyError]. *)
Theorem getNextHostname_round_robin k self :
  (numbered self -> in_round self ->
   exists hs self',
     next_hostnames k self = (Ok hs, self')
     /\ length hs = k
     /\ forall i, (i < k)%nat -> hs !! i = pingers self !! turn self i)
  /\ (pingers self = ∅ -> (getNextHostname self).1 = Raise KeyError).
Proof.
  split.
  - intros Hnum Hin.
    destruct (next_hostnames_spec k self Hnum Hin) as (hs & self' & H & Hlen & Hnth & _).
    exists hs, self'. repeat split; assumption.
  - intros Hempty. unfold getNextHostname, mbind, get, modify, lift, getitem.
    cbn [pingers fst]. rewrite Hempty, lookup_empty. reflexivity.
Qed.

Lemma init_numbered : numbered init.
Proof.
  split; [discriminate|]. intros k Hk. change (size (pingers init)) with 6%nat in Hk.
  assert (k = 1 \/ k = 2 \/ k = 3 \/ k = 4 \/ k = 5 \/ k = 6) as Hcases by lia.
  repeat (destruct Hcases as [-> | Hcases]); try subst k; eexists; reflexivity.
Qed.

Lemma init_in_round : in_round init.
Proof. unfold in_round. change (size (pingers init)) with 6%nat. cbn. lia. Qed.

(** Eight calls on a new object. *)
Lemma getNextHostname_round_robin_witness :
  exists hs self',
    next_hostnames 8 init = (Ok hs, self')
    /\ length hs = 8%nat
    /\ forall i, (i < 8)%nat -> hs !! i = pingers init !! turn init i.
Proof.
  apply (proj1 (getNextHostname_round_robin 8 init) init_numbered init_in_round).
Defined.




End RoundRobin.

Section StupefyFacts.

Import Stupefy.

Lemma length_reverse_onto s : forall acc,
  String.length (reverse_onto s acc) = (String.length s + String.length acc)%nat.
Proof.
  induction s as [|c s IH]; intros acc; [reflexivity|].
  cbn [reverse_onto]. rewrite IH. cbn [String.length]. lia.
Qed.

Lemma length_reversed s : String.length (reversed s) = String.length s.
Proof. unfold reversed. rewrite length_reverse_onto. cbn. lia. Qed.

Lemma length_append (a b : string) :
  String.length (a +:+ b) = (String.length a + String.length b)%nat.
Proof. induction a as [|c a IH]; [reflexivity|]. rewrite app_cons. cbn. rewrite IH. reflexivity. Qed.

Lemma length_substring s : forall n m,
  String.length (String.substring n m s) = Nat.min m (String.length s - n).
Proof.
  induction s as [|c s IH]; intros n m.
  - destruct n, m; reflexivity.
  - destruct n as [|n]; cbn [String.substring String.length].
    + destruct m as [|m]; [reflexivity|]. cbn [String.length]. rewrite IH. lia.
    + rewrite IH. reflexivity.
Qed.

Lemma length_last_chars n s :
  (0 < n)%nat -> String.length (last_chars n s) = Nat.min n (String.length s).
Proof.
  intros Hn. unfold last_chars. destruct (Nat.eqb_spec n 0) as [|_]; [lia|].
  rewrite length_substring. lia.
Qed.

Lemma concat_fits lim a b :
  Z.of_nat (String.length a) + Z.of_nat (String.length b) <= longest lim ->
  concat lim a b = Ok (a +:+ b).
Proof.
  unfold longest, concat. intros H.
  destruct (Z.ltb_spec (ssize_max lim)
              (Z.of_nat (String.length a) + Z.of_nat (String.length b))); [lia|].
  destruct (Z.ltb_spec (capacity lim)
              (Z.of_nat (String.length a) + Z.of_nat (String.length b))); [lia|].
  reflexivity.
Qed.

Lemma concat_too_long lim a b :
  longest lim < Z.of_nat (String.length a) + Z.of_nat (String.length b) ->
  concat lim a b = Raise OverflowError \/ concat lim a b = Raise MemoryError.
Proof.
  unfold longest, concat. intros H.
  destruct (Z.ltb_spec (ssize_max lim)
              (Z.of_nat (String.length a) + Z.of_nat (String.length b))); [left; reflexivity|].
  destruct (Z.ltb_spec (capacity lim)
              (Z.of_nat (String.length a) + Z.of_nat (String.length b))); [right; reflexivity|].
  lia.
Qed.

(** The doublings succeed when the last of them fits. *)
Lemma doubled_fits lim r : forall s,
  r = 0%nat \/ Z.of_nat (String.length s) * 2 ^ Z.of_nat r <= longest lim ->
  exists t, doubled lim r s = Ok t
            /\ Z.of_nat (String.length t) = Z.of_nat (String.length s) * 2 ^ Z.of_nat r.
Proof.
  induction r as [|r IH]; intros s H.
  - exists s. split; [reflexivity|]. change (Z.of_nat 0) with 0. lia.
  - destruct H as [H|H]; [discriminate|].
    rewrite Nat2Z.inj_succ, Z.pow_succ_r in H by lia.
    assert (Hpow : 0 < 2 ^ Z.of_nat r) by (apply Z.pow_pos_nonneg; lia).
    cbn [doubled]. rewrite concat_fits by nia. cbn [bind].
    destruct (IH (s +:+ s)) as (t & Ht & Hlen).
    { right. rewrite length_append. nia. }
    exists t. split; [exact Ht|].
    rewrite Hlen, length_append, Nat2Z.inj_succ, Z.pow_succ_r by lia. nia.
Qed.

(** They fail when it does not. *)
Lemma doubled_too_long lim r : forall s,
  (0 < r)%nat -> longest lim < Z.of_nat (String.length s) * 2 ^ Z.of_nat r ->
  doubled lim r s = Raise OverflowError \/ doubled lim r s = Raise MemoryError.
Proof.
  induction r as [|r IH]; intros s Hr H; [lia|].
  rewrite Nat2Z.inj_succ, Z.pow_succ_r in H by lia.
  cbn [doubled].
  destruct (Z.le_gt_cases (Z.of_nat (String.length s) + Z.of_nat (String.length s))
              (longest lim)) as [Hfit|Hlong].
  - rewrite concat_fits by exact Hfit. cbn [bind].
    destruct r as [|r]; [change (2 ^ Z.of_nat 0) with 1 in H; lia|].
    apply IH; [lia|]. rewrite length_append. nia.
  - destruct (concat_too_long lim s s) as [-> | ->]; [lia|left|right]; reflexivity.
Qed.

Lemma xor_char_value a b :
  N_of_ascii (xor_char a b) = N.lxor (N_of_ascii a) (N_of_ascii b).
Proof.
  unfold xor_char. apply N_ascii_embedding.
  pose proof (N_ascii_bounded a) as Ha. pose proof (N_ascii_bounded b) as Hb.
  destruct (N.eq_dec (N.lxor (N_of_ascii a) (N_of_ascii b)) 0%N) as [->|Hne]; [lia|].
  change 256%N with (2 ^ 8)%N. apply N.log2_lt_pow2; [lia|].
  pose proof (N.log2_lxor (N_of_ascii a) (N_of_ascii b)) as Hl.
  assert (Hla : (N.log2 (N_of_ascii a) < 8)%N).
  { destruct (N.eq_dec (N_of_ascii a) 0%N) as [->|Hz]; [cbn; lia|].
    apply N.log2_lt_pow2; [lia|exact Ha]. }
  assert (Hlb : (N.log2 (N_of_ascii b) < 8)%N).
  { destruct (N.eq_dec (N_of_ascii b) 0%N) as [->|Hz]; [cbn; lia|].
    apply N.log2_lt_pow2; [lia|exact Hb]. }
  lia.
Qed.

Lemma xor_char_twice a b : xor_char (xor_char a b) b = a.
Proof.
  unfold xor_char at 1. rewrite xor_char_value.
  rewrite N.lxor_assoc, N.lxor_nilpotent, N.lxor_0_r. apply ascii_N_embedding.
Qed.

Lemma sxor_covered pw : forall key,
  (String.length pw <= String.length key)%nat ->
  String.length (sxor pw key) = String.length pw /\ sxor (sxor pw key) key = pw.
Proof.
  induction pw as [|a pw IH]; intros key Hlen; [split; reflexivity|].
  destruct key as [|b key]; [cbn in Hlen; lia|].
  cbn [String.length] in Hlen. destruct (IH key ltac:(lia)) as [Hl Hx].
  cbn [sxor String.length]. rewrite Hl, Hx, xor_char_twice. split; reflexivity.
Qed.

Lemma doublings_cover_all :
  forallb doublings_cover (seq 1 8) = true.
Proof. vm_compute. reflexivity. Qed.

Lemma repeat_count_covers lenpw lenkey :
  (1 <= lenkey <= 8)%nat -> (lenpw <= MAX_PASSWORD)%nat ->
  repeat_count (Z.of_nat lenpw) (Z.of_nat lenkey)
  = Ok (doublings (Z.of_nat lenpw) (Z.of_nat lenkey))
  /\ 0 <= doublings (Z.of_nat lenpw) (Z.of_nat lenkey)
  /\ Z.of_nat lenpw
     <= Z.of_nat lenkey * 2 ^ doublings (Z.of_nat lenpw) (Z.of_nat lenkey).
Proof.
  intros Hk Hp. pose proof doublings_cover_all as H.
  rewrite forallb_forall in H. specialize (H lenkey).
  assert (Hin : In lenkey (seq 1 8)) by (apply in_seq; lia).
  specialize (H Hin). unfold doublings_cover in H. rewrite forallb_forall in H.
  specialize (H lenpw). assert (Hin' : In lenpw (seq 0 (S MAX_PASSWORD))) by (apply in_seq; lia).
  specialize (H Hin').
  destruct (repeat_count _ _) as [r|e]; [|discriminate].
  apply andb_true_iff in H as [H0 H1].
  apply Z.eqb_eq in H0. subst r. apply Z.leb_le in H1.
  split; [reflexivity|]. split; [|exact H1].
  unfold doublings. destruct (_ <? _); [|lia]. apply Z.div_pos; lia.
Qed.

(** The key depends on the length of the password only. *)
Lemma generateKey_length lim pw pw' serial :
  String.length pw' = String.length pw ->
  generateKey lim pw' serial = generateKey lim pw serial.
Proof. intros Hlen. unfold generateKey. rewrite Hlen. reflexivity. Qed.

(** The key covers the password when the doublings fit. *)
Lemma generateKey_covers lim pw serial :
  (1 <= String.length serial <= 8)%nat -> (String.length pw <= MAX_PASSWORD)%nat ->
  let r := doublings (Z.of_nat (String.length pw)) (Z.of_nat (String.length serial)) in
  r = 0 \/ Z.of_nat (String.length serial) * 2 ^ r <= longest lim ->
  exists key,
    generateKey lim pw serial = Ok key
    /\ (String.length pw <= String.length key)%nat.
Proof.
  intros Hk Hp r Hfit. destruct (repeat_count_covers _ _ Hk Hp) as (Hr & Hr0 & Hcover).
  fold r in Hr, Hr0, Hcover.
  unfold generateKey. rewrite Hr. cbn [bind].
  destruct (doubled_fits lim (Z.to_nat r) serial) as (t & Ht & Hlen).
  { destruct Hfit as [->|Hfit]; [left; reflexivity|right].
    rewrite Z2Nat.id by exact Hr0. exact Hfit. }
  rewrite Ht. cbn [bind]. eexists. split; [reflexivity|].
  rewrite Z2Nat.id in Hlen by exact Hr0.
  rewrite length_reversed. destruct (String.length pw) as [|n] eqn:E; [lia|].
  rewrite length_last_chars by lia. lia.
Qed.

(** No key is returned when they do not. *)
Lemma generateKey_too_long lim pw serial :
  (1 <= String.length serial <= 8)%nat -> (String.length pw <= MAX_PASSWORD)%nat ->
  let r := doublings (Z.of_nat (String.length pw)) (Z.of_nat (String.length serial)) in
  0 < r -> longest lim < Z.of_nat (String.length serial) * 2 ^ r ->
  generateKey lim pw serial = Raise OverflowError
  \/ generateKey lim pw serial = Raise MemoryError.
Proof.
  intros Hk Hp r Hr Hlong. destruct (repeat_count_covers _ _ Hk Hp) as (Hrc & _ & _).
  fold r in Hrc. unfold generateKey. rewrite Hrc. cbn [bind].
  destruct (doubled_too_long lim (Z.to_nat r) serial) as [-> | ->];
    [lia|rewrite Z2Nat.id by lia; exact Hlong|left|right]; reflexivity.
Qed.

End StupefyFacts.

Section StupefyClaims.

Import Stupefy.

Lemma prefix_split sub : forall s,
  String.prefix sub s = true -> exists post, s = sub +:+ post.
Proof.
  induction sub as [|c sub IH]; intros s; [exists s; reflexivity|].
  destruct s as [|d s]; cbn [String.prefix]; [discriminate|].
  destruct (ascii_dec c d) as [->|_]; [|discriminate].
  intros [post ->]%IH. exists post. reflexivity.
Qed.

Lemma contains_split sub s :
  Py.contains sub s = true -> exists pre post, s = pre +:+ sub +:+ post.
Proof.
  induction s as [|d s IH]; cbn [Py.contains].
  - rewrite orb_false_r. intros [post ->]%prefix_split. exists "", post. reflexivity.
  - intros [[post ->]%prefix_split | (pre & post & ->)%IH]%orb_true_iff.
    + exists "", post. reflexivity.
    + exists (String d pre), post. reflexivity.
Qed.

(** A line with the word and a colon has seven characters at least. *)
Lemma serial_line_length line :
  Py.contains "serial" line = true -> Py.contains ":" line = true ->
  (7 <= String.length line)%nat.
Proof.
  intros (pre & post & ->)%contains_split Hcolon.
  rewrite !length_append. change (String.length "serial") with 6%nat.
  destruct pre as [|c pre]; [|cbn [String.length]; lia].
  destruct post as [|c post]; [discriminate Hcolon|cbn [String.length]; lia].
Qed.

Lemma cpuserial_of_length lines : forall serial0,
  serial0 = "" \/ (7 <= String.length serial0 <= 8)%nat ->
  let serial := fold_left (fun cpuserial line =>
                             let line := Py.strip_ws (Py.lower line) in
                             if Py.contains "serial" line && Py.contains ":" line
                             then last_chars 8 line else cpuserial)
                          lines serial0 in
  serial = "" \/ (7 <= String.length serial <= 8)%nat.
Proof.
  induction lines as [|line lines IH]; intros serial0 H0; [exact H0|].
  cbn [fold_left]. apply IH. cbv zeta.
  destruct (Py.contains "serial" _) eqn:E1; [|exact H0].
  destruct (Py.contains ":" _) eqn:E2; [|exact H0].
  cbn [andb]. right. rewrite length_last_chars by lia.
  pose proof (serial_line_length _ E1 E2). lia.
Qed.

(** X19. The serial the constructor of [Stupefy] keeps has seven or
    eight characters: when the constructor does not exit, the key
    material is never empty, and [generateKey] divides by its length. *)
Theorem init_serial_length cpuinfo serial :
  init cpuinfo = Some serial -> (7 <= String.length serial <= 8)%nat.
Proof.
  unfold init. destruct cpuinfo as [lines|]; [|discriminate].
  pose proof (cpuserial_of_length lines "" (or_introl eq_refl)) as H.
  cbv zeta in H. fold (cpuserial_of lines) in H.
  destruct (String.eqb_spec (cpuserial_of lines) "") as [E|E]; [discriminate|].
  intros [= <-]. destruct H as [H|H]; [contradiction|exact H].
Qed.

Lemma init_serial_length_witness : (7 <= String.length "a1b2c3d4" <= 8)%nat.
Proof.
  apply (init_serial_length (Some StupefyExamples.cpuinfo) "a1b2c3d4"). reflexivity.
Defined.

(** X20. The protection of a password is undone by the same key, when
    the interpreter can build the key. For a serial of one to eight
    characters and a password of up to 256, [generateKey] doubles the
    serial as many times as the quotient of the two lengths (not at all
    when the password is no longer than the serial). When the string
    these doublings produce is within the limits of the interpreter,
    [generateKey] returns a key that covers the password; the exclusive
    OR of the password with it has the length of the password, so the key
    generated for the protected text is the same key; and the exclusive
    OR of the protected text with it is the password. (The two methods
    [doStupefy] and [undoStupefy] apply these two steps around [repr]
    and [eval].) When that string is beyond the limits, [generateKey]
    raises [OverflowError] or [MemoryError] and nothing is protected. *)
Theorem stupefy_round_trip lim pw serial :
  (1 <= String.length serial <= 8)%nat -> (String.length pw <= MAX_PASSWORD)%nat ->
  let r := doublings (Z.of_nat (String.length pw)) (Z.of_nat (String.length serial)) in
  repeat_count (Z.of_nat (String.length pw)) (Z.of_nat (String.length serial)) = Ok r
  /\ (r = 0 \/ Z.of_nat (String.length serial) * 2 ^ r <= longest lim ->
      exists key,
        generateKey lim pw serial = Ok key
        /\ String.length (sxor pw key) = String.length pw
        /\ generateKey lim (sxor pw key) serial = Ok key
        /\ sxor (sxor pw key) key = pw)
  /\ (0 < r -> longest lim < Z.of_nat (String.length serial) * 2 ^ r ->
      generateKey lim pw serial = Raise OverflowError
      \/ generateKey lim pw serial = Raise MemoryError).
Proof.
  intros Hk Hp r. split; [apply repeat_count_covers; assumption|]. split.
  - intros Hfit.
    destruct (generateKey_covers lim pw serial Hk Hp Hfit) as (key & Hkey & Hlen).
    destruct (sxor_covered pw key Hlen) as [Hl Hx].
    exists key. split; [exact Hkey|]. split; [exact Hl|].
    split; [rewrite (generateKey_length lim pw _ serial Hl); exact Hkey|exact Hx].
  - apply generateKey_too_long; assumption.
Qed.

(** A password of twelve characters needs one doubling, to sixteen
    characters; one of 256 characters needs 32 doublings, to [2 ^ 35]
    characters, which an interpreter with room for [2 ^ 32] characters
    cannot build. *)
Lemma stupefy_round_trip_witness :
  (exists key,
      generateKey StupefyExamples.limits "open sesame!" "a1b2c3d4" = Ok key
      /\ String.length (sxor "open sesame!" key) = 12%nat
      /\ generateKey StupefyExamples.limits (sxor "open sesame!" key) "a1b2c3d4" = Ok key
      /\ sxor (sxor "open sesame!" key) key = "open sesame!")
  /\ (generateKey StupefyExamples.limits StupefyExamples.long_password "a1b2c3d4"
      = Raise OverflowError
      \/ generateKey StupefyExamples.limits StupefyExamples.long_password "a1b2c3d4"
         = Raise MemoryError).
Proof.
  split.
  - pose proof (stupefy_round_trip StupefyExamples.limits "open sesame!" "a1b2c3d4")
      as H.
    destruct H as (_ & Hok & _).
    + cbn. lia.
    + cbn. unfold MAX_PASSWORD. lia.
    + apply Hok. right. vm_compute. discriminate.
  - pose proof (stupefy_round_trip StupefyExamples.limits StupefyExamples.long_password
                  "a1b2c3d4") as H.
    destruct H as (_ & _ & Hfail).
    + cbn. lia.
    + vm_compute. lia.
    + apply Hfail; vm_compute; reflexivity.
Defined.

End StupefyClaims.

Section PhoneValidation.

Import ConfigPhones.

Lemma replace_char_without (c : ascii) s :
  Py.replace (String c "") "" s = without (String c "") s.
Proof.
  unfold Py.replace. induction s as [|d s IH]; [reflexivity|].
  cbn [Py.replace_go without Py.mem_char]. rewrite prefix_char, orb_false_r.
  destruct (Ascii.eqb_spec c d) as [->|Hne].
  - rewrite Ascii.eqb_refl, app_nil. exact IH.
  - destruct (Ascii.eqb_spec d c) as [->|_]; [contradiction|].
    f_equal. exact IH.
Qed.

Lemma without_three s :
  without "+" (without "-" (without " " s)) = without " -+" s.
Proof.
  induction s as [|d s IH]; [reflexivity|].
  cbn [without Py.mem_char]. rewrite !orb_false_r.
  destruct (Ascii.eqb d " ") eqn:E1; cbn [orb]; [exact IH|].
  cbn [without Py.mem_char]. rewrite orb_false_r.
  destruct (Ascii.eqb d "-") eqn:E2; cbn [orb]; [exact IH|].
  cbn [without Py.mem_char]. rewrite orb_false_r.
  destruct (Ascii.eqb d "+") eqn:E3; cbn [orb]; [exact IH|].
  rewrite IH. reflexivity.
Qed.

Lemma check_one_spec entry :
  check_one entry
  = if isnumeric (without " -+" entry) then [dialled entry] else [].
Proof.
  unfold check_one, dialled. rewrite !replace_char_without, without_three, contains_char.
  reflexivity.
Qed.

(** X21. The validation of a roster of phones. A phone is in the list a
    check returns exactly when it is the kept form of one of the
    comma-separated entries of the option: the entry without its spaces,
    dashes and plus signs, which must leave at least one character, all
    of them numeric, preceded by one plus sign when the entry has a plus
    sign anywhere. An option that is absent or empty gives no phone. *)
Theorem checkCellPhones_validated option_value ph :
  ph ∈ checkCellPhones option_value
  <-> exists phones entry,
        option_value = Some phones /\ entry ∈ Py.split "," phones
        /\ isnumeric (without " -+" entry) = true /\ ph = dialled entry.
Proof.
  unfold checkCellPhones. split.
  - destruct option_value as [phones|]; [|intros H; apply elem_of_nil in H; contradiction].
    destruct (negb (String.eqb phones "")); [|intros H; apply elem_of_nil in H; contradiction].
    intros (entry & Hin & Hone)%list_elem_of_In%in_flat_map.
    rewrite check_one_spec in Hone.
    destruct (isnumeric (without " -+" entry)) eqn:E; [|contradiction].
    destruct Hone as [<-|[]]. exists phones, entry.
    split; [reflexivity|]. split; [apply list_elem_of_In, Hin|]. split; [exact E|reflexivity].
  - intros (phones & entry & -> & Hin & Hnum & ->).
    destruct (String.eqb_spec phones "") as [->|_]; cbn [negb].
    + apply list_elem_of_singleton in Hin. subst entry. discriminate Hnum.
    + apply list_elem_of_In, in_flat_map. exists entry.
      split; [apply list_elem_of_In, Hin|]. rewrite check_one_spec, Hnum. left. reflexivity.
Qed.

(** A plus sign in the middle of an entry goes to the front. *)
Lemma checkCellPhones_validated_witness :
  "+9990001212" ∈ checkCellPhones (Some "555-0100, 999+000 1212,home").
Proof.
  apply (proj2 (checkCellPhones_validated (Some "555-0100, 999+000 1212,home")
                  "+9990001212")).
  exists "555-0100, 999+000 1212,home", " 999+000 1212".
  split; [reflexivity|]. split; [|split; reflexivity].
  right. left.
Defined.

End PhoneValidation.

Section CurrentStatus.

Import Telnet TelnetStatus.

Lemma grows_ret {A} (a : A) : grows (ret a).
Proof. intros tel. split; [tauto|reflexivity]. Qed.

Lemma grows_lift {A} (r : result A) : grows (lift r).
Proof. intros tel. split; [tauto|reflexivity]. Qed.

Lemma grows_get : grows get.
Proof. intros tel. split; [tauto|reflexivity]. Qed.

Lemma grows_bind {A B} (m : M TelnetEVL4 A) (k : A -> M TelnetEVL4 B) :
  grows m -> (forall a, grows (k a)) -> grows (mbind m k).
Proof.
  intros Hm Hk tel. specialize (Hm tel). unfold mbind.
  destruct (m tel) as [[a|e] tel1]; cbn [snd] in *; [|exact Hm].
  specialize (Hk a tel1). cbv zeta in Hk. destruct Hm as [Hp Hs], Hk as [Hp' Hs'].
  split; [tauto|lia].
Qed.

Lemma grows_store name ts v : grows (store name ts v).
Proof.
  intros tel. unfold store.
  destruct (recentMsgs tel !! name) as [h|] eqn:E; cbn [snd recentMsgs];
    [|split; [tauto|reflexivity]].
  split; [apply histories_present_insert|].
  destruct (decide (name = "msg00txt")) as [->|Hne].
  - rewrite history_insert_eq. unfold history. rewrite E. simpl.
    destruct (h !! ts) as [v0|] eqn:Ets.
    + rewrite map_size_insert_Some by eauto. reflexivity.
    + rewrite map_size_insert_None by exact Ets. lia.
  - rewrite history_insert_ne by exact Hne. reflexivity.
Qed.

Lemma grows_store_decoded tt_ decode ts msg : grows (store_decoded tt_ decode ts msg).
Proof.
  unfold store_decoded.
  apply grows_bind; [apply grows_store|intros _].
  apply grows_bind; [apply grows_lift|intros txt].
  apply grows_bind; [apply grows_store|intros _]. apply grows_store.
Qed.

Lemma grows_receive env : grows (receive env).
Proof.
  unfold receive. apply grows_bind; [apply grows_get|intros self].
  apply grows_bind; [apply grows_lift|intros raw]. cbv zeta.
  repeat match goal with
         | |- grows (if ?b then _ else _) => destruct b
         end;
    first [apply grows_ret | apply grows_store | apply grows_store_decoded].
Qed.

Lemma grows_try_except {A} (body handler : M TelnetEVL4 A) :
  grows body -> grows handler -> grows (try_except body handler).
Proof.
  intros Hb Hh tel. specialize (Hb tel). unfold try_except.
  destruct (body tel) as [[a|e] tel1]; cbn [snd] in *; [exact Hb|].
  specialize (Hh tel1). cbv zeta in Hh. destruct Hb as [Hp Hs], Hh as [Hp' Hs'].
  split; [tauto|lia].
Qed.

Lemma grows_doReconnect env : grows (doReconnect env).
Proof. intros tel. split; [tauto|reflexivity]. Qed.

(** One call of [getNextMessage], seen from the keypad history. *)
Lemma getNextMessage_keypad env tel :
  histories_present (recentMsgs tel) ->
  exists tel',
    getNextMessage env tel = (Ok (recentMsgs tel'), tel')
    /\ histories_present (recentMsgs tel')
    /\ (size (history (recentMsgs tel') "msg00txt") <= 2)%nat
    /\ ((2 <= size (history (recentMsgs tel) "msg00txt"))%nat ->
        (2 <= size (history (recentMsgs tel') "msg00txt"))%nat).
Proof.
  intros Hp. unfold getNextMessage, mbind.
  pose proof (grows_try_except _ _ (grows_receive env) (grows_doReconnect env) tel) as Hg.
  destruct (try_except_reconnect env tel) as [tel1 E]. rewrite E in *. cbn [snd] in Hg.
  destruct Hg as [Hp1 Hs1]. specialize (Hp1 Hp).
  unfold pruneAll, modify, get, ret.
  eexists. split; [reflexivity|]. cbn [recentMsgs].
  split; [apply histories_present_pruned, Hp1|].
  rewrite history_pruned. unfold prune. rewrite size_pruned_exact.
  unfold MAX_HISTORY. split; lia.
Qed.

(** One reading, on histories the constructor built. *)
Lemma read_status_view msg tel :
  histories_present (recentMsgs tel) ->
  (msg = None \/ (2 <= size (history (recentMsgs tel) "msg00txt"))%nat) ->
  exists r, read_status msg tel = (Ok r, tel) /\ keypad_view (recentMsgs tel) r.
Proof.
  intros Hp Hinv. unfold read_status, mbind, get, lift, getitem.
  assert (Hin : "msg00txt" ∈ history_names) by (unfold history_names; right; left).
  destruct (Hp _ Hin) as [h Hh]. rewrite Hh.
  assert (Hhist : history (recentMsgs tel) "msg00txt" = h)
    by (unfold history; rewrite Hh; reflexivity).
  unfold keypad_view. rewrite Hhist in *.
  assert (Hlen : length (sorted_keys_desc h) = size h).
  { unfold sorted_keys_desc. rewrite length_reverse. apply length_sorted_keys. }
  destruct (Nat.ltb_spec 1 (length (sorted_keys_desc h))) as [Hgt|Hle].
  - destruct (sorted_keys_desc h) as [|k0 rest] eqn:Ek; [cbn in Hgt; lia|].
    pose proof (sorted_keys_desc_head h k0 rest Ek) as Hlatest.
    cbn [Py.nth_item lookup list_lookup]. unfold Py.nth_item. cbn [lookup list_lookup].
    destruct Hlatest as [[m Hm] Hmax]. rewrite Hm. unfold ret.
    exists (Some m). split; [reflexivity|].
    exists k0. split; [split; [eauto|exact Hmax]|]. split; [exact Hm|lia].
  - unfold ret. exists msg. split; [reflexivity|].
    destruct Hinv as [Hnone|Hinv]; [subst msg; lia|lia].
Qed.

Lemma keypad_view_inv msgs r :
  keypad_view msgs r -> r = None \/ (2 <= size (history msgs "msg00txt"))%nat.
Proof. destruct r as [m|]; [intros (k & _ & _ & H); right; exact H|left; reflexivity]. Qed.

Lemma status_loop_view worlds : forall msg1 msg2 tel,
  worlds <> [] -> histories_present (recentMsgs tel) ->
  (msg1 = None \/ (2 <= size (history (recentMsgs tel) "msg00txt"))%nat) ->
  (msg2 = None \/ (2 <= size (history (recentMsgs tel) "msg00txt"))%nat) ->
  exists r tel',
    status_loop worlds msg1 msg2 tel = (Ok r, tel')
    /\ histories_present (recentMsgs tel') /\ keypad_view (recentMsgs tel') r.
Proof.
  induction worlds as [|[env1 env2] worlds IH]; intros msg1 msg2 tel Hne Hp H1 H2;
    [contradiction|].
  cbn [status_loop].
  destruct (getNextMessage_keypad env1 tel Hp) as (tel1 & E1 & Hp1 & _ & Hmono1).
  unfold mbind at 1. rewrite E1.
  destruct (read_status_view msg1 tel1 Hp1) as (r1 & Er1 & Hv1);
    [destruct H1 as [->|H1]; [left; reflexivity|right; apply Hmono1, H1]|].
  unfold mbind at 1. rewrite Er1.
  destruct (getNextMessage_keypad env2 tel1 Hp1) as (tel2 & E2 & Hp2 & _ & Hmono2).
  unfold mbind at 1. rewrite E2.
  destruct (read_status_view msg2 tel2 Hp2) as (r2 & Er2 & Hv2);
    [destruct H2 as [->|H2]; [left; reflexivity|right; apply Hmono2, Hmono1, H2]|].
  unfold mbind at 1. rewrite Er2.
  destruct (consistent r1 r2).
  - exists r2, tel2. split; [reflexivity|]. split; assumption.
  - destruct worlds as [|w worlds'].
    + exists r2, tel2. split; [reflexivity|]. split; assumption.
    + apply IH; [discriminate|exact Hp2| |exact (keypad_view_inv _ _ Hv2)].
      destruct (keypad_view_inv _ _ Hv1) as [->|H]; [left; reflexivity|right; apply Hmono2, H].
Qed.

(** X22. The status [getCurrentStatus] returns. On an engine that holds
    the histories of the constructor, whatever the socket delivers
    during the call, the call returns without an exception, and what it
    returns is read off the keypad history it leaves: the text under
    the most recent key when that history holds two entries, and [None]
    when it holds fewer than two, even if it holds one. *)
Theorem getCurrentStatus_reads_latest world tel :
  histories_present (recentMsgs tel) ->
  exists r tel',
    getCurrentStatus world tel = (Ok r, tel')
    /\ histories_present (recentMsgs tel')
    /\ keypad_view (recentMsgs tel') r.
Proof.
  intros Hp. unfold getCurrentStatus.
  apply status_loop_view; [discriminate|exact Hp|left; reflexivity|left; reflexivity].
Qed.

(** A new engine and a keypad that repeats its status. *)
Lemma getCurrentStatus_reads_latest_witness :
  exists r tel',
    getCurrentStatus StatusExamples.steady AlertExamples.connected = (Ok r, tel')
    /\ histories_present (recentMsgs tel')
    /\ keypad_view (recentMsgs tel') r.
Proof.
  apply (getCurrentStatus_reads_latest StatusExamples.steady AlertExamples.connected).
  exact init_histories_present.
Defined.

End CurrentStatus.

Section InboundRequests.

Import Config ConfigPhones Inbound.

Lemma updateMetrics_effect env count s :
  DPM.updateMetrics env count s
  = (Ok tt, {| DPM.cnf1 := set_metrics (DPM.cnf1 s) (SMS_Count (DPM.cnf1 s) + count)
                             (Some (DPM.now_at env (DPM.now_reads s)));
               DPM.mdm1 := DPM.mdm1 s; DPM.now_reads := S (DPM.now_reads s) |}).
Proof. reflexivity. Qed.

Lemma do_request_unknown env x w :
  unknown_sender (DPM.cnf1 (sys w)) x -> do_request env x w = (Ok tt, w).
Proof.
  intros (phone & Hphone & Hcheck). unfold do_request, mbind, lift, get.
  rewrite Hphone, Hcheck. reflexivity.
Qed.

Lemma for_each_unknown env l : forall w,
  Forall (unknown_sender (DPM.cnf1 (sys w))) l ->
  for_each l (do_request env) w = (Ok tt, w).
Proof.
  induction l as [|x l IH]; intros w Hl; [reflexivity|].
  apply Forall_cons in Hl as [Hx Hl]. cbn [for_each]. unfold mbind.
  rewrite (do_request_unknown env x w Hx). apply IH, Hl.
Qed.

(** A batch that is not empty: the metrics, then the requests. *)
Lemma doInboundSMS_batch env x l w :
  doInboundSMS env (Requests (x :: l)) w
  = for_each (x :: l) (do_request env)
      {| sys := {| DPM.cnf1 := set_metrics (DPM.cnf1 (sys w))
                                 (SMS_Count (DPM.cnf1 (sys w)) + Z.of_nat (length (x :: l)))
                                 (Some (DPM.now_at (dpm_env env) (DPM.now_reads (sys w))));
                   DPM.mdm1 := DPM.mdm1 (sys w);
                   DPM.now_reads := S (DPM.now_reads (sys w)) |};
         tel1 := tel1 w; status_calls := status_calls w; arm_calls := arm_calls w |}.
Proof. reflexivity. Qed.

(** X23. Requests of unknown senders. When no request of the batch has
    a sender whose number is a part of a valid inbound phone,
    [doInboundSMS] returns with nothing armed, no status asked for and
    nothing sent; yet the count of messages of the billing cycle has
    grown by the number of requests of the batch. *)
Theorem doInboundSMS_unknown_senders env l w :
  Forall (unknown_sender (DPM.cnf1 (sys w))) l ->
  exists w',
    doInboundSMS env (Requests l) w = (Ok tt, w')
    /\ arm_calls w' = arm_calls w /\ tel1 w' = tel1 w /\ status_calls w' = status_calls w
    /\ DPM.mdm1 (sys w') = DPM.mdm1 (sys w)
    /\ SMS_Count (DPM.cnf1 (sys w')) = SMS_Count (DPM.cnf1 (sys w)) + Z.of_nat (length l).
Proof.
  intros Hl. destruct l as [|x l].
  - exists w. cbn [doInboundSMS length]. repeat split. cbn. lia.
  - rewrite doInboundSMS_batch.
    match goal with |- context [for_each _ _ ?w1] => set (w1' := w1) end.
    rewrite (for_each_unknown env (x :: l) w1' Hl).
    exists w1'. repeat split.
Qed.

(** Two requests of a stranger. *)
Lemma doInboundSMS_unknown_senders_witness :
  exists w',
    doInboundSMS InboundExamples.env
      (Requests [["1"; "9990001212"; "Arm"; "away"]; ["2"; "9990001212"; "Status?"]])
      InboundExamples.world = (Ok tt, w')
    /\ arm_calls w' = [] /\ tel1 w' = AlertExamples.connected /\ status_calls w' = 0%nat
    /\ DPM.mdm1 (sys w') = ModemExamples.fresh_modem
    /\ SMS_Count (DPM.cnf1 (sys w')) = 2.
Proof.
  apply (doInboundSMS_unknown_senders InboundExamples.env
           [["1"; "9990001212"; "Arm"; "away"]; ["2"; "9990001212"; "Status?"]]
           InboundExamples.world).
  repeat constructor; exists "9990001212"; split; reflexivity.
Defined.

Lemma armMode_of_precedence str1 :
  armMode_of str1
  = if Py.contains "INSTANT" str1 then "7"
    else if Py.contains "NIGHT" str1 then "33"
    else if Py.contains "STAY" str1 then "3" else "2".
Proof.
  unfold armMode_of.
  destruct (Py.contains "INSTANT" str1), (Py.contains "NIGHT" str1),
    (Py.contains "STAY" str1); reflexivity.
Qed.

(** X24. An arming request. For a batch of one request whose sender's
    number is a part of a valid inbound phone, and whose text in upper
    case has ARM somewhere (inside DISARM or ALARM too) and has no
    STATUS: [doInboundSMS] calls [systemArm] once, for that valid
    phone, for partition 2 when the text has a 2 or TWO and partition 1
    otherwise, in the mode INSTANT, NIGHT, STAY or AWAY, the first of
    these words the text has in this order of precedence, AWAY being the
    default. Nothing is sent. *)
Theorem doInboundSMS_arms env x phone validphone w :
  Py.nth_item x 1 = Ok phone ->
  checkInboundPhoneSMS (DPM.cnf1 (sys w)) phone = Some validphone ->
  Py.contains "STATUS" (request_text x) = false ->
  Py.contains "ARM" (request_text x) = true ->
  let str1 := request_text x in
  let partition := if Py.contains "2" str1 || Py.contains "TWO" str1 then "2" else "1" in
  let armMode := if Py.contains "INSTANT" str1 then "7"
                 else if Py.contains "NIGHT" str1 then "33"
                 else if Py.contains "STAY" str1 then "3" else "2" in
  exists w',
    doInboundSMS env (Requests [x]) w = (arm_outcome env (length (arm_calls w)), w')
    /\ arm_calls w' = (validphone, partition, armMode) :: arm_calls w
    /\ DPM.mdm1 (sys w') = DPM.mdm1 (sys w) /\ status_calls w' = status_calls w.
Proof.
  intros Hphone Hcheck Hstatus Harm str1 partition armMode.
  rewrite doInboundSMS_batch.
  cbn [for_each]. unfold mbind at 1, do_request, mbind at 1, lift at 1.
  rewrite Hphone. unfold mbind at 1, get at 1. cbn [sys DPM.cnf1].
  change (checkInboundPhoneSMS (set_metrics ?c ?n ?d) phone)
    with (checkInboundPhoneSMS c phone).
  rewrite Hcheck. cbv zeta. rewrite Hstatus, Harm. unfold systemArm.
  cbn [arm_calls sys tel1 status_calls]. fold str1.
  destruct (arm_outcome env (length (arm_calls w))) as [[]|e]; eexists;
    (split; [reflexivity|]); cbn [arm_calls sys DPM.mdm1 status_calls];
    rewrite armMode_of_precedence; repeat split.
Qed.

(** The word DISARM, from a valid phone given without its area code. *)
Lemma doInboundSMS_arms_witness :
  exists w',
    doInboundSMS InboundExamples.env (Requests [["1"; "0004"; "Disarm"; "partition"; "two"]])
      InboundExamples.world = (Ok tt, w')
    /\ arm_calls w' = [("5550004", "2", "2")]
    /\ DPM.mdm1 (sys w') = ModemExamples.fresh_modem /\ status_calls w' = 0%nat.
Proof.
  apply (doInboundSMS_arms InboundExamples.env ["1"; "0004"; "Disarm"; "partition"; "two"]
           "0004" "5550004" InboundExamples.world); reflexivity.
Defined.

End InboundRequests.

Section InboundStatus.

Import Config ConfigPhones Inbound.

(** The status branch of one request, after the status was read. *)
Lemma do_request_status env x phone validphone w r t :
  Py.nth_item x 1 = Ok phone ->
  checkInboundPhoneSMS (DPM.cnf1 (sys w)) phone = Some validphone ->
  Py.contains "STATUS" (request_text x) = true ->
  TelnetStatus.getCurrentStatus (status_world env (status_calls w)) (tel1 w) = (Ok r, t) ->
  exists res w',
    do_request env x w = (res, w')
    /\ tel1 w' = t /\ arm_calls w' = arm_calls w
    /\ match r with
       | None => res = Raise AttributeError /\ sys w' = sys w
       | Some m =>
           Modem.submitted (DPM.mdm1 (sys w')) = Modem.submitted (DPM.mdm1 (sys w))
           \/ Modem.submitted (DPM.mdm1 (sys w'))
              = (Py.replace "," ", " m, validphone) :: Modem.submitted (DPM.mdm1 (sys w))
       end.
Proof.
  intros Hphone Hcheck Hstatus Hget.
  unfold do_request, mbind at 1, lift at 1. rewrite Hphone.
  unfold mbind at 1, get at 1. rewrite Hcheck. cbv zeta. rewrite Hstatus.
  unfold mbind at 1, getCurrentStatus at 1. rewrite Hget.
  destruct r as [m|]; cbn [spaced]; unfold mbind at 1, lift at 1.
  2: { eexists _, _. split; [reflexivity|]. repeat split. }
  unfold mbind at 1, get at 1. cbn [sys].
  destruct (SendSMS (DPM.cnf1 (sys w))).
  2: { eexists _, _. split; [reflexivity|]. cbn. repeat split. left. reflexivity. }
  unfold mbind at 1, on_sys at 1, DPM.sendSMS, mbind, get, DPM.on_mdm. cbn [sys].
  pose proof (sendSMS_submits_once (DPM.cnf1 (sys w)) (DPM.modem_env (dpm_env env))
                (Py.replace "," ", " m) validphone (DPM.mdm1 (sys w))) as Hsub.
  destruct (Modem.sendSMS (DPM.cnf1 (sys w)) (DPM.modem_env (dpm_env env))
              (Py.replace "," ", " m) validphone (DPM.mdm1 (sys w))) as [[rc|e] d];
    cbn [snd] in Hsub.
  - destruct (rc =? 0); eexists _, _; (split; [reflexivity|]); cbn; repeat split; exact Hsub.
  - eexists _, _. split; [reflexivity|]. cbn. repeat split. exact Hsub.
Qed.

(** X25. A status request. For a batch of one request whose sender's
    number is a part of a valid inbound phone and whose text in upper
    case has STATUS, on an engine that holds the histories of the
    constructor: [doInboundSMS] asks the engine for the current status
    and arms nothing. When the keypad history the engine is left with
    holds fewer than two entries, the status is [None] and the call
    raises [AttributeError], nothing being sent. Otherwise at most one
    message is submitted, and it is, for that valid phone, the most
    recent keypad text with a space after each comma. *)
Theorem doInboundSMS_status env x phone validphone w :
  histories_present (Telnet.recentMsgs (tel1 w)) ->
  Py.nth_item x 1 = Ok phone ->
  checkInboundPhoneSMS (DPM.cnf1 (sys w)) phone = Some validphone ->
  Py.contains "STATUS" (request_text x) = true ->
  let t := (TelnetStatus.getCurrentStatus (status_world env (status_calls w)) (tel1 w)).2 in
  let h := history (Telnet.recentMsgs t) "msg00txt" in
  exists res w',
    doInboundSMS env (Requests [x]) w = (res, w')
    /\ tel1 w' = t /\ arm_calls w' = arm_calls w
    /\ ((size h < 2)%nat ->
        res = Raise AttributeError
        /\ Modem.submitted (DPM.mdm1 (sys w')) = Modem.submitted (DPM.mdm1 (sys w)))
    /\ (forall k m, latest_key h k -> h !! k = Some m -> (2 <= size h)%nat ->
        Modem.submitted (DPM.mdm1 (sys w')) = Modem.submitted (DPM.mdm1 (sys w))
        \/ Modem.submitted (DPM.mdm1 (sys w'))
           = (Py.replace "," ", " m, validphone) :: Modem.submitted (DPM.mdm1 (sys w))).
Proof.
  intros Hp Hphone Hcheck Hstatus t h. subst h t.
  unfold TelnetStatus.getCurrentStatus.
  destruct (status_loop_view
              (map (fun x0 => (status_world env (status_calls w) (2 * x0)%nat,
                               status_world env (status_calls w) (2 * x0 + 1)%nat))
                   (seq 0 10))
              None None (tel1 w) ltac:(discriminate) Hp
              (or_introl eq_refl) (or_introl eq_refl))
    as (r & t & Hget & _ & Hview).
  rewrite Hget. cbn [snd]. rewrite doInboundSMS_batch.
  match goal with |- context [for_each _ _ ?w1] => set (w1' := w1) end.
  destruct (do_request_status env x phone validphone w1' r t Hphone Hcheck Hstatus Hget)
    as (res & w' & Hreq & Htel & Harm & Hr).
  cbn [for_each]. unfold mbind. rewrite Hreq.
  assert (Hfinal : exists res', (match res with
                                 | Ok _ => ret tt w'
                                 | Raise e => (Raise e, w')
                                 end) = (res', w')
                                /\ (res = Raise AttributeError -> res' = Raise AttributeError)).
  { destruct res as [[]|e]; eexists; (split; [reflexivity|]); [discriminate|tauto]. }
  destruct Hfinal as (res' & -> & Hres'). exists res', w'.
  split; [reflexivity|]. split; [exact Htel|]. split; [exact Harm|].
  unfold keypad_view in Hview. split.
  - intros Hsize. destruct r as [m|].
    + destruct Hview as (k & _ & _ & H2). lia.
    + destruct Hr as [-> Hsys]. split; [apply Hres'; reflexivity|]. rewrite Hsys. reflexivity.
  - intros k m Hk Hm Hsize. destruct r as [m'|]; [|lia].
    destruct Hview as (k' & Hk' & Hm' & _).
    rewrite (latest_key_unique _ _ _ Hk Hk') in Hm. rewrite Hm in Hm'. injection Hm' as <-.
    exact Hr.
Qed.

(** A status request to an engine that has seen no keypad message, while
    the keypad repeats its status. *)
Lemma doInboundSMS_status_witness :
  exists res w',
    doInboundSMS InboundExamples.env (Requests [["1"; "5550004"; "Status?"]])
      InboundExamples.world = (res, w')
    /\ Modem.submitted (DPM.mdm1 (sys w')) = [("ARMED STAY, AC PRESENT", "5550004")].
Proof.
  destruct (doInboundSMS_status InboundExamples.env ["1"; "5550004"; "Status?"]
              "5550004" "5550004" InboundExamples.world init_histories_present
              eq_refl eq_refl eq_refl) as (res & w' & Heq & _ & _ & _ & _).
  exists res, w'. split; [exact Heq|].
  vm_compute in Heq. injection Heq as _ <-. reflexivity.
Defined.

End InboundStatus.
